(** * High-conviction strategy: a shallow embedding of [your_strategy.py]

  The development follows the Python class
  [HighConvictionUltraProfitStrategy] method by method.

  Numbers.  Python floats are modelled by exact rationals ([Q]); every
  statement below is therefore a statement "under exact arithmetic".
  Comparisons are the boolean tests of [QArith]; arithmetic equalities are
  stated with [==] ([Qeq]).  The two places where the source leaves the
  rationals ([math.sqrt] and [statistics.pstdev]) go through the
  [FloatMath] interface, and every theorem holds for every implementation
  of it.

  Exceptions.  A Python division by zero, an index out of range or a
  square root of a negative number raises; these are the [Raise] results.

  Clock.  [generate_signal] reads [datetime.now(timezone.utc)] on its
  first line; the reading is the argument [now] of the model.

  Logging.  [_log_local] only writes to a logger and swallows every
  failure, so it is left out. *)

From Stdlib Require Import ZArith QArith Qabs Qround List String Ascii Bool Lia.
From Stdlib Require Import DecimalString Lqa.
Import ListNotations.

Local Open Scope string_scope.
Local Open Scope Z_scope.

(* ------------------------------------------------------------------ *)
(** * Python values and built-ins *)

Module Py.

Inductive exn : Type :=
| ZeroDivisionError
| IndexError
| ValueError.

Inductive result (A : Type) : Type :=
| Ok (a : A)
| Raise (e : exn).
Arguments Ok {A} a.
Arguments Raise {A} e.

Definition bind {A B} (r : result A) (k : A -> result B) : result B :=
  match r with
  | Ok a => k a
  | Raise e => Raise e
  end.

(** Rational comparisons as booleans. *)
Definition Qltb (a b : Q) : bool := negb (Qle_bool b a).
Definition Qleb (a b : Q) : bool := Qle_bool a b.
Definition Qgtb (a b : Q) : bool := Qltb b a.
Definition Qgeb (a b : Q) : bool := Qle_bool b a.
Definition Qeqb (a b : Q) : bool := Qeq_bool a b.

(** [a / b] raises on a zero divisor. *)
Definition div (a b : Q) : result Q :=
  if Qeqb b 0 then Raise ZeroDivisionError else Ok (a / b)%Q.

(** [min(a, b)] and [max(a, b)]: the first argument wins ties. *)
Definition min (a b : Q) : Q := if Qltb b a then b else a.
Definition max (a b : Q) : Q := if Qgtb b a then b else a.

(** [sum(l)] over numbers. *)
Definition sum (l : list Q) : Q := fold_left Qplus l 0%Q.

(** [len(l)] as a Python int. *)
Definition len {A} (l : list A) : Z := Z.of_nat (List.length l).

(** [l[i:]]: a negative start counts from the end, and both ends clip. *)
Definition slice_from {A} (i : Z) (l : list A) : list A :=
  let start := if i <? 0 then Z.max 0 (len l + i) else Z.min i (len l) in
  skipn (Z.to_nat start) l.

(** [l[i]]: a negative index counts from the end; out of range raises. *)
Definition index (l : list Q) (i : Z) : result Q :=
  let j := if i <? 0 then len l + i else i in
  if (j <? 0) || (len l <=? j) then Raise IndexError
  else Ok (nth (Z.to_nat j) l 0%Q).

(** [[v for _ in range(n)]]: empty for [n <= 0]. *)
Definition replicate {A} (n : Z) (v : A) : list A := repeat v (Z.to_nat n).

(** ** Fixed-point formatting ([f"{x:.3f}"]) *)

(** Nearest integer, ties to even. *)
Definition round_half_even (x : Q) : Z :=
  let f := Qfloor x in
  match (x - inject_Z f ?= 1 # 2)%Q with
  | Lt => f
  | Gt => f + 1
  | Eq => if Z.even f then f else f + 1
  end.

Definition digit (z : Z) : ascii := ascii_of_nat (48 + Z.to_nat (z mod 10)).

(** The last [n] decimal digits of [z], zero padded. *)
Fixpoint digits (n : nat) (z : Z) : string :=
  match n with
  | O => ""
  | S k => digits k (z / 10) ++ String (digit z) ""
  end.

Definition str_nat (z : Z) : string :=
  NilZero.string_of_uint (N.to_uint (Z.to_N z)).

(** [format(x, ".<d>f")]. *)
Definition format_fixed (d : nat) (x : Q) : string :=
  let n := round_half_even (Qabs x * inject_Z (10 ^ Z.of_nat d))%Q in
  (if Qltb x 0 then "-" else "")
    ++ str_nat (n / 10 ^ Z.of_nat d)
    ++ match d with O => "" | _ => "." ++ digits d n end.

(** [format(x, ".<d>%")]. *)
Definition format_percent (d : nat) (x : Q) : string :=
  format_fixed d (x * 100)%Q ++ "%".

(** [needle in hay] on strings. *)
Fixpoint contains (needle hay : string) : bool :=
  String.prefix needle hay
  || match hay with
     | EmptyString => false
     | String _ rest => contains needle rest
     end.

(** [l.append(x)]. *)
Definition append {A} (l : list A) (x : A) : list A := app l [x].

(** ["|".join(l)]. *)
Fixpoint join (sep : string) (l : list string) : string :=
  match l with
  | [] => ""
  | [s] => s
  | s :: rest => s ++ sep ++ join sep rest
  end.

End Py.

Notation "x <- r ;; k" := (Py.bind r (fun x => k))
(at level 61, r at next level, right associativity).

(** The part of the float library the strategy relies on. *)
Class FloatMath : Type := { fsqrt : Q -> Q }.

(* ------------------------------------------------------------------ *)
(** * Technical indicators *)

Section Indicators.
Context `{FloatMath}.
Import Py.

(** [math.sqrt] raises [ValueError] on a negative argument. *)
Definition math_sqrt (x : Q) : result Q :=
  if Qltb x 0 then Raise ValueError else Ok (fsqrt x).

(** [statistics.pstdev]: population standard deviation. *)
Definition pstdev (data : list Q) : Q :=
  let n := inject_Z (len data) in
  let mu := (sum data / n)%Q in
  fsqrt (sum (map (fun x => (x - mu) * (x - mu))%Q data) / n)%Q.

Definition _calculate_sma (prices : list Q) (window : Z)
  : result (option Q) :=
  if len prices <? window then Ok None
  else
    m <- div (sum (slice_from (- window) prices)) (inject_Z window) ;;
    Ok (Some m).

(** [[prices[i] - prices[i-1] for i in range(1, len(prices))]]. *)
Fixpoint deltas_of (prices : list Q) : list Q :=
  match prices with
  | a :: (b :: _) as rest => (b - a)%Q :: deltas_of rest
  | _ => []
  end.

Definition _calculate_rsi (prices : list Q) (period : Z)
  : result (option Q) :=
  if len prices <? period + 1 then Ok None
  else
    let deltas := deltas_of prices in
    let gains :=
      map (fun delta => if Qgtb delta 0 then delta else 0%Q)
          (slice_from (- period) deltas) in
    let losses :=
      map (fun delta => if Qltb delta 0 then (- delta)%Q else 0%Q)
          (slice_from (- period) deltas) in
    avg_gain <- div (sum gains) (inject_Z period) ;;
    avg_loss <- div (sum losses) (inject_Z period) ;;
    if Qeqb avg_loss 0 then
      Ok (Some (if Qgtb avg_gain 0 then 100%Q else 50%Q))
    else
      rs <- div avg_gain avg_loss ;;
      q <- div 100 (1 + rs) ;;
      Ok (Some (100 - q)%Q).

Definition _calculate_bollinger_bands
  (prices : list Q) (period : Z) (std_dev : Q)
  : result (option (Q * Q * Q)) :=
  if len prices <? period then Ok None
  else
    mb <- _calculate_sma prices period ;;
    match mb with
    | None => Ok None
    | Some middle_band =>
        variance <-
          div (sum (map (fun price =>
                           (price - middle_band) * (price - middle_band))%Q
                        (slice_from (- period) prices)))
              (inject_Z period) ;;
        std_deviation <- math_sqrt variance ;;
        let upper_band := (middle_band + std_dev * std_deviation)%Q in
        let lower_band := (middle_band - std_dev * std_deviation)%Q in
        Ok (Some (middle_band, upper_band, lower_band))
    end.

(** The nested helper [_calculate_ema] of [_calculate_macd]. *)
Definition _calculate_ema (data : list Q) (period : Z)
  : result (option Q) :=
  if len data <? period then Ok None
  else
    k <- div 2 (inject_Z (period + 1)) ;;
    seed <- index data (- period) ;;
    Ok (Some (fold_left (fun ema price => price * k + ema * (1 - k))%Q
                        (slice_from (- period + 1) data) seed)).

Definition _calculate_macd
  (prices : list Q) (fast_period slow_period signal_period : Z)
  : result (option (Q * Q * Q)) :=
  if len prices <? slow_period + signal_period then Ok None
  else
    fast <- _calculate_ema prices fast_period ;;
    slow <- _calculate_ema prices slow_period ;;
    match fast, slow with
    | Some fast_ema, Some slow_ema =>
        let macd_line := (fast_ema - slow_ema)%Q in
        sl <- _calculate_ema
                (replicate signal_period (fast_ema - slow_ema)%Q)
                signal_period ;;
        match sl with
        | None => Ok None
        | Some signal_line =>
            let histogram := (macd_line - signal_line)%Q in
            Ok (Some (macd_line, signal_line, histogram))
        end
    | _, _ => Ok None
    end.

(** The loop of [_calculate_volatility] that collects simple returns. *)
Fixpoint returns_of (window_prices : list Q) : list Q :=
  match window_prices with
  | a :: (b :: _) as rest =>
      if Qgtb a 0 then ((b - a) / a)%Q :: returns_of rest
      else returns_of rest
  | _ => []
  end.

Definition _calculate_volatility (prices : list Q) (window : Z)
  : option Q :=
  if len prices <? window then None
  else
    let returns := returns_of (slice_from (- window) prices) in
    if len returns <? 2 then Some 0%Q
    else Some (pstdev returns).

End Indicators.

(* ------------------------------------------------------------------ *)
(** * Timestamps

    A [datetime] holds the civil fields of CPython's [datetime] object.
    Every timestamp the strategy stores comes from
    [datetime.now(timezone.utc)] or from parsing its own export, so all of
    them are aware and in UTC, and the [tzinfo is None] branch of [_utc_iso]
    is the identity on them.  A [timedelta] is its number of microseconds. *)

Module Datetime.

Record datetime : Type := mk_datetime {
  year : Z; month : Z; day : Z;
  hour : Z; minute : Z; second : Z;
  microsecond : Z
}.

Definition timedelta : Type := Z.

Definition is_leap (y : Z) : bool :=
  (y mod 4 =? 0) && (negb (y mod 100 =? 0) || (y mod 400 =? 0)).

Definition days_in_month (y m : Z) : Z :=
  if m =? 2 then (if is_leap y then 29 else 28)
  else if (m =? 4) || (m =? 6) || (m =? 9) || (m =? 11) then 30
  else 31.

Definition days_before_year (y : Z) : Z :=
  let p := y - 1 in p * 365 + p / 4 - p / 100 + p / 400.

Definition days_before_month (y m : Z) : Z :=
  nth (Z.to_nat m) [0; 0; 31; 59; 90; 120; 151; 181; 212; 243; 273; 304; 334] 0
  + (if (2 <? m) && is_leap y then 1 else 0).

Definition toordinal (d : datetime) : Z :=
  days_before_year (year d) + days_before_month (year d) (month d) + day d.

Definition valid (d : datetime) : Prop :=
  1 <= year d <= 9999 /\ 1 <= month d <= 12
  /\ 1 <= day d <= days_in_month (year d) (month d)
  /\ 0 <= hour d < 24 /\ 0 <= minute d < 60 /\ 0 <= second d < 60
  /\ 0 <= microsecond d < 1000000.

Definition total_microseconds (d : datetime) : Z :=
  ((toordinal d * 86400
    + (hour d * 3600 + minute d * 60 + second d)) * 1000000)
  + microsecond d.

(** [a - b]. *)
Definition sub (a b : datetime) : timedelta :=
  total_microseconds a - total_microseconds b.

(** [timedelta(hours=h)]. *)
Definition hours (h : Z) : timedelta := h * 3600 * 1000000.

(** [td.days]: timedeltas are normalised with a floor. *)
Definition days (td : timedelta) : Z := td / (86400 * 1000000).

(** [td.total_seconds()]. *)
Definition total_seconds (td : timedelta) : Q := inject_Z td / 1000000.

(** [dt.isoformat(timespec="seconds")] of an aware UTC datetime. *)
Definition isoformat_seconds (d : datetime) : string :=
  Py.digits 4 (year d) ++ "-" ++ Py.digits 2 (month d) ++ "-"
    ++ Py.digits 2 (day d) ++ "T" ++ Py.digits 2 (hour d) ++ ":"
    ++ Py.digits 2 (minute d) ++ ":" ++ Py.digits 2 (second d) ++ "+00:00".

Definition digit_val (c : ascii) : option Z :=
  let n := Z.of_nat (nat_of_ascii c) in
  if (48 <=? n) && (n <=? 57) then Some (n - 48) else None.

Fixpoint parse_digits (n : nat) (acc : Z) (s : string)
  : option (Z * string) :=
  match n with
  | O => Some (acc, s)
  | S k =>
      match s with
      | String c rest =>
          match digit_val c with
          | Some v => parse_digits k (acc * 10 + v) rest
          | None => None
          end
      | EmptyString => None
      end
  end.

Definition expect (lit s : string) : option string :=
  if String.prefix lit s
  then Some (String.substring (String.length lit)
                              (String.length s - String.length lit) s)
  else None.

Definition obind {A B} (o : option A) (k : A -> option B) : option B :=
  match o with Some a => k a | None => None end.

(** [datetime.fromisoformat] on the texts [isoformat_seconds] emits:
    [YYYY-MM-DDTHH:MM:SS+00:00] with fields in range.  [None] stands for
    every other text; what Python does with those (other layouts are
    accepted, malformed ones raise [ValueError]) is outside the model. *)
Definition fromisoformat (s : string) : option datetime :=
  obind (parse_digits 4 0 s) (fun '(y, s) =>
  obind (expect "-" s) (fun s =>
  obind (parse_digits 2 0 s) (fun '(mo, s) =>
  obind (expect "-" s) (fun s =>
  obind (parse_digits 2 0 s) (fun '(d, s) =>
  obind (expect "T" s) (fun s =>
  obind (parse_digits 2 0 s) (fun '(h, s) =>
  obind (expect ":" s) (fun s =>
  obind (parse_digits 2 0 s) (fun '(mi, s) =>
  obind (expect ":" s) (fun s =>
  obind (parse_digits 2 0 s) (fun '(se, s) =>
  if String.eqb s "+00:00"
     && (1 <=? y) && (1 <=? mo) && (mo <=? 12)
     && (1 <=? d) && (d <=? days_in_month y mo)
     && (h <? 24) && (mi <? 60) && (se <? 60)
  then Some (mk_datetime y mo d h mi se 0)
  else None))))))))))).

End Datetime.

(** [_utc_iso]: "ISO timestamp with UTC tzinfo (seconds precision)". *)
Definition _utc_iso (dt : Datetime.datetime) : string :=
  Datetime.isoformat_seconds dt.

(* ------------------------------------------------------------------ *)
(** * Data model *)

Import Py.
Import Datetime.

(** The parameters read by [__init__]. *)
Record Config : Type := {
  conviction_threshold : Q;
  rsi_period : Z;
  rsi_overbought : Q;
  rsi_oversold : Q;
  bb_period : Z;
  bb_std : Q;
  macd_fast : Z;
  macd_slow : Z;
  macd_signal : Z;
  base_position_pct : Q;
  max_position_pct : Q;
  conviction_position_multiplier : Q;
  stop_loss_pct : Q;
  take_profit_pct : Q;
  trailing_stop_pct : Q;
  max_drawdown_pct : Q;
  consecutive_loss_limit : Z;
  max_trades : Z;
  min_time_between_trades : Z
}.

(** The defaults of [config.get]. *)
Definition default_config : Config := {|
  conviction_threshold := 0.9;
  rsi_period := 14;
  rsi_overbought := 80;
  rsi_oversold := 20;
  bb_period := 20;
  bb_std := 2.0;
  macd_fast := 12;
  macd_slow := 26;
  macd_signal := 9;
  base_position_pct := 0.15;
  max_position_pct := 0.4;
  conviction_position_multiplier := 2.0;
  stop_loss_pct := 0.03;
  take_profit_pct := 0.15;
  trailing_stop_pct := 0.05;
  max_drawdown_pct := 0.2;
  consecutive_loss_limit := 2;
  max_trades := 30;
  min_time_between_trades := 6
|}.

(** The "internal state" attributes of the instance. *)
Record State : Type := mk_state {
  _last_signal : option string;
  _entry_price : option Q;
  _entry_time : option datetime;
  _trailing_high : option Q;
  _trailing_low : option Q;
  _consecutive_losses : Z;
  _peak_portfolio_value : Q;
  _price_history : list Q;
  _win_loss_history : list bool;
  _trade_count : Z;
  _last_trade_time : option datetime;
  _recent_performance_score : Q
}.

(** The state [__init__] leaves behind. *)
Definition init_state : State := {|
  _last_signal := None;
  _entry_price := None;
  _entry_time := None;
  _trailing_high := None;
  _trailing_low := None;
  _consecutive_losses := 0;
  _peak_portfolio_value := 0.0;
  _price_history := [];
  _win_loss_history := [];
  _trade_count := 0;
  _last_trade_time := None;
  _recent_performance_score := 1.0
|}.

(** Attribute assignments. *)
Definition set_peak_portfolio_value (st : State) (v : Q) : State :=
  mk_state (_last_signal st) (_entry_price st) (_entry_time st)
           (_trailing_high st) (_trailing_low st) (_consecutive_losses st)
           v (_price_history st) (_win_loss_history st) (_trade_count st)
           (_last_trade_time st) (_recent_performance_score st).

Definition set_consecutive_losses (st : State) (n : Z) : State :=
  mk_state (_last_signal st) (_entry_price st) (_entry_time st)
           (_trailing_high st) (_trailing_low st) n
           (_peak_portfolio_value st) (_price_history st)
           (_win_loss_history st) (_trade_count st)
           (_last_trade_time st) (_recent_performance_score st).

Definition set_trailing_high (st : State) (v : option Q) : State :=
  mk_state (_last_signal st) (_entry_price st) (_entry_time st)
           v (_trailing_low st) (_consecutive_losses st)
           (_peak_portfolio_value st) (_price_history st)
           (_win_loss_history st) (_trade_count st)
           (_last_trade_time st) (_recent_performance_score st).

Definition set_price_history (st : State) (h : list Q) : State :=
  mk_state (_last_signal st) (_entry_price st) (_entry_time st)
           (_trailing_high st) (_trailing_low st) (_consecutive_losses st)
           (_peak_portfolio_value st) h
           (_win_loss_history st) (_trade_count st)
           (_last_trade_time st) (_recent_performance_score st).

(** [MarketSnapshot] and [Portfolio] of the base template, by the fields
    the strategy reads and the test constructs. *)
Record MarketSnapshot : Type := {
  symbol : string;
  current_price : Q;
  prices : list Q;
  timestamp : datetime
}.

Record Portfolio : Type := {
  portfolio_symbol : string;
  cash : Q;
  quantity : Q
}.

(** [Signal(action, size=None, reason=...)]. *)
Record Signal : Type := mk_signal {
  action : string;
  size : option Q;
  reason : string
}.

Definition hold (why : string) : Signal := mk_signal "hold" None why.

(** [self._last_signal == s]. *)
Definition last_signal_is (st : State) (s : string) : bool :=
  match _last_signal st with
  | Some l => String.eqb l s
  | None => false
  end.

(** Truthiness of an [Optional[float]]: neither [None] nor zero. *)
Definition truthy (o : option Q) : bool :=
  match o with
  | Some v => negb (Qeqb v 0)
  | None => false
  end.

(** [o and test(o)] for an optional number. *)
Definition truthy_and (o : option Q) (test : Q -> bool) : bool :=
  match o with
  | Some v => negb (Qeqb v 0) && test v
  | None => false
  end.

(* ------------------------------------------------------------------ *)
(** * Conviction scorer *)

Section Strategy.
Context `{FloatMath}.
Variable cfg : Config.

(** The window the scorer and the orchestrator both require. *)
Definition required_history : Z :=
  Z.max (Z.max (rsi_period cfg) (bb_period cfg)) (macd_slow cfg).

(** The running pair ([conviction_score], [reasons]). *)
Definition tally : Type := (Q * list string)%type.

(** "1. RSI Extreme Confirmation". *)
Definition rsi_confirmation (market : MarketSnapshot) (acc : tally)
  : result tally :=
  let '(conviction_score, reasons) := acc in
  rsi <- _calculate_rsi (prices market) (rsi_period cfg) ;;
  match rsi with
  | None => Ok acc
  | Some rsi =>
      if Qltb rsi (rsi_oversold cfg) then
        rsi_score <- div (rsi_oversold cfg - rsi) (rsi_oversold cfg) ;;
        Ok ((conviction_score + rsi_score * 0.4)%Q,
            append reasons ("rsi_oversold:" ++ format_fixed 2 rsi))
      else if Qgtb rsi (rsi_overbought cfg) then
        rsi_score <- div (rsi - rsi_overbought cfg)
                         (100 - rsi_overbought cfg) ;;
        Ok ((conviction_score - rsi_score * 0.4)%Q,
            append reasons ("rsi_overbought:" ++ format_fixed 2 rsi))
      else Ok acc
  end.

(** "2. Bollinger Band Extreme Confirmation". *)
Definition bollinger_confirmation (market : MarketSnapshot) (acc : tally)
  : result tally :=
  let '(conviction_score, reasons) := acc in
  let current_price := current_price market in
  bb <- _calculate_bollinger_bands (prices market) (bb_period cfg)
                                   (bb_std cfg) ;;
  match bb with
  | None => Ok acc
  | Some (middle_band, upper_band, lower_band) =>
      if Qltb current_price lower_band then
        d <- div (lower_band - current_price) lower_band ;;
        let bb_score := min 1.0 (d * 2)%Q in
        Ok ((conviction_score + bb_score * 0.3)%Q,
            append reasons ("bb_oversold:" ++ format_fixed 3 bb_score))
      else if Qgtb current_price upper_band then
        d <- div (current_price - upper_band) upper_band ;;
        let bb_score := min 1.0 (d * 2)%Q in
        Ok ((conviction_score - bb_score * 0.3)%Q,
            append reasons ("bb_overbought:" ++ format_fixed 3 bb_score))
      else Ok acc
  end.

(** "3. MACD Confirmation". *)
Definition macd_confirmation (market : MarketSnapshot) (acc : tally)
  : result tally :=
  let '(conviction_score, reasons) := acc in
  macd_result <- _calculate_macd (prices market) (macd_fast cfg)
                                 (macd_slow cfg) (macd_signal cfg) ;;
  match macd_result with
  | None => Ok acc
  | Some (macd_line, signal_line, histogram) =>
      if Qgtb histogram 0 && Qgtb macd_line signal_line then
        let macd_score := min 1.0 (histogram * 10)%Q in
        Ok ((conviction_score + macd_score * 0.3)%Q,
            append reasons ("macd_bullish:" ++ format_fixed 3 macd_score))
      else if Qltb histogram 0 && Qltb macd_line signal_line then
        let macd_score := min 1.0 (Qabs histogram * 10)%Q in
        Ok ((conviction_score - macd_score * 0.3)%Q,
            append reasons ("macd_bearish:" ++ format_fixed 3 macd_score))
      else Ok acc
  end.

Definition _high_conviction_signal (market : MarketSnapshot)
  : result (Q * string) :=
  if len (prices market) <? required_history then
    Ok (0.0%Q, "insufficient_data")
  else
    acc <- rsi_confirmation market (0.0%Q, []) ;;
    acc <- bollinger_confirmation market acc ;;
    acc <- macd_confirmation market acc ;;
    let '(conviction_score, reasons) := acc in
    let reason :=
      match reasons with
      | [] => "no_conviction"
      | _ => join "|" reasons
      end in
    Ok (conviction_score, reason).

(* ------------------------------------------------------------------ *)
(** * Position sizer *)

(** [sum(history[-5:])]: the number of wins among the last five. *)
Definition count_wins (l : list bool) : Z :=
  fold_left (fun n (w : bool) => if w then n + 1 else n) l 0.

Definition _calculate_optimal_position_size
  (st : State) (market : MarketSnapshot) (portfolio_value : Q)
  (conviction_score : Q) : Q :=
  let base_size := base_position_pct cfg in
  let position_factor :=
    if Qgeb conviction_score 0.9 then conviction_position_multiplier cfg
    else if Qgeb conviction_score 0.8 then 1.5%Q
    else 1.0%Q in
  let performance_factor :=
    if 5 <=? len (_win_loss_history st) then
      let recent_win_rate :=
        (inject_Z (count_wins (slice_from (-5) (_win_loss_history st)))
         / 5)%Q in
      if Qltb recent_win_rate 0.8 then 0.7%Q else 1.0%Q
    else 1.0%Q in
  let vol_factor :=
    match _calculate_volatility (prices market) 20 with
    | Some current_vol =>
        if Qgtb current_vol 0.03 then 0.8%Q
        else if Qltb current_vol 0.01 then 1.2%Q
        else 1.0%Q
    | None => 1.0%Q
    end in
  let optimal_size :=
    (base_size * position_factor * performance_factor * vol_factor)%Q in
  max 0.05 (min (max_position_pct cfg) optimal_size).

(* ------------------------------------------------------------------ *)
(** * Risk gate *)

Definition _check_trade_limits (st : State) (now : datetime)
  : bool * string :=
  if max_trades cfg <=? _trade_count st then (false, "max_trades_reached")
  else
    match _last_trade_time st with
    | Some last =>
        let time_since_last := Datetime.sub now last in
        let min_interval := Datetime.hours (min_time_between_trades cfg) in
        if time_since_last <? min_interval then
          (false,
           "min_time_between_trades_not_met:"
             ++ format_fixed 1 (total_seconds time_since_last / 3600)%Q
             ++ "h")
        else (true, "ok")
    | None => (true, "ok")
    end.

Definition _check_drawdown_limits (st : State) (portfolio_value : Q)
  : result bool * State :=
  if Qeqb (_peak_portfolio_value st) 0 then
    (Ok true, set_peak_portfolio_value st portfolio_value)
  else
    let st :=
      if Qgtb portfolio_value (_peak_portfolio_value st)
      then set_consecutive_losses
             (set_peak_portfolio_value st portfolio_value) 0
      else st in
    match div (_peak_portfolio_value st - portfolio_value)
              (_peak_portfolio_value st) with
    | Raise e => (Raise e, st)
    | Ok drawdown =>
        let st :=
          if last_signal_is st "sell"
             && truthy_and (_entry_price st) (Qltb portfolio_value)
          then set_consecutive_losses st (_consecutive_losses st + 1)
          else if last_signal_is st "buy"
                  && truthy_and (_entry_price st) (Qgtb portfolio_value)
          then set_consecutive_losses st 0
          else st in
        if consecutive_loss_limit cfg <=? _consecutive_losses st then
          (Ok false, st)
        else if Qgtb drawdown (max_drawdown_pct cfg) then (Ok false, st)
        else (Ok true, st)
    end.

(* ------------------------------------------------------------------ *)
(** * Decision orchestrator *)

(** Which arm of the exit chain under "Risk management overrides" ran.
    This is a ghost value: the Python method does not return it. *)
Inductive exit_branch : Type :=
| NotEvaluated              (* the call ended before the overrides *)
| NotLong                   (* the guard on [_last_signal]/[_entry_price] failed *)
| TrailingIf (fired : bool) (* [if self._trailing_high is not None] was taken *)
| StopLossElif              (* body of the first [elif] *)
| TakeProfitElif            (* body of the second [elif] *)
| TimeExitElif              (* body of the third [elif] *)
| NoElif.                   (* every condition of the chain was false *)

(** "Determine signal direction" and "Position management". *)
Definition position_management
  (st : State) (conviction_score : Q) (conviction_reason : string)
  : string * string :=
  let final_signal := if Qgtb conviction_score 0 then "buy" else "sell" in
  let reason :=
    "CONVICTION:" ++ conviction_reason ++ "|SCORE:"
      ++ format_fixed 3 conviction_score in
  if String.eqb final_signal "buy" && last_signal_is st "buy"
  then ("hold", "already_in_long_position")
  else if String.eqb final_signal "sell" && negb (last_signal_is st "buy")
  then ("hold", "no_long_position_to_sell")
  else (final_signal, reason).

(** "Update trailing high". *)
Definition update_trailing_high (st : State) (current_price : Q) : State :=
  match _trailing_high st with
  | None => set_trailing_high st (Some current_price)
  | Some th =>
      if Qgtb current_price th
      then set_trailing_high st (Some current_price)
      else st
  end.

(** "Risk management overrides": the block guarded by
    [self._last_signal == "buy" and self._entry_price is not None]. *)
Definition risk_overrides
  (st : State) (now : datetime) (current_price : Q)
  (final_signal reason : string)
  : result (string * string * exit_branch) * State :=
  match last_signal_is st "buy", _entry_price st with
  | true, Some entry_price =>
      match div (current_price - entry_price) entry_price with
      | Raise e => (Raise e, st)
      | Ok price_change_pct =>
          let st := update_trailing_high st current_price in
          match _trailing_high st with
          | Some trailing_high =>
              let trailing_stop_price :=
                (trailing_high * (1 - trailing_stop_pct cfg))%Q in
              if Qleb current_price trailing_stop_price then
                (Ok ("sell",
                     "TRAILING_STOP_TRIGGERED | high:"
                       ++ format_fixed 2 trailing_high
                       ++ " | current:" ++ format_fixed 2 current_price,
                     TrailingIf true), st)
              else (Ok (final_signal, reason, TrailingIf false), st)
          | None =>
              if Qleb price_change_pct (- stop_loss_pct cfg) then
                (Ok ("sell",
                     "STOP_LOSS_TRIGGERED | loss:"
                       ++ format_percent 2 price_change_pct,
                     StopLossElif), st)
              else if Qgeb price_change_pct (take_profit_pct cfg) then
                (Ok ("sell",
                     "TAKE_PROFIT_TRIGGERED | profit:"
                       ++ format_percent 2 price_change_pct,
                     TakeProfitElif), st)
              else if match _entry_time st with
                      | Some entry_time =>
                          3 <? Datetime.days (Datetime.sub now entry_time)
                      | None => false
                      end then
                (Ok ("sell", "TIME_BASED_EXIT | position_held_over_3_days",
                     TimeExitElif), st)
              else (Ok (final_signal, reason, NoElif), st)
          end
      end
  | _, _ => (Ok (final_signal, reason, NotLong), st)
  end.

(** The assignments of an executed buy. *)
Definition enter_long (st : State) (now : datetime) (current_price : Q)
  : State :=
  mk_state (Some "buy") (Some current_price) (Some now)
           (Some current_price) (Some current_price)
           (_consecutive_losses st) (_peak_portfolio_value st)
           (_price_history st) (_win_loss_history st)
           (_trade_count st + 1) (Some now)
           (_recent_performance_score st).

(** The assignments of an executed sell. *)
Definition exit_long (st : State) (now : datetime) (is_stop_loss : bool)
  : State :=
  mk_state (if is_stop_loss then Some "sell" else None) None None None None
           (_consecutive_losses st) (_peak_portfolio_value st)
           (_price_history st) (_win_loss_history st)
           (_trade_count st + 1) (Some now)
           (_recent_performance_score st).

(** "Execute final decision". *)
Definition execute_decision
  (st : State) (market : MarketSnapshot) (portfolio : Portfolio)
  (now : datetime) (portfolio_value conviction_score : Q)
  (final_signal reason : string) : result Signal * State :=
  let current_price := current_price market in
  if String.eqb final_signal "buy" then
    let position_size_pct :=
      _calculate_optimal_position_size st market portfolio_value
                                       conviction_score in
    let notional := (cash portfolio * position_size_pct)%Q in
    if Qleb notional 0 then (Ok (hold "Insufficient cash"), st)
    else
      match div notional current_price with
      | Raise e => (Raise e, st)
      | Ok size =>
          if Qleb size 0 then (Ok (hold "Invalid position size"), st)
          else (Ok (mk_signal "buy" (Some size) reason),
                enter_long st now current_price)
      end
  else if String.eqb final_signal "sell" then
    if Qleb (quantity portfolio) 0 then
      (Ok (hold "No position to sell"), st)
    else
      let is_stop_loss :=
        contains "STOP_LOSS" reason || contains "TRAILING_STOP" reason in
      (Ok (mk_signal "sell" (Some (quantity portfolio)) reason),
       exit_long st now is_stop_loss)
  else (Ok (hold reason), st).

(** [generate_signal], with the clock reading [now] of its first line as
    an argument and the exit arm taken as a third, ghost, component. *)
Definition generate_signal_traced
  (st : State) (market : MarketSnapshot) (portfolio : Portfolio)
  (now : datetime) : result Signal * State * exit_branch :=
  let st :=
    let h := append (_price_history st) (current_price market) in
    set_price_history st (if 200 <? len h then slice_from (-200) h else h) in
  if len (prices market) <? required_history then
    (Ok (hold "Insufficient price data"), st, NotEvaluated)
  else
    let current_price := current_price market in
    let portfolio_value :=
      (cash portfolio + quantity portfolio * current_price)%Q in
    let st :=
      if Qgtb portfolio_value (_peak_portfolio_value st)
      then set_peak_portfolio_value st portfolio_value
      else st in
    let '(can_trade, trade_limit_reason) := _check_trade_limits st now in
    if negb can_trade then
      (Ok (hold ("Trade limit: " ++ trade_limit_reason)), st, NotEvaluated)
    else
      match _check_drawdown_limits st portfolio_value with
      | (Raise e, st) => (Raise e, st, NotEvaluated)
      | (Ok false, st) =>
          (Ok (hold "Drawdown limit exceeded"), st, NotEvaluated)
      | (Ok true, st) =>
          match _high_conviction_signal market with
          | Raise e => (Raise e, st, NotEvaluated)
          | Ok (conviction_score, conviction_reason) =>
              if Qltb (Qabs conviction_score) (conviction_threshold cfg) then
                (Ok (hold ("Low conviction: "
                             ++ format_fixed 3 conviction_score)),
                 st, NotEvaluated)
              else
                let '(final_signal, reason) :=
                  position_management st conviction_score
                                      conviction_reason in
                match risk_overrides st now current_price
                                     final_signal reason with
                | (Raise e, st) => (Raise e, st, NotEvaluated)
                | (Ok (final_signal, reason, branch), st) =>
                    let '(r, st) :=
                      execute_decision st market portfolio now
                                       portfolio_value conviction_score
                                       final_signal reason in
                    (r, st, branch)
                end
          end
      end.

Definition generate_signal
  (st : State) (market : MarketSnapshot) (portfolio : Portfolio)
  (now : datetime) : result Signal * State :=
  fst (generate_signal_traced st market portfolio now).

(* ------------------------------------------------------------------ *)
(** * Post-trade callback *)

Definition on_trade
  (st : State) (signal : Signal) (execution_price execution_size : Q)
  (timestamp : datetime) : State :=
  if String.eqb (action signal) "buy" && Qgtb execution_size 0 then st
  else if String.eqb (action signal) "sell" && Qgtb execution_size 0 then
    match _entry_price st with
    | Some entry_price =>
        if Qeqb entry_price 0 then st
        else
          let is_win := Qgtb execution_price entry_price in
          let history :=
            let h := append (_win_loss_history st) is_win in
            if 100 <? len h then tl h else h in
          mk_state (_last_signal st) (_entry_price st) (_entry_time st)
                   (_trailing_high st) (_trailing_low st)
                   (if is_win then 0 else _consecutive_losses st + 1)
                   (_peak_portfolio_value st) (_price_history st)
                   history (_trade_count st) (_last_trade_time st)
                   (if is_win
                    then min 1.2 (_recent_performance_score st + 0.05)%Q
                    else max 0.8 (_recent_performance_score st - 0.1)%Q)
    | None => st
    end
  else st.

End Strategy.

(* ------------------------------------------------------------------ *)
(** * Persistence *)

(** The dictionary exchanged by [get_state] and [set_state]: one field per
    key, [None] for a key that is absent or bound to [None]. *)
Record Snapshot : Type := {
  snap_last_signal : option string;
  snap_entry_price : option Q;
  snap_entry_time : option string;
  snap_trailing_high : option Q;
  snap_trailing_low : option Q;
  snap_consecutive_losses : option Z;
  snap_peak_portfolio_value : option Q;
  snap_trade_count : option Z;
  snap_last_trade_time : option string;
  snap_win_loss_history : option (list bool);
  snap_recent_performance_score : option Q
}.

Definition get_state (st : State) : Snapshot := {|
  snap_last_signal := _last_signal st;
  snap_entry_price := _entry_price st;
  snap_entry_time := option_map _utc_iso (_entry_time st);
  snap_trailing_high := _trailing_high st;
  snap_trailing_low := _trailing_low st;
  snap_consecutive_losses := Some (_consecutive_losses st);
  snap_peak_portfolio_value := Some (_peak_portfolio_value st);
  snap_trade_count := Some (_trade_count st);
  snap_last_trade_time := option_map _utc_iso (_last_trade_time st);
  snap_win_loss_history :=
    Some (if 50 <? len (_win_loss_history st)
          then slice_from (-50) (_win_loss_history st)
          else _win_loss_history st);
  snap_recent_performance_score := Some (_recent_performance_score st)
|}.

(** [state.get(key, default)]. *)
Definition get_or {A} (o : option A) (default : A) : A :=
  match o with Some v => v | None => default end.

(** The guarded assignment
    [t = state.get(key); if t: self._x = datetime.fromisoformat(t)]:
    [Some] of the new attribute value, or [None] when the text is outside
    the model of [fromisoformat]. *)
Definition restore_time (old : option datetime) (text : option string)
  : option (option datetime) :=
  match text with
  | None => Some old
  | Some "" => Some old
  | Some t => option_map Some (fromisoformat t)
  end.

(** [set_state] on an instance in state [st]. *)
Definition set_state (st : State) (state : Snapshot) : option State :=
  match restore_time (_entry_time st) (snap_entry_time state),
        restore_time (_last_trade_time st) (snap_last_trade_time state) with
  | Some entry_time, Some last_trade_time =>
      Some (mk_state (snap_last_signal state) (snap_entry_price state)
                     entry_time
                     (snap_trailing_high state) (snap_trailing_low state)
                     (get_or (snap_consecutive_losses state) 0)
                     (get_or (snap_peak_portfolio_value state) 0.0%Q)
                     (_price_history st)
                     (get_or (snap_win_loss_history state) [])
                     (get_or (snap_trade_count state) 0)
                     last_trade_time
                     (get_or (snap_recent_performance_score state) 1.0%Q))
  | _, _ => None
  end.

(* ------------------------------------------------------------------ *)
(** * Reachable states *)

(** The states an instance can be in after any number of
    [generate_signal] and [on_trade] calls. *)
Inductive reachable `{FloatMath} (cfg : Config) : State -> Prop :=
| reach_init : reachable cfg init_state
| reach_signal st market portfolio now :
    reachable cfg st ->
    reachable cfg (snd (generate_signal cfg st market portfolio now))
| reach_trade st signal execution_price execution_size timestamp :
    reachable cfg st ->
    reachable cfg (on_trade st signal execution_price execution_size
                            timestamp).

(** What [generate_signal] reads of the outcome history. *)
Definition recent_outcomes (history : list bool) : bool * list bool :=
  (5 <=? len history, slice_from (-5) history).

(** The attributes the next decision can depend on: everything but the
    two timestamps and the two histories, of which only
    [recent_outcomes] is kept. *)
Definition decision_view (st : State)
  : option string * option Q * option Q * option Q * Z * Q * Z * Q
    * (bool * list bool) :=
  (_last_signal st, _entry_price st, _trailing_high st, _trailing_low st,
   _consecutive_losses st, _peak_portfolio_value st, _trade_count st,
   _recent_performance_score st, recent_outcomes (_win_loss_history st)).

(** A long position: the guard of the override block. *)
Definition in_long_position (st : State) : Prop :=
  last_signal_is st "buy" = true /\ _entry_price st <> None.

(** A state with its two timestamps erased. *)
Definition forget_times (st : State) : State :=
  mk_state (_last_signal st) (_entry_price st) None
           (_trailing_high st) (_trailing_low st) (_consecutive_losses st)
           (_peak_portfolio_value st) (_price_history st)
           (_win_loss_history st) (_trade_count st) None
           (_recent_performance_score st).

(** [dt.replace(microsecond=0)]. *)
Definition whole_second (dt : datetime) : datetime :=
  mk_datetime (year dt) (month dt) (day dt)
              (hour dt) (minute dt) (second dt) 0.

(* ------------------------------------------------------------------ *)
(** * A concrete float library and concrete scenarios *)

(** Square root to twelve decimals, rounded down. *)
Definition sqrt_approx (x : Q) : Q :=
  (inject_Z (Z.sqrt (Qfloor (x * inject_Z (10 ^ 24))))
   / inject_Z (10 ^ 12))%Q.

Definition decimal_math : FloatMath := {| fsqrt := sqrt_approx |}.

(** The default configuration with one field changed. *)
Definition with_conviction_threshold (c : Config) (v : Q) : Config := {|
  conviction_threshold := v;
  rsi_period := rsi_period c;
  rsi_overbought := rsi_overbought c;
  rsi_oversold := rsi_oversold c;
  bb_period := bb_period c;
  bb_std := bb_std c;
  macd_fast := macd_fast c;
  macd_slow := macd_slow c;
  macd_signal := macd_signal c;
  base_position_pct := base_position_pct c;
  max_position_pct := max_position_pct c;
  conviction_position_multiplier := conviction_position_multiplier c;
  stop_loss_pct := stop_loss_pct c;
  take_profit_pct := take_profit_pct c;
  trailing_stop_pct := trailing_stop_pct c;
  max_drawdown_pct := max_drawdown_pct c;
  consecutive_loss_limit := consecutive_loss_limit c;
  max_trades := max_trades c;
  min_time_between_trades := min_time_between_trades c
|}.

Definition with_max_trades (c : Config) (n : Z) : Config := {|
  conviction_threshold := conviction_threshold c;
  rsi_period := rsi_period c;
  rsi_overbought := rsi_overbought c;
  rsi_oversold := rsi_oversold c;
  bb_period := bb_period c;
  bb_std := bb_std c;
  macd_fast := macd_fast c;
  macd_slow := macd_slow c;
  macd_signal := macd_signal c;
  base_position_pct := base_position_pct c;
  max_position_pct := max_position_pct c;
  conviction_position_multiplier := conviction_position_multiplier c;
  stop_loss_pct := stop_loss_pct c;
  take_profit_pct := take_profit_pct c;
  trailing_stop_pct := trailing_stop_pct c;
  max_drawdown_pct := max_drawdown_pct c;
  consecutive_loss_limit := consecutive_loss_limit c;
  max_trades := n;
  min_time_between_trades := min_time_between_trades c
|}.


(** Defaults, except that a conviction of 0.3 already trades: with the
    default 0.9 no score reaches the threshold. *)
Definition eager_config : Config :=
  with_conviction_threshold default_config 0.3.

(** [n] prices from [start] in steps of [step]. *)
Fixpoint ramp (n : nat) (start step : Z) : list Q :=
  match n with
  | O => []
  | S k => inject_Z start :: ramp k (start + step) step
  end.

(** Forty prices sliding down to 45000, 42000 and 51750. *)
Definition falling_to_45000 : list Q := ramp 40 46950 (-50).
Definition falling_to_42000 : list Q := ramp 40 43950 (-50).
Definition falling_to_51750 : list Q := ramp 40 53700 (-50).
Definition falling_to_46350 : list Q := ramp 40 48300 (-50).

(** Forty prices climbing to 51750. *)
Definition rising_to_51750 : list Q := ramp 40 49800 50.


Definition snapshot_of (history : list Q) (at_time : datetime)
  : MarketSnapshot := {|
  symbol := "BTC-USD";
  current_price := last history 0%Q;
  prices := history;
  timestamp := at_time
|}.

Definition flat_portfolio : Portfolio :=
  {| portfolio_symbol := "BTC-USD"; cash := 10000; quantity := 0 |}.

Definition long_portfolio : Portfolio :=
  {| portfolio_symbol := "BTC-USD"; cash := 8200; quantity := 0.04 |}.

(** Noon and a half second, and later readings of the clock. *)
Definition noon : datetime := mk_datetime 2026 11 4 12 0 0 500000.
Definition one_pm : datetime := mk_datetime 2026 11 4 13 0 0 0.
Definition seven_pm : datetime := mk_datetime 2026 11 4 19 0 0 0.
Definition eight_pm : datetime := mk_datetime 2026 11 4 20 0 0 0.

(** The state after the buy at 45000 that opens every scenario
    (lemma [buy_at_45000] below). *)
Definition bought_at_45000 : State := {|
  _last_signal := Some "buy";
  _entry_price := Some 45000%Q;
  _entry_time := Some noon;
  _trailing_high := Some 45000%Q;
  _trailing_low := Some 45000%Q;
  _consecutive_losses := 0;
  _peak_portfolio_value := 10000;
  _price_history := [45000%Q];
  _win_loss_history := [];
  _trade_count := 1;
  _last_trade_time := Some noon;
  _recent_performance_score := 1.0
|}.



(** [eager_config] with room for a single trade. *)
Definition single_trade_config : Config := with_max_trades eager_config 1.

(* ------------------------------------------------------------------ *)
(** * Quantities named in the statements *)

(** [deltas[-period:]], [avg_gain] and [avg_loss] of [_calculate_rsi]. *)
Definition recent_deltas (prices : list Q) (period : Z) : list Q :=
  slice_from (- period) (deltas_of prices).

Definition average_gain (prices : list Q) (period : Z) : Q :=
  (sum (map (fun delta => if Qgtb delta 0 then delta else 0)
            (recent_deltas prices period))
   / inject_Z period)%Q.

Definition average_loss (prices : list Q) (period : Z) : Q :=
  (sum (map (fun delta => if Qltb delta 0 then - delta else 0)
            (recent_deltas prices period))
   / inject_Z period)%Q.

(* ------------------------------------------------------------------ *)
(** * Well-formed inputs and sessions *)

(** Every indicator window is a positive number of prices and the band
    width factor is not negative. *)
Definition sane_config (cfg : Config) : Prop :=
  0 < rsi_period cfg /\ 0 < bb_period cfg /\ (0 <= bb_std cfg)%Q
  /\ 0 < macd_fast cfg /\ 0 < macd_slow cfg /\ 0 < macd_signal cfg.

(** The square root of the float library is not negative. *)
Definition nonneg_sqrt `{FloatMath} : Prop :=
  forall x : Q, (0 <= x)%Q -> (0 <= fsqrt x)%Q.

(** A snapshot of positive prices. *)
Definition positive_prices (market : MarketSnapshot) : Prop :=
  Forall (fun price => 0 < price)%Q (prices market)
  /\ (0 < current_price market)%Q.

(** [portfolio.cash + portfolio.quantity * current_price]. *)
Definition portfolio_value_of
  (market : MarketSnapshot) (portfolio : Portfolio) : Q :=
  (cash portfolio + quantity portfolio * current_price market)%Q.

(** The attributes that only an executed trade or [on_trade] changes. *)
Definition same_position (a b : State) : Prop :=
  _last_signal a = _last_signal b /\ _entry_price a = _entry_price b
  /\ _entry_time a = _entry_time b /\ _trailing_low a = _trailing_low b
  /\ _trade_count a = _trade_count b
  /\ _last_trade_time a = _last_trade_time b
  /\ _win_loss_history a = _win_loss_history b
  /\ _recent_performance_score a = _recent_performance_score b.

(** A session: every [generate_signal] call is followed, or not, by the
    [on_trade] callback for the signal that call returned. *)
Inductive session `{FloatMath} (cfg : Config) : State -> Prop :=
| session_init : session cfg init_state
| session_signal st market portfolio now :
    session cfg st ->
    session cfg (snd (generate_signal cfg st market portfolio now))
| session_trade st market portfolio now sig st'
                execution_price execution_size timestamp :
    session cfg st ->
    generate_signal cfg st market portfolio now = (Ok sig, st') ->
    session cfg (on_trade st' sig execution_price execution_size timestamp).

(** The empty dictionary. *)
Definition empty_snapshot : Snapshot := {|
  snap_last_signal := None;
  snap_entry_price := None;
  snap_entry_time := None;
  snap_trailing_high := None;
  snap_trailing_low := None;
  snap_consecutive_losses := None;
  snap_peak_portfolio_value := None;
  snap_trade_count := None;
  snap_last_trade_time := None;
  snap_win_loss_history := None;
  snap_recent_performance_score := None
|}.

(** A state in the middle of a long position, used as a restore target. *)
Definition stale_instance : State := {|
  _last_signal := Some "buy";
  _entry_price := Some 45000%Q;
  _entry_time := Some noon;
  _trailing_high := Some 46000%Q;
  _trailing_low := Some 45000%Q;
  _consecutive_losses := 1;
  _peak_portfolio_value := 10000;
  _price_history := [45000%Q; 46000%Q];
  _win_loss_history := [true; false];
  _trade_count := 3;
  _last_trade_time := Some noon;
  _recent_performance_score := 0.9
|}.

(** The two ways a [generate_signal] call can end, with the exit arm it
    records.  A quiet call ends before "Execute final decision": it holds,
    or it raises in the scorer or on an entry price of zero. *)
Definition quiet_outcome `{FloatMath}
  (cfg : Config) (st : State) (market : MarketSnapshot)
  (r : result Signal) (st' : State) (branch : exit_branch) : Prop :=
  branch = NotEvaluated /\ same_position st st'
  /\ _trailing_high st' = _trailing_high st
  /\ ((exists why, r = Ok (hold why))
      \/ (exists e,
             r = Raise e
             /\ (_high_conviction_signal cfg market = Raise e
                 \/ exists entry score cr,
                      _entry_price st = Some entry /\ (entry == 0)%Q
                      /\ _high_conviction_signal cfg market
                         = Ok (score, cr)
                      /\ Qltb (Qabs score) (conviction_threshold cfg)
                         = false))).

(** A call that reaches "Execute final decision" has passed the history
    test, the trade limits, the drawdown gate and the conviction
    threshold. *)
Definition executed_outcome `{FloatMath}
  (cfg : Config) (st : State) (market : MarketSnapshot)
  (portfolio : Portfolio) (now : datetime)
  (r : result Signal) (st' : State) (branch : exit_branch) : Prop :=
  required_history cfg <= len (prices market)
  /\ (exists lim, _check_trade_limits cfg st now = (true, lim))
  /\ exists st1 st2 score cr f0 r0 f1 r1 st3,
       same_position st st1
       /\ _trailing_high st1 = _trailing_high st
       /\ _consecutive_losses st1 = _consecutive_losses st
       /\ _peak_portfolio_value st1
          = (if Qgtb (portfolio_value_of market portfolio)
                     (_peak_portfolio_value st)
             then portfolio_value_of market portfolio
             else _peak_portfolio_value st)
       /\ _check_drawdown_limits cfg st1
                                 (portfolio_value_of market portfolio)
          = (Ok true, st2)
       /\ same_position st st2
       /\ _trailing_high st2 = _trailing_high st
       /\ _high_conviction_signal cfg market = Ok (score, cr)
       /\ Qltb (Qabs score) (conviction_threshold cfg) = false
       /\ position_management st2 score cr = (f0, r0)
       /\ risk_overrides cfg st2 now (current_price market) f0 r0
          = (Ok (f1, r1, branch), st3)
       /\ execute_decision cfg st3 market portfolio now
                           (portfolio_value_of market portfolio)
                           score f1 r1
          = (r, st').

(** The position attributes are set together and cleared together. *)
Definition position_consistent (st : State) : Prop :=
  match _entry_price st with
  | Some entry =>
      _last_signal st = Some "buy" /\ ~ (entry == 0)%Q
      /\ _trailing_low st = Some entry /\ _entry_time st <> None
      /\ exists trailing_high,
           _trailing_high st = Some trailing_high
           /\ (entry <= trailing_high)%Q
  | None =>
      _last_signal st <> Some "buy" /\ _entry_time st = None
      /\ _trailing_high st = None /\ _trailing_low st = None
  end.

(** The bounds of the bookkeeping attributes. *)
Definition bookkeeping_bounded (st : State) : Prop :=
  0 <= _trade_count st
  /\ (_trade_count st = 0 <-> _last_trade_time st = None)
  /\ len (_win_loss_history st) <= 100
  /\ (0.8 <= _recent_performance_score st <= 1.2)%Q
  /\ 0 <= _consecutive_losses st
  /\ len (_price_history st) <= 200.

(* ------------------------------------------------------------------ *)
(** * Flag parsing *)

(** The values [_as_bool] is modelled on: [None], a [bool] and a text.
    Texts are ASCII; on other texts Python's [strip] and [lower] know more
    characters than the two functions below. *)
Inductive pyval : Type :=
| PyNone
| PyBool (b : bool)
| PyStr (s : string).

Definition ascii_text (s : string) : Prop :=
  Forall (fun c => (nat_of_ascii c < 128)%nat) (list_ascii_of_string s).

(** [c.isspace()] on ASCII: the blank, tab to carriage return, and the
    four separators 28 to 31. *)
Definition is_space (c : ascii) : bool :=
  let n := nat_of_ascii c in
  ((n =? 32) || ((9 <=? n) && (n <=? 13)) || ((28 <=? n) && (n <=? 31)))%nat.

Fixpoint all_space (s : string) : bool :=
  match s with
  | EmptyString => true
  | String c rest => is_space c && all_space rest
  end.

Fixpoint str_lstrip (s : string) : string :=
  match s with
  | EmptyString => EmptyString
  | String c rest => if is_space c then str_lstrip rest else s
  end.

Fixpoint str_rstrip (s : string) : string :=
  match s with
  | EmptyString => EmptyString
  | String c rest =>
      let rest' := str_rstrip rest in
      if String.eqb rest' "" && is_space c then EmptyString
      else String c rest'
  end.

(** [s.strip()]. *)
Definition str_strip (s : string) : string := str_rstrip (str_lstrip s).

Definition lower_char (c : ascii) : ascii :=
  let n := nat_of_ascii c in
  if ((65 <=? n) && (n <=? 90))%nat then ascii_of_nat (n + 32) else c.

(** [s.lower()]. *)
Fixpoint str_lower (s : string) : string :=
  match s with
  | EmptyString => EmptyString
  | String c rest => String (lower_char c) (str_lower rest)
  end.

Definition _as_bool (val : pyval) (default : bool) : bool :=
  match val with
  | PyNone => default
  | PyBool b => b
  | PyStr text =>
      let s := str_lower (str_strip text) in
      String.eqb s "1" || String.eqb s "true" || String.eqb s "yes"
      || String.eqb s "on"
  end.

(* ------------------------------------------------------------------ *)
(** * Basic facts about the Python built-ins *)



Section BuiltinFacts.

Lemma Qltb_lt a b : Qltb a b = true <-> (a < b)%Q.
Proof.
  unfold Qltb. rewrite negb_true_iff, <- not_true_iff_false, Qle_bool_iff.
  split; [apply Qnot_le_lt | apply Qlt_not_le].
Qed.

Lemma Qltb_ge a b : Qltb a b = false <-> (b <= a)%Q.
Proof.
  unfold Qltb. rewrite negb_false_iff. apply Qle_bool_iff.
Qed.

Lemma Qleb_le a b : Qleb a b = true <-> (a <= b)%Q.
Proof. apply Qle_bool_iff. Qed.

Lemma Qeqb_eq a b : Qeqb a b = true <-> (a == b)%Q.
Proof. apply Qeq_bool_iff. Qed.

Lemma Qeqb_neq a b : Qeqb a b = false <-> ~ (a == b)%Q.
Proof.
  unfold Qeqb. rewrite <- not_true_iff_false, Qeq_bool_iff. tauto.
Qed.

Lemma div_ok a b : ~ (b == 0)%Q -> div a b = Ok (a / b)%Q.
Proof.
  intros Hb. unfold div.
  destruct (Qeqb b 0) eqn:E; [apply Qeqb_eq in E; contradiction | reflexivity].
Qed.

Lemma div_inv a b r : div a b = Ok r -> ~ (b == 0)%Q /\ r = (a / b)%Q.
Proof.
  unfold div. destruct (Qeqb b 0) eqn:E; [discriminate |].
  intros [= <-]. split; [now apply Qeqb_neq | reflexivity].
Qed.

(** [sum] is a left fold; these two lemmas give it the usual shape. *)
Lemma fold_plus_acc (l : list Q) (a : Q) :
  (fold_left Qplus l a == a + fold_left Qplus l 0)%Q.
Proof.
  revert a. induction l as [|x l IH]; intros a; simpl.
  - ring.
  - rewrite (IH (a + x)%Q), (IH (0 + x)%Q). ring.
Qed.

Lemma sum_cons (x : Q) (l : list Q) : (sum (x :: l) == x + sum l)%Q.
Proof.
  unfold sum. simpl. rewrite fold_plus_acc. ring.
Qed.

Lemma sum_nonneg (l : list Q) :
  Forall (fun x => 0 <= x)%Q l -> (0 <= sum l)%Q.
Proof.
  induction 1 as [|x l Hx _ IH].
  - unfold sum; simpl. apply Qle_refl.
  - rewrite sum_cons. lra.
Qed.


Lemma sum_pos (l : list Q) :
  l <> [] -> Forall (fun x => 0 < x)%Q l -> (0 < sum l)%Q.
Proof.
  intros Hne Hall. destruct Hall as [|x l Hx Hl]; [congruence |].
  rewrite sum_cons.
  assert (0 <= sum l)%Q.
  { apply sum_nonneg. eapply Forall_impl; [| exact Hl].
    intros a Ha. apply Qlt_le_weak, Ha. }
  lra.
Qed.

Lemma len_nonneg {A} (l : list A) : 0 <= len l.
Proof. unfold len. lia. Qed.

Lemma len_repeat {A} (v : A) (n : nat) : len (repeat v n) = Z.of_nat n.
Proof. unfold len. now rewrite repeat_length. Qed.

Lemma len_app {A} (l1 l2 : list A) : len (l1 ++ l2)%list = len l1 + len l2.
Proof. unfold len. rewrite length_app. lia. Qed.

(** [l[-w:]] for a positive window no longer than the list keeps exactly
    [w] elements. *)
Lemma len_slice_last {A} (l : list A) (w : Z) :
  0 < w <= len l -> len (slice_from (- w) l) = w.
Proof.
  intros Hw. unfold slice_from.
  replace (- w <? 0) with true by (symmetry; apply Z.ltb_lt; lia).
  unfold len in *. rewrite length_skipn. lia.
Qed.

Lemma slice_from_incl {A} (i : Z) (l : list A) (P : A -> Prop) :
  Forall P l -> Forall P (slice_from i l).
Proof.
  intros Hl. unfold slice_from.
  rewrite <- (firstn_skipn (Z.to_nat
     (if i <? 0 then Z.max 0 (len l + i) else Z.min i (len l))) l) in Hl.
  apply Forall_app in Hl. apply Hl.
Qed.

(** Slicing the last five commutes with keeping the last fifty. *)
Lemma slice_last_of_last {A} (l : list A) (a b : Z) :
  0 < a <= b -> slice_from (- a) (slice_from (- b) l) = slice_from (- a) l.
Proof.
  intros Hab. unfold slice_from.
  replace (- a <? 0) with true by (symmetry; apply Z.ltb_lt; lia).
  replace (- b <? 0) with true by (symmetry; apply Z.ltb_lt; lia).
  rewrite skipn_skipn. f_equal.
  unfold len. rewrite length_skipn. lia.
Qed.

End BuiltinFacts.

(* ------------------------------------------------------------------ *)
(** * The conviction scorer *)

Section ScorerFacts.
Context `{FloatMath}.

(** C9. A price history shorter than
    [max(rsi_period, bb_period, macd_slow)] makes the scorer return the
    score 0.0 with reason "insufficient_data", and makes
    [generate_signal] return a hold; neither raises. *)
Theorem short_history_scores_zero_and_holds
  (cfg : Config) (st : State) (market : MarketSnapshot)
  (portfolio : Portfolio) (now : datetime) :
  len (prices market)
    < Z.max (Z.max (rsi_period cfg) (bb_period cfg)) (macd_slow cfg) ->
  _high_conviction_signal cfg market = Ok (0.0%Q, "insufficient_data")
  /\ exists st',
       generate_signal cfg st market portfolio now
       = (Ok (mk_signal "hold" None "Insufficient price data"), st').
Proof.
  intros Hshort. apply Z.ltb_lt in Hshort.
  unfold generate_signal, generate_signal_traced, _high_conviction_signal,
    required_history.
  rewrite Hshort. split; [reflexivity |]. simpl. eauto.
Qed.

(** The smoothing step leaves a value it is fed again unchanged. *)
Lemma ema_fold_constant (k v : Q) (l : list Q) (seed : Q) :
  Forall (eq v) l -> (seed == v)%Q ->
  (fold_left (fun ema price => price * k + ema * (1 - k))%Q l seed == v)%Q.
Proof.
  intros Hl. revert seed. induction Hl as [|x l Hx _ IH]; intros seed Hs.
  - exact Hs.
  - simpl. apply IH. subst x. rewrite Hs. ring.
Qed.

Lemma Forall_eq_repeat {A} (v : A) (n : nat) : Forall (eq v) (repeat v n).
Proof. induction n; simpl; constructor; auto. Qed.

(** The EMA of [n] copies of one value is that value whenever it is
    computed at all; for [n <= 0] the computation raises. *)
Lemma ema_of_copies (n : Z) (v s : Q) :
  _calculate_ema (replicate n v) n = Ok (Some s) -> (s == v)%Q.
Proof.
  unfold _calculate_ema, replicate. rewrite len_repeat.
  destruct (Z.of_nat (Z.to_nat n) <? n) eqn:Hlen; [discriminate |].
  destruct (div 2 (inject_Z (n + 1))) as [k|] eqn:Hk; [| discriminate].
  unfold bind, index. rewrite len_repeat.
  destruct (Z.leb_spec n 0) as [Hn | Hn].
  - (* no copies: the seed lookup is out of range *)
    replace (Z.to_nat n) with O by lia. simpl.
    destruct (- n <? 0) eqn:E; [apply Z.ltb_lt in E; lia |].
    destruct (- n <? 0) eqn:E1; [discriminate |].
    replace (0 <=? - n) with true by (symmetry; apply Z.leb_le; lia).
    rewrite orb_true_r. discriminate.
  - replace (- n <? 0) with true by (symmetry; apply Z.ltb_lt; lia).
    replace (Z.of_nat (Z.to_nat n) + - n) with 0 by lia. simpl.
    replace (Z.of_nat (Z.to_nat n) <=? 0) with false
      by (symmetry; apply Z.leb_gt; lia).
    intros [= <-]. apply ema_fold_constant.
    + apply slice_from_incl, Forall_eq_repeat.
    + destruct (Z.to_nat n) eqn:E; [lia | reflexivity].
Qed.

(** For a window that fits, the EMA is computed. *)
Lemma ema_defined (data : list Q) (period : Z) :
  0 < period <= len data ->
  exists e, _calculate_ema data period = Ok (Some e).
Proof.
  intros Hp. unfold _calculate_ema.
  replace (len data <? period) with false by (symmetry; apply Z.ltb_ge; lia).
  rewrite div_ok.
  2:{ intros E. apply (Qeq_bool_neq (inject_Z (period + 1)) 0); [| exact E].
      destruct (Qeq_bool (inject_Z (period + 1)) 0) eqn:B; [| reflexivity].
      apply Qeq_bool_iff in B. unfold Qeq in B. simpl in B. lia. }
  unfold bind, index.
  replace (- period <? 0) with true by (symmetry; apply Z.ltb_lt; lia).
  replace (len data + - period <? 0) with false
    by (symmetry; apply Z.ltb_ge; lia).
  replace (len data <=? len data + - period) with false
    by (symmetry; apply Z.leb_gt; lia).
  simpl. eauto.
Qed.

(** The MACD step of the scorer never changes the tally. *)
Lemma macd_confirmation_idle
  (cfg : Config) (market : MarketSnapshot) (acc acc' : tally) :
  macd_confirmation cfg market acc = Ok acc' -> acc' = acc.
Proof.
  unfold macd_confirmation. destruct acc as [score reasons].
  destruct (_calculate_macd _ _ _ _) as [[[[m s] h]|]|] eqn:Hm; simpl;
    try (intros [= <-]; reflexivity); try discriminate.
  assert (Hh : (h == 0)%Q /\ (s == m)%Q).
  { unfold _calculate_macd in Hm.
    destruct (len (prices market) <? _) ; [discriminate |].
    destruct (_calculate_ema (prices market) (macd_fast cfg))
      as [[f|]|]; simpl in Hm; try discriminate;
    destruct (_calculate_ema (prices market) (macd_slow cfg))
      as [[sl|]|]; simpl in Hm; try discriminate.
    destruct (_calculate_ema (replicate _ _) _) as [[sg|]|] eqn:Hs;
      simpl in Hm; try discriminate.
    apply ema_of_copies in Hs. injection Hm as <- <- <-.
    split; [rewrite Hs; ring | exact Hs]. }
  destruct Hh as [Hh Hs].
  replace (Qgtb h 0) with false
    by (symmetry; apply Qltb_ge; rewrite Hh; apply Qle_refl).
  replace (Qltb h 0) with false
    by (symmetry; apply Qltb_ge; rewrite Hh; apply Qle_refl).
  simpl. intros [= <-]. reflexivity.
Qed.


End ScorerFacts.

Lemma short_history_scores_zero_and_holds_witness :
  len (prices (snapshot_of [45000%Q; 44950%Q] noon))
    < Z.max (Z.max (rsi_period default_config) (bb_period default_config))
            (macd_slow default_config)
  /\ (@_high_conviction_signal decimal_math default_config
        (snapshot_of [45000%Q; 44950%Q] noon)
      = Ok (0.0%Q, "insufficient_data")
      /\ exists st',
           @generate_signal decimal_math default_config init_state
             (snapshot_of [45000%Q; 44950%Q] noon) flat_portfolio noon
           = (Ok (mk_signal "hold" None "Insufficient price data"), st')).
Proof.
  split; [reflexivity |].
  apply (@short_history_scores_zero_and_holds decimal_math default_config
           init_state (snapshot_of [45000%Q; 44950%Q] noon)
           flat_portfolio noon).
  reflexivity.
Defined.


(* ------------------------------------------------------------------ *)
(** * The relative strength index *)

Section RsiFacts.

Lemma len_deltas_of (prices : list Q) :
  len (deltas_of prices) = Z.max 0 (len prices - 1).
Proof.
  assert (Hcons : forall l a, List.length (deltas_of (a :: l)) = List.length l).
  { induction l as [|b rest IH]; intros a; [reflexivity |].
    change (deltas_of (a :: b :: rest))
      with ((b - a)%Q :: deltas_of (b :: rest)).
    cbn [List.length]. now rewrite IH. }
  unfold len. destruct prices as [|a l]; [reflexivity |].
  rewrite Hcons. cbn [List.length]. lia.
Qed.

Lemma inject_Z_pos (z : Z) : 0 < z -> (0 < inject_Z z)%Q.
Proof. intros Hz. unfold Qlt. simpl. lia. Qed.

Lemma Qdiv_nonneg (a b : Q) : (0 <= a)%Q -> (0 < b)%Q -> (0 <= a / b)%Q.
Proof. intros Ha Hb. apply Qle_shift_div_l; [exact Hb | lra]. Qed.

Lemma Qdiv_pos (a b : Q) : (0 < a)%Q -> (0 < b)%Q -> (0 < a / b)%Q.
Proof. intros Ha Hb. apply Qlt_shift_div_l; [exact Hb | lra]. Qed.

Lemma gains_nonneg (l : list Q) :
  Forall (fun x => 0 <= x)%Q
         (map (fun delta => if Qgtb delta 0 then delta else 0%Q) l).
Proof.
  apply Forall_map, Forall_forall. intros d _.
  destruct (Qgtb d 0) eqn:E; [| apply Qle_refl].
  apply Qltb_lt in E. apply Qlt_le_weak, E.
Qed.

Lemma losses_nonneg (l : list Q) :
  Forall (fun x => 0 <= x)%Q
         (map (fun delta => if Qltb delta 0 then (- delta)%Q else 0%Q) l).
Proof.
  apply Forall_map, Forall_forall. intros d _.
  destruct (Qltb d 0) eqn:E; [| apply Qle_refl].
  apply Qltb_lt in E. lra.
Qed.

Lemma average_gain_nonneg prices period :
  0 < period -> (0 <= average_gain prices period)%Q.
Proof.
  intros Hp. apply Qdiv_nonneg;
    [apply sum_nonneg, gains_nonneg | now apply inject_Z_pos].
Qed.

Lemma average_loss_nonneg prices period :
  0 < period -> (0 <= average_loss prices period)%Q.
Proof.
  intros Hp. apply Qdiv_nonneg;
    [apply sum_nonneg, losses_nonneg | now apply inject_Z_pos].
Qed.

(** What [_calculate_rsi] returns on a long enough list, case by case. *)
Lemma rsi_unfold (prices : list Q) (period : Z) :
  0 < period -> period + 1 <= len prices ->
  _calculate_rsi prices period
  = Ok (Some
          (if Qeqb (average_loss prices period) 0
           then (if Qgtb (average_gain prices period) 0 then 100 else 50)
           else 100 - 100 / (1 + average_gain prices period
                                 / average_loss prices period))%Q).
Proof.
  intros Hp Hlen. unfold _calculate_rsi.
  replace (len prices <? period + 1) with false
    by (symmetry; apply Z.ltb_ge; lia).
  assert (Hq : ~ (inject_Z period == 0)%Q).
  { pose proof (inject_Z_pos period Hp). lra. }
  rewrite !(div_ok _ _ Hq). simpl.
  fold (recent_deltas prices period).
  fold (average_gain prices period). fold (average_loss prices period).
  destruct (Qeqb (average_loss prices period) 0) eqn:E; [reflexivity |].
  apply Qeqb_neq in E.
  pose proof (average_loss_nonneg prices period Hp) as Hl.
  pose proof (average_gain_nonneg prices period Hp) as Hg.
  rewrite (div_ok _ _ E). simpl.
  rewrite div_ok; [reflexivity |].
  assert (0 <= average_gain prices period / average_loss prices period)%Q
    by (apply Qdiv_nonneg; lra).
  lra.
Qed.


End RsiFacts.


(* ------------------------------------------------------------------ *)
(** * The position sizer *)

Section SizerFacts.
Context `{FloatMath}.

Lemma max_lower (a b : Q) : (a <= max a b)%Q.
Proof.
  unfold max, Qgtb. destruct (Qltb a b) eqn:E; [| apply Qle_refl].
  apply Qltb_lt in E. apply Qlt_le_weak, E.
Qed.

Lemma max_min_upper (lo hi x : Q) : (lo <= hi)%Q -> (max lo (min hi x) <= hi)%Q.
Proof.
  intros Hlh. unfold max, min, Qgtb.
  destruct (Qltb x hi) eqn:E1.
  - apply Qltb_lt in E1. destruct (Qltb lo x); lra.
  - destruct (Qltb lo hi); lra.
Qed.


End SizerFacts.



(* ------------------------------------------------------------------ *)
(** * The risk gate and the exit chain *)

Section GateFacts.
Context `{FloatMath}.
Variable cfg : Config.

(** The trade-limit check passes only below [max_trades]. *)
Lemma check_trade_limits_pass (st : State) (now : datetime) (why : string) :
  _check_trade_limits cfg st now = (true, why) ->
  _trade_count st < max_trades cfg.
Proof.
  unfold _check_trade_limits.
  destruct (Z.leb_spec (max_trades cfg) (_trade_count st));
    [discriminate | intros _; assumption].
Qed.

Lemma check_trade_limits_at_max (st : State) (now : datetime) :
  max_trades cfg <= _trade_count st ->
  _check_trade_limits cfg st now = (false, "max_trades_reached").
Proof.
  intros Hmax. unfold _check_trade_limits.
  destruct (Z.leb_spec (max_trades cfg) (_trade_count st)); [reflexivity | lia].
Qed.

(** After a trade stamped [last], a clock reading within the cooldown is
    turned away. *)
Lemma check_trade_limits_cooldown (st : State) (last now : datetime) :
  _last_trade_time st = Some last ->
  Datetime.sub now last < Datetime.hours (min_time_between_trades cfg) ->
  _check_trade_limits cfg st now = (false, "max_trades_reached")
  \/ _check_trade_limits cfg st now
     = (false,
        "min_time_between_trades_not_met:"
          ++ format_fixed 1 (total_seconds (Datetime.sub now last) / 3600)%Q
          ++ "h").
Proof.
  intros Hlast Hsoon. unfold _check_trade_limits. rewrite Hlast.
  destruct (max_trades cfg <=? _trade_count st); [now left | right].
  apply Z.ltb_lt in Hsoon. now rewrite Hsoon.
Qed.

(** The stages of [generate_signal] and the trade counter. *)
Lemma drawdown_keeps_trade_count (st : State) (portfolio_value : Q) :
  _trade_count (snd (_check_drawdown_limits cfg st portfolio_value))
  = _trade_count st.
Proof.
  unfold _check_drawdown_limits.
  repeat match goal with
         | |- context [if ?b then _ else _] => destruct b
         | |- context [match div ?a ?b with _ => _ end] => destruct (div a b)
         end; reflexivity.
Qed.

Lemma update_trailing_high_sets (st : State) (current_price : Q) :
  exists th,
    _trailing_high (update_trailing_high st current_price) = Some th
    /\ (current_price <= th)%Q.
Proof.
  unfold update_trailing_high.
  destruct (_trailing_high st) as [th|] eqn:E.
  - destruct (Qgtb current_price th) eqn:G.
    + exists current_price. split; [reflexivity | apply Qle_refl].
    + exists th. split; [exact E | now apply Qltb_ge].
  - exists current_price. split; [reflexivity | apply Qle_refl].
Qed.

Lemma risk_overrides_keeps_trade_count
  (st : State) (now : datetime) (current_price : Q)
  (final_signal why : string) :
  _trade_count (snd (risk_overrides cfg st now current_price
                                    final_signal why))
  = _trade_count st.
Proof.
  unfold risk_overrides.
  destruct (last_signal_is st "buy"); [| reflexivity].
  destruct (_entry_price st) as [e|]; [| reflexivity].
  destruct (div _ e); [| reflexivity].
  destruct (update_trailing_high_sets st current_price) as (th & -> & _).
  assert (Hk : _trade_count (update_trailing_high st current_price)
               = _trade_count st).
  { unfold update_trailing_high.
    destruct (_trailing_high st); [destruct (Qgtb _ _) |]; reflexivity. }
  destruct (Qleb _ _); exact Hk.
Qed.

Lemma execute_decision_trade_count
  (st : State) (market : MarketSnapshot) (portfolio : Portfolio)
  (now : datetime) (portfolio_value conviction_score : Q)
  (final_signal why : string) :
  let st' := snd (execute_decision cfg st market portfolio now
                    portfolio_value conviction_score final_signal why) in
  _trade_count st' = _trade_count st
  \/ _trade_count st' = _trade_count st + 1.
Proof.
  unfold execute_decision.
  repeat match goal with
         | |- context [if ?b then _ else _] => destruct b
         | |- context [match div ?a ?b with _ => _ end] => destruct (div a b)
         end; simpl; auto.
Qed.

(** One call moves the trade counter by at most one, and only after the
    guard [trade_count >= max_trades] has let it through. *)
Lemma generate_signal_trade_count
  (st : State) (market : MarketSnapshot) (portfolio : Portfolio)
  (now : datetime) :
  let st' := snd (generate_signal cfg st market portfolio now) in
  _trade_count st' = _trade_count st
  \/ (_trade_count st' = _trade_count st + 1
      /\ _trade_count st < max_trades cfg).
Proof.
  unfold generate_signal, generate_signal_traced.
  destruct (len (prices market) <? required_history cfg); [now left |].
  match goal with
  | |- context [_check_trade_limits cfg ?s now] =>
      set (st1 := s); assert (K1 : _trade_count st1 = _trade_count st)
        by (subst st1; destruct (Qgtb _ _); reflexivity)
  end.
  destruct (_check_trade_limits cfg st1 now) as [[|] why] eqn:Hlim;
    simpl negb; cbv iota; [| left; exact K1].
  apply check_trade_limits_pass in Hlim.
  pose proof (drawdown_keeps_trade_count st1
                (cash portfolio + quantity portfolio * current_price market))
    as K2.
  destruct (_check_drawdown_limits cfg st1 _) as [[[|]|e] st2];
    simpl in K2 |- *; try (left; lia).
  destruct (_high_conviction_signal cfg market) as [[score why']|];
    simpl; [| left; lia].
  destruct (Qltb (Qabs score) (conviction_threshold cfg));
    simpl; [left; lia |].
  destruct (position_management st2 score why') as [f0 r0].
  match goal with
  | |- context [risk_overrides cfg st2 now ?p ?f ?r] =>
      pose proof (risk_overrides_keeps_trade_count st2 now p f r) as K3;
      destruct (risk_overrides cfg st2 now p f r) as [[[[f' r'] br]|e] st3]
  end; simpl in K3 |- *; [| left; lia].
  match goal with
  | |- context [execute_decision cfg st3 ?m ?p ?n ?v ?c ?f ?r] =>
      pose proof (execute_decision_trade_count st3 m p n v c f r) as K4;
      destruct (execute_decision cfg st3 m p n v c f r) as [r4 st4]
  end; simpl in K4 |- *.
  destruct K4 as [K4 | K4]; [left | right]; lia.
Qed.

Lemma on_trade_keeps_trade_count
  (st : State) (signal : Signal) (execution_price execution_size : Q)
  (ts : datetime) :
  _trade_count (on_trade st signal execution_price execution_size ts)
  = _trade_count st.
Proof.
  unfold on_trade.
  destruct (_ && _); [reflexivity |].
  destruct (_ && _); [| reflexivity].
  destruct (_entry_price st); [| reflexivity].
  destruct (Qeqb _ _); reflexivity.
Qed.

(** Once the counter is at the maximum every call is a hold that leaves
    the counter alone. *)
Lemma generate_signal_at_max
  (st : State) (market : MarketSnapshot) (portfolio : Portfolio)
  (now : datetime) :
  max_trades cfg <= _trade_count st ->
  exists st',
    generate_signal cfg st market portfolio now
    = (Ok (hold (if len (prices market) <? required_history cfg
                 then "Insufficient price data"
                 else "Trade limit: max_trades_reached")), st')
    /\ _trade_count st' = _trade_count st.
Proof.
  intros Hmax. unfold generate_signal, generate_signal_traced.
  destruct (len (prices market) <? required_history cfg);
    [simpl; eexists; split; reflexivity |].
  match goal with
  | |- context [_check_trade_limits cfg ?s now] =>
      set (st1 := s); assert (K1 : _trade_count st1 = _trade_count st)
        by (subst st1; destruct (Qgtb _ _); reflexivity)
  end.
  rewrite check_trade_limits_at_max by lia.
  simpl. eexists; split; [reflexivity | exact K1].
Qed.

End GateFacts.

(* ------------------------------------------------------------------ *)
(** * Scenario: the opening buy *)

(** From the initial state, forty prices sliding down to 45000 give an RSI
    of 0, a conviction of 0.4 and, with [eager_config], a buy of 0.04
    units at 45000. *)
Lemma buy_at_45000 :
  exists size,
    @generate_signal decimal_math eager_config init_state
      (snapshot_of falling_to_45000 noon) flat_portfolio noon
    = (Ok (mk_signal "buy" (Some size)
                     "CONVICTION:rsi_oversold:0.00|SCORE:0.400"),
       bought_at_45000)
    /\ (size == 0.04)%Q.
Proof.
  eexists. split; [vm_compute; reflexivity | reflexivity].
Qed.

(** The same buy when the configuration allows one trade only. *)
Lemma buy_at_45000_single_trade :
  snd (@generate_signal decimal_math single_trade_config init_state
         (snapshot_of falling_to_45000 noon) flat_portfolio noon)
  = bought_at_45000.
Proof. vm_compute. reflexivity. Qed.

(* ------------------------------------------------------------------ *)
(** * Trade limits *)

Section LimitFacts.
Context `{FloatMath}.

(** C4 (amended). For a non-negative [max_trades], [trade_count] never
    exceeds [max_trades] in any state reached from the initial one by
    [generate_signal] and [on_trade] calls; one [generate_signal] call
    increments it at most once, and only after the guard
    [trade_count >= max_trades] has passed.  Once [trade_count] has reached
    [max_trades], every call is a hold that leaves [trade_count] alone; its
    reason is "Insufficient price data" when the price history is too short
    and "Trade limit: max_trades_reached" otherwise. *)
Theorem trade_count_never_exceeds_max (cfg : Config) :
  0 <= max_trades cfg ->
  (forall st, reachable cfg st -> 0 <= _trade_count st <= max_trades cfg)
  /\ (forall st market portfolio now,
         let st' := snd (generate_signal cfg st market portfolio now) in
         _trade_count st' = _trade_count st
         \/ (_trade_count st' = _trade_count st + 1
             /\ _trade_count st < max_trades cfg))
  /\ (forall st market portfolio now,
         max_trades cfg <= _trade_count st ->
         exists st',
           generate_signal cfg st market portfolio now
           = (Ok (mk_signal "hold" None
                    (if len (prices market)
                          <? Z.max (Z.max (rsi_period cfg) (bb_period cfg))
                                   (macd_slow cfg)
                     then "Insufficient price data"
                     else "Trade limit: max_trades_reached")), st')
           /\ _trade_count st' = _trade_count st).
Proof.
  intros Hmax. split; [| split].
  - induction 1 as [| st market portfolio now _ IH
                    | st signal price size ts _ IH].
    + simpl. lia.
    + pose proof (generate_signal_trade_count cfg st market portfolio now)
        as Hstep. simpl in Hstep. lia.
    + rewrite on_trade_keeps_trade_count. exact IH.
  - intros st market portfolio now.
    apply generate_signal_trade_count.
  - intros st market portfolio now Hfull.
    apply generate_signal_at_max, Hfull.
Qed.

End LimitFacts.

Lemma trade_count_never_exceeds_max_witness :
  0 <= max_trades single_trade_config
  /\ reachable (H := decimal_math) single_trade_config bought_at_45000
  /\ 0 <= _trade_count bought_at_45000 <= max_trades single_trade_config.
Proof.
  assert (Hmax : 0 <= max_trades single_trade_config)
    by (vm_compute; discriminate).
  assert (Hreach : reachable (H := decimal_math) single_trade_config
                             bought_at_45000).
  { rewrite <- buy_at_45000_single_trade. apply reach_signal, reach_init. }
  split; [exact Hmax | split; [exact Hreach |]].
  exact (proj1 (@trade_count_never_exceeds_max decimal_math
                  single_trade_config Hmax)
               bought_at_45000 Hreach).
Defined.

(** C4, as stated, fails: the state after the single allowed trade has
    [trade_count = max_trades], yet a call with a price history that is too
    short returns a hold whose reason is "Insufficient price data" and does
    not mention "max_trades_reached". *)
Lemma hold_at_max_trades_has_other_reason :
  reachable (H := decimal_math) single_trade_config bought_at_45000
  /\ _trade_count bought_at_45000 = max_trades single_trade_config
  /\ exists st',
       @generate_signal decimal_math single_trade_config bought_at_45000
         (snapshot_of [45100%Q; 45050%Q; 45000%Q] seven_pm)
         long_portfolio seven_pm
       = (Ok (mk_signal "hold" None "Insufficient price data"), st')
       /\ "Insufficient price data" <> "max_trades_reached"
       /\ contains "max_trades_reached" "Insufficient price data" = false.
Proof.
  split; [| split; [reflexivity |]].
  - rewrite <- buy_at_45000_single_trade. apply reach_signal, reach_init.
  - eexists. split; [vm_compute; reflexivity |].
    split; [discriminate | reflexivity].
Qed.

(* ------------------------------------------------------------------ *)
(** * The exit chain *)

Section ExitFacts.
Context `{FloatMath}.
Variable cfg : Config.

Lemma update_trailing_high_keeps_position (st : State) (current_price : Q) :
  _last_signal (update_trailing_high st current_price) = _last_signal st
  /\ _entry_price (update_trailing_high st current_price) = _entry_price st.
Proof.
  unfold update_trailing_high.
  destruct (_trailing_high st); [destruct (Qgtb _ _) |]; split; reflexivity.
Qed.

Lemma drawdown_keeps_position (st : State) (portfolio_value : Q) :
  _last_signal (snd (_check_drawdown_limits cfg st portfolio_value))
  = _last_signal st
  /\ _entry_price (snd (_check_drawdown_limits cfg st portfolio_value))
     = _entry_price st.
Proof.
  unfold _check_drawdown_limits.
  repeat match goal with
         | |- context [if ?b then _ else _] => destruct b
         | |- context [match div ?a ?b with _ => _ end] => destruct (div a b)
         end; split; reflexivity.
Qed.

(** What the override block can do.  Outside a long position it does
    nothing.  In a long position it raises only on an entry price of zero,
    and otherwise always takes the [if] on [_trailing_high]: none of the
    three [elif] arms runs. *)
Lemma risk_overrides_shape
  (st : State) (now : datetime) (current_price : Q)
  (final_signal why : string) :
  match risk_overrides cfg st now current_price final_signal why with
  | (Raise e, st') =>
      e = ZeroDivisionError /\ st' = st /\ in_long_position st
      /\ exists entry, _entry_price st = Some entry /\ (entry == 0)%Q
  | (Ok (final_signal', why', branch), st') =>
      (branch = NotLong /\ final_signal' = final_signal /\ why' = why
       /\ st' = st /\ ~ in_long_position st)
      \/ (in_long_position st
          /\ st' = update_trailing_high st current_price
          /\ exists trailing_high,
               _trailing_high st' = Some trailing_high
               /\ ((branch = TrailingIf true /\ final_signal' = "sell"
                    /\ String.prefix "TRAILING_STOP_TRIGGERED" why' = true
                    /\ (current_price
                        <= trailing_high * (1 - trailing_stop_pct cfg))%Q)
                   \/ (branch = TrailingIf false
                       /\ final_signal' = final_signal /\ why' = why
                       /\ ~ (current_price
                             <= trailing_high
                                * (1 - trailing_stop_pct cfg))%Q)))
  end.
Proof.
  unfold risk_overrides, in_long_position.
  destruct (last_signal_is st "buy") eqn:Hl.
  2:{ left. repeat split; try reflexivity. intros [? _]; discriminate. }
  destruct (_entry_price st) as [entry|] eqn:He.
  2:{ left. repeat split; try reflexivity. intros [_ ?]; congruence. }
  unfold div. destruct (Qeqb entry 0) eqn:Hz.
  { repeat split; try reflexivity; try congruence.
    exists entry. split; [reflexivity | now apply Qeqb_eq]. }
  cbv zeta.
  destruct (update_trailing_high_sets st current_price) as (th & E & _).
  rewrite E.
  destruct (Qleb current_price (th * (1 - trailing_stop_pct cfg))) eqn:Hq;
    right; (split; [split; [reflexivity | congruence] |]);
    (split; [reflexivity |]); exists th; (split; [exact E |]).
  - left. repeat split; try reflexivity. now apply Qleb_le.
  - right. repeat split; try reflexivity.
    intros Hle. apply Qleb_le in Hle. congruence.
Qed.

Lemma prefix_empty (s : string) : String.prefix "" s = true.
Proof. destruct s; reflexivity. Qed.

Lemma last_signal_is_buy (st : State) :
  last_signal_is st "buy" = true <-> _last_signal st = Some "buy".
Proof.
  unfold last_signal_is. destruct (_last_signal st) as [l|].
  - rewrite String.eqb_eq. split; congruence.
  - split; discriminate.
Qed.

(** A sell that position management lets through carries the conviction
    reason. *)
Lemma position_management_sell
  (st : State) (score : Q) (conviction_reason f r : string) :
  position_management st score conviction_reason = (f, r) ->
  f = "sell" -> String.prefix "CONVICTION:" r = true.
Proof.
  unfold position_management.
  destruct (_ && _); [intros [= <- <-]; discriminate |].
  destruct (_ && _); [intros [= <- <-]; discriminate |].
  intros [= <- <-] _. simpl. apply prefix_empty.
Qed.

(** A sell decision is emitted for the final signal "sell" only, with the
    reason it was handed. *)
Lemma execute_decision_sell
  (st : State) (market : MarketSnapshot) (portfolio : Portfolio)
  (now : datetime) (portfolio_value conviction_score : Q)
  (final_signal why : string) (sig : Signal) :
  fst (execute_decision cfg st market portfolio now portfolio_value
                        conviction_score final_signal why) = Ok sig ->
  action sig = "sell" -> final_signal = "sell" /\ reason sig = why.
Proof.
  unfold execute_decision.
  destruct (String.eqb final_signal "buy").
  - destruct (Qleb _ 0); [intros [= <-]; discriminate |].
    destruct (div _ _); [| discriminate].
    destruct (Qleb _ 0); intros [= <-]; discriminate.
  - destruct (String.eqb_spec final_signal "sell") as [-> |];
      [| intros [= <-]; discriminate].
    destruct (Qleb _ 0); intros [= <-]; [discriminate |].
    intros _. split; reflexivity.
Qed.

(** The exit arm a whole call can record, and the sells it can emit. *)
Lemma generate_signal_traced_shape
  (st : State) (market : MarketSnapshot) (portfolio : Portfolio)
  (now : datetime) :
  let '(r, _, branch) := generate_signal_traced cfg st market portfolio now in
  (branch = NotEvaluated
   \/ (branch = NotLong /\ ~ in_long_position st)
   \/ (exists fired, branch = TrailingIf fired) /\ in_long_position st)
  /\ (forall sig,
         r = Ok sig -> action sig = "sell" ->
         String.prefix "TRAILING_STOP_TRIGGERED" (reason sig) = true
         \/ String.prefix "CONVICTION:" (reason sig) = true).
Proof.
  unfold generate_signal_traced.
  destruct (len (prices market) <? required_history cfg).
  { split; [now left | intros sig [= <-]; discriminate]. }
  match goal with
  | |- context [_check_trade_limits cfg ?s now] =>
      set (st1 := s);
      assert (K1 : _last_signal st1 = _last_signal st
                   /\ _entry_price st1 = _entry_price st)
        by (subst st1; destruct (Qgtb _ _); split; reflexivity)
  end.
  destruct (_check_trade_limits cfg st1 now) as [[|] lim];
    simpl negb; cbv iota.
  2:{ split; [now left | intros sig [= <-]; discriminate]. }
  pose proof (drawdown_keeps_position st1
                (cash portfolio + quantity portfolio * current_price market))
    as K2.
  destruct (_check_drawdown_limits cfg st1 _) as [[[|]|e] st2];
    cbn [fst snd] in K2 |- *;
    try (split; [now left | intros sig [= <-]; discriminate]);
    try (split; [now left | discriminate]).
  assert (Hlong : in_long_position st2 <-> in_long_position st).
  { unfold in_long_position, last_signal_is.
    destruct K1 as [K1a K1b], K2 as [K2a K2b].
    rewrite K2a, K2b, K1a, K1b. tauto. }
  destruct (_high_conviction_signal cfg market) as [[score cr]|];
    [| split; [now left | discriminate]].
  destruct (Qltb (Qabs score) (conviction_threshold cfg)).
  { split; [now left | intros sig [= <-]; discriminate]. }
  destruct (position_management st2 score cr) as [f0 r0] eqn:Hpm.
  pose proof (risk_overrides_shape st2 now (current_price market) f0 r0)
    as Hro.
  destruct (risk_overrides cfg st2 now (current_price market) f0 r0)
    as [[[[f1 r1] br]|e] st3]; [| split; [now left | discriminate]].
  match goal with
  | |- context [execute_decision cfg st3 ?m ?p ?n ?v ?c ?f ?r] =>
      pose proof (execute_decision_sell st3 m p n v c f r) as Hex;
      destruct (execute_decision cfg st3 m p n v c f r) as [r4 st4]
  end.
  cbn [fst] in Hex.
  destruct Hro as [(-> & -> & -> & -> & Hnl)
                  | (Hl & -> & th & Hth & Hcase)].
  - split; [right; left; split; [reflexivity | now rewrite <- Hlong] |].
    intros sig Hsig Hact. destruct (Hex sig Hsig Hact) as [-> ->].
    right. eapply position_management_sell; [exact Hpm | reflexivity].
  - apply Hlong in Hl.
    destruct Hcase as [(-> & -> & Hpre & _) | (-> & -> & -> & _)].
    + split; [right; right; split; [now exists true | exact Hl] |].
      intros sig Hsig Hact. destruct (Hex sig Hsig Hact) as [_ ->].
      now left.
    + split; [right; right; split; [now exists false | exact Hl] |].
      intros sig Hsig Hact. destruct (Hex sig Hsig Hact) as [-> ->].
      right. eapply position_management_sell; [exact Hpm | reflexivity].
Qed.

(** C1. While a long position is open ([_last_signal] is "buy" and
    [_entry_price] is set), the override block leaves [_trailing_high] set
    before the exit checks, so the [if self._trailing_high is not None] is
    always the arm taken: the stop-loss, take-profit and time-exit [elif]
    arms never run, and the only override that can fire is the trailing
    stop, whose reason starts with "TRAILING_STOP_TRIGGERED".  (An entry
    price of zero makes the block raise before the chain.)  Over a whole
    [generate_signal] call the recorded arm is therefore the trailing [if]
    or none, and every sell carries either the trailing-stop reason or the
    conviction reason. *)
Theorem exit_chain_only_reaches_trailing_stop
  (st : State) (entry : Q) (market : MarketSnapshot) (portfolio : Portfolio)
  (now : datetime) :
  _last_signal st = Some "buy" -> _entry_price st = Some entry ->
  (forall current_price final_signal why final_signal' why' branch st',
      risk_overrides cfg st now current_price final_signal why
      = (Ok (final_signal', why', branch), st') ->
      (exists trailing_high,
          _trailing_high st' = Some trailing_high
          /\ (current_price <= trailing_high)%Q)
      /\ ((branch = TrailingIf true /\ final_signal' = "sell"
           /\ String.prefix "TRAILING_STOP_TRIGGERED" why' = true)
          \/ (branch = TrailingIf false
              /\ final_signal' = final_signal /\ why' = why)))
  /\ (forall current_price final_signal why e st',
         risk_overrides cfg st now current_price final_signal why
         = (Raise e, st') ->
         (entry == 0)%Q /\ st' = st)
  /\ (forall r st' branch,
         generate_signal_traced cfg st market portfolio now
         = (r, st', branch) ->
         (branch = NotEvaluated \/ exists fired, branch = TrailingIf fired)
         /\ branch <> StopLossElif /\ branch <> TakeProfitElif
         /\ branch <> TimeExitElif
         /\ forall sig,
              r = Ok sig -> action sig = "sell" ->
              String.prefix "TRAILING_STOP_TRIGGERED" (reason sig) = true
              \/ String.prefix "CONVICTION:" (reason sig) = true).
Proof.
  intros Hbuy Hentry.
  assert (Hlong : in_long_position st).
  { split; [now apply last_signal_is_buy | congruence]. }
  split; [| split].
  - intros current_price final_signal why f1 r1 br st3 Heq.
    pose proof (risk_overrides_shape st now current_price final_signal why)
      as Hro.
    rewrite Heq in Hro.
    destruct Hro as [(_ & _ & _ & _ & Hnl) | (_ & -> & th & Hth & Hcase)];
      [contradiction |].
    split.
    + destruct (update_trailing_high_sets st current_price)
        as (th' & E & Hle). exists th'. split; assumption.
    + destruct Hcase as [(-> & -> & Hpre & _) | (-> & -> & -> & _)];
        [left | right]; repeat split; assumption || reflexivity.
  - intros current_price final_signal why e st3 Heq.
    pose proof (risk_overrides_shape st now current_price final_signal why)
      as Hro.
    rewrite Heq in Hro. destruct Hro as (_ & -> & _ & e0 & He0 & Hz).
    split; [| reflexivity]. congruence.
  - intros r st' br Heq.
    pose proof (generate_signal_traced_shape st market portfolio now) as Hs.
    rewrite Heq in Hs. destruct Hs as [Hbr Hsell].
    assert (Hb : br = NotEvaluated \/ exists fired, br = TrailingIf fired).
    { destruct Hbr as [-> | [[_ Hnl] | [Hf _]]];
        [now left | contradiction | now right]. }
    split; [exact Hb |].
    repeat split; try exact Hsell;
      destruct Hb as [-> | [fired ->]]; discriminate.
Qed.

End ExitFacts.

(* ------------------------------------------------------------------ *)
(** * What a decision depends on

    The next decision is a function of the market and portfolio snapshots,
    of the [decision_view] of the state and of the verdict of the
    trade-limit check; the clock and the timestamps enter through that
    verdict only. *)

Section DecisionFacts.
Context `{FloatMath}.
Variable cfg : Config.

Ltac split_ifs :=
  repeat match goal with
         | |- context [if ?b then _ else _] => destruct b
         | |- context [match div ?a ?b with _ => _ end] => destruct (div a b)
         end.

(** Case analysis on the tests of a goal, innermost tests first: a test
    that still contains another test is left for later. *)
Ltac plain_test b :=
  lazymatch b with
  | context [if _ then _ else _] => fail
  | context [div _ _] => fail
  | _ => idtac
  end.

Ltac reduce_state :=
  cbn [fst snd _last_signal _entry_price _entry_time _trailing_high
       _trailing_low _consecutive_losses _peak_portfolio_value
       _price_history _win_loss_history _trade_count _last_trade_time
       _recent_performance_score set_peak_portfolio_value
       set_consecutive_losses set_trailing_high set_price_history
       enter_long exit_long].

Ltac reduce_state_in Hyp :=
  cbn [fst snd _last_signal _entry_price _entry_time _trailing_high
       _trailing_low _consecutive_losses _peak_portfolio_value
       _price_history _win_loss_history _trade_count _last_trade_time
       _recent_performance_score] in Hyp.

Ltac split_tests :=
  repeat (reduce_state;
          match goal with
          | |- context [if ?b then _ else _] => plain_test b; destruct b
          | |- context [match div ?a ?b with _ => _ end] =>
              plain_test a; plain_test b; destruct (div a b)
          end);
  reduce_state.

Ltac agree Hlen Hrecent :=
  reduce_state; rewrite ?Hlen, ?Hrecent; split; reflexivity.

Ltac same_view Hview :=
  unfold decision_view, recent_outcomes in Hview; reduce_state_in Hview;
  injection Hview as -> -> -> -> -> -> -> -> Hlen Hrecent.

Lemma drawdown_respects_view (st1 st2 : State) (portfolio_value : Q) :
  decision_view st1 = decision_view st2 ->
  fst (_check_drawdown_limits cfg st1 portfolio_value)
  = fst (_check_drawdown_limits cfg st2 portfolio_value)
  /\ decision_view (snd (_check_drawdown_limits cfg st1 portfolio_value))
     = decision_view (snd (_check_drawdown_limits cfg st2 portfolio_value)).
Proof.
  destruct st1 as [ls1 ep1 et1 th1 tl1 cl1 pk1 ph1 wl1 tc1 lt1 rp1],
           st2 as [ls ep et2 th tl cl pk ph2 wl2 tc lt2 rp].
  intros Hview. same_view Hview.
  unfold _check_drawdown_limits, decision_view, recent_outcomes,
    last_signal_is.
  split_tests; agree Hlen Hrecent.
Qed.

Lemma risk_overrides_respects_view
  (st1 st2 : State) (now1 now2 : datetime) (current_price : Q)
  (final_signal why : string) :
  decision_view st1 = decision_view st2 ->
  fst (risk_overrides cfg st1 now1 current_price final_signal why)
  = fst (risk_overrides cfg st2 now2 current_price final_signal why)
  /\ decision_view
       (snd (risk_overrides cfg st1 now1 current_price final_signal why))
     = decision_view
         (snd (risk_overrides cfg st2 now2 current_price final_signal why)).
Proof.
  destruct st1 as [ls1 ep1 et1 th1 tl1 cl1 pk1 ph1 wl1 tc1 lt1 rp1],
           st2 as [ls ep et2 th tl cl pk ph2 wl2 tc lt2 rp].
  intros Hview. same_view Hview.
  unfold risk_overrides, update_trailing_high, decision_view,
    recent_outcomes, last_signal_is; reduce_state.
  destruct ls as [l|]; [destruct (String.eqb l "buy") |];
    try (agree Hlen Hrecent).
  destruct ep as [e|]; try (agree Hlen Hrecent).
  destruct (div _ e); try (agree Hlen Hrecent).
  destruct th as [h|]; reduce_state;
    [destruct (Qgtb current_price h); reduce_state |];
    destruct (Qleb _ _); agree Hlen Hrecent.
Qed.

Lemma position_size_respects_view
  (st1 st2 : State) (market : MarketSnapshot)
  (portfolio_value conviction_score : Q) :
  decision_view st1 = decision_view st2 ->
  _calculate_optimal_position_size cfg st1 market portfolio_value
                                   conviction_score
  = _calculate_optimal_position_size cfg st2 market portfolio_value
                                     conviction_score.
Proof.
  unfold decision_view, recent_outcomes. intros Hview.
  injection Hview as _ _ _ _ _ _ _ _ Hlen Hrecent.
  unfold _calculate_optimal_position_size. now rewrite Hlen, Hrecent.
Qed.

Lemma execute_decision_respects_view
  (st1 st2 : State) (market : MarketSnapshot) (portfolio : Portfolio)
  (now1 now2 : datetime) (portfolio_value conviction_score : Q)
  (final_signal why : string) :
  decision_view st1 = decision_view st2 ->
  fst (execute_decision cfg st1 market portfolio now1 portfolio_value
                        conviction_score final_signal why)
  = fst (execute_decision cfg st2 market portfolio now2 portfolio_value
                          conviction_score final_signal why)
  /\ decision_view
       (snd (execute_decision cfg st1 market portfolio now1 portfolio_value
                              conviction_score final_signal why))
     = decision_view
         (snd (execute_decision cfg st2 market portfolio now2
                                portfolio_value conviction_score
                                final_signal why)).
Proof.
  intros Hview. unfold execute_decision.
  rewrite (position_size_respects_view st1 st2 market portfolio_value
             conviction_score Hview).
  generalize (_calculate_optimal_position_size cfg st2 market
                portfolio_value conviction_score) as pct.
  intros pct. revert Hview.
  destruct st1 as [ls1 ep1 et1 th1 tl1 cl1 pk1 ph1 wl1 tc1 lt1 rp1],
           st2 as [ls ep et2 th tl cl pk ph2 wl2 tc lt2 rp].
  intros Hview. same_view Hview.
  unfold decision_view, recent_outcomes.
  split_tests; agree Hlen Hrecent.
Qed.

Lemma position_management_respects_view
  (st1 st2 : State) (score : Q) (conviction_reason : string) :
  decision_view st1 = decision_view st2 ->
  position_management st1 score conviction_reason
  = position_management st2 score conviction_reason.
Proof.
  destruct st1 as [ls1 ep1 et1 th1 tl1 cl1 pk1 ph1 wl1 tc1 lt1 rp1],
           st2 as [ls ep et2 th tl cl pk ph2 wl2 tc lt2 rp].
  intros Hview. same_view Hview. reflexivity.
Qed.

(** Two calls on the same snapshots, from states with the same
    [decision_view] and with the same verdict of the trade-limit check,
    return the same result, record the same exit arm and end in states
    with the same [decision_view]. *)
Lemma generate_signal_respects_view
  (st1 st2 : State) (market : MarketSnapshot) (portfolio : Portfolio)
  (now1 now2 : datetime) :
  decision_view st1 = decision_view st2 ->
  _check_trade_limits cfg st1 now1 = _check_trade_limits cfg st2 now2 ->
  let '(r1, st1', branch1) :=
    generate_signal_traced cfg st1 market portfolio now1 in
  let '(r2, st2', branch2) :=
    generate_signal_traced cfg st2 market portfolio now2 in
  r1 = r2 /\ branch1 = branch2 /\ decision_view st1' = decision_view st2'.
Proof.
  intros Hview Hlim. unfold generate_signal_traced.
  match goal with
  | |- context [set_price_history st1 ?h] => set (h1 := h)
  end.
  match goal with
  | |- context [set_price_history st2 ?h] => set (h2 := h)
  end.
  assert (V0 : decision_view (set_price_history st1 h1)
               = decision_view (set_price_history st2 h2)) by exact Hview.
  destruct (len (prices market) <? required_history cfg).
  { repeat split. exact V0. }
  set (pv := (cash portfolio + quantity portfolio * current_price market)%Q).
  assert (Hpeak : _peak_portfolio_value (set_price_history st1 h1)
                  = _peak_portfolio_value (set_price_history st2 h2)).
  { cbn. unfold decision_view in Hview. congruence. }
  rewrite Hpeak.
  match goal with
  | |- context [_check_trade_limits cfg ?s now1] => set (s1 := s)
  end.
  match goal with
  | |- context [_check_trade_limits cfg ?s now2] => set (s2 := s)
  end.
  assert (V1 : decision_view s1 = decision_view s2).
  { subst s1 s2. destruct (Qgtb pv _); [| exact V0].
    unfold decision_view in *. cbn in *. congruence. }
  assert (L1 : _check_trade_limits cfg s1 now1
               = _check_trade_limits cfg st1 now1)
    by (subst s1; destruct (Qgtb pv _); reflexivity).
  assert (L2 : _check_trade_limits cfg s2 now2
               = _check_trade_limits cfg st2 now2)
    by (subst s2; destruct (Qgtb pv _); reflexivity).
  rewrite L1, L2, Hlim.
  destruct (_check_trade_limits cfg st2 now2) as [[|] lim];
    simpl negb; cbv iota; [| repeat split; exact V1].
  destruct (drawdown_respects_view s1 s2 pv V1) as [D1 D2].
  destruct (_check_drawdown_limits cfg s1 pv) as [d1 t1],
           (_check_drawdown_limits cfg s2 pv) as [d2 t2].
  cbn [fst snd] in D1, D2. subst d2.
  destruct d1 as [[|]|e]; try (repeat split; exact D2).
  destruct (_high_conviction_signal cfg market) as [[score cr]|];
    [| repeat split; exact D2].
  destruct (Qltb (Qabs score) (conviction_threshold cfg));
    [repeat split; exact D2 |].
  rewrite (position_management_respects_view t1 t2 score cr D2).
  destruct (position_management t2 score cr) as [f0 r0].
  destruct (risk_overrides_respects_view t1 t2 now1 now2
              (current_price market) f0 r0 D2) as [R1 R2].
  destruct (risk_overrides cfg t1 now1 (current_price market) f0 r0)
    as [o1 u1],
           (risk_overrides cfg t2 now2 (current_price market) f0 r0)
    as [o2 u2].
  cbn [fst snd] in R1, R2. subst o2.
  destruct o1 as [[[f1 r1] br]|e]; [| repeat split; exact R2].
  destruct (execute_decision_respects_view u1 u2 market portfolio now1 now2
              pv score f1 r1 R2) as [E1 E2].
  destruct (execute_decision cfg u1 market portfolio now1 pv score f1 r1)
    as [x1 w1],
           (execute_decision cfg u2 market portfolio now2 pv score f1 r1)
    as [x2 w2].
  cbn [fst snd] in E1, E2. subst x2. repeat split. exact E2.
Qed.

(** The two histories do not depend on the clock either. *)
Lemma generate_signal_histories
  (st : State) (market : MarketSnapshot) (portfolio : Portfolio)
  (now : datetime) :
  let st' := snd (generate_signal cfg st market portfolio now) in
  _win_loss_history st' = _win_loss_history st
  /\ _price_history st'
     = (let h := append (_price_history st) (current_price market) in
        if 200 <? len h then slice_from (-200) h else h).
Proof.
  unfold generate_signal, generate_signal_traced. cbv zeta.
  match goal with
  | |- context [set_price_history st ?h] => set (h1 := h)
  end.
  destruct (len (prices market) <? required_history cfg);
    [split; reflexivity |].
  match goal with
  | |- context [_check_trade_limits cfg ?s now] =>
      set (s1 := s);
      assert (K1 : _win_loss_history s1 = _win_loss_history st
                   /\ _price_history s1 = h1)
        by (subst s1; destruct (Qgtb _ _); split; reflexivity)
  end.
  destruct (_check_trade_limits cfg s1 now) as [[|] lim];
    simpl negb; cbv iota; [| exact K1].
  assert (K2 : forall pv,
             _win_loss_history (snd (_check_drawdown_limits cfg s1 pv))
             = _win_loss_history s1
             /\ _price_history (snd (_check_drawdown_limits cfg s1 pv))
                = _price_history s1).
  { intros pv. unfold _check_drawdown_limits. split_ifs; split; reflexivity. }
  match goal with
  | |- context [_check_drawdown_limits cfg s1 ?pv] =>
      specialize (K2 pv);
      destruct (_check_drawdown_limits cfg s1 pv) as [[[|]|e] t1]
  end; cbn [fst snd] in K2 |- *;
    try (destruct K1, K2; split; congruence).
  destruct (_high_conviction_signal cfg market) as [[score cr]|];
    [| cbn [fst snd]; destruct K1, K2; split; congruence].
  destruct (Qltb (Qabs score) (conviction_threshold cfg));
    [cbn [fst snd]; destruct K1, K2; split; congruence |].
  destruct (position_management t1 score cr) as [f0 r0].
  assert (K3 : _win_loss_history
                 (snd (risk_overrides cfg t1 now (current_price market)
                                      f0 r0))
               = _win_loss_history t1
               /\ _price_history
                    (snd (risk_overrides cfg t1 now (current_price market)
                                         f0 r0))
                  = _price_history t1).
  { unfold risk_overrides, update_trailing_high.
    destruct (last_signal_is t1 "buy"); [| split; reflexivity].
    destruct (_entry_price t1); [| split; reflexivity].
    destruct (div _ _); [| split; reflexivity].
    destruct (_trailing_high t1) as [th|]; cbn;
      [destruct (Qgtb _ th); cbn |];
      try (destruct (_trailing_high t1));
      split_ifs; split; reflexivity. }
  destruct (risk_overrides cfg t1 now (current_price market) f0 r0)
    as [[[[f1 r1] br]|e] u1]; cbn [fst snd] in K3 |- *;
    [| destruct K1, K2, K3; split; congruence].
  match goal with
  | |- context [execute_decision cfg u1 ?m ?p ?n ?v ?c ?f ?r] =>
      assert (K4 : _win_loss_history
                     (snd (execute_decision cfg u1 m p n v c f r))
                   = _win_loss_history u1
                   /\ _price_history
                        (snd (execute_decision cfg u1 m p n v c f r))
                      = _price_history u1)
        by (unfold execute_decision; split_ifs; split; reflexivity);
      destruct (execute_decision cfg u1 m p n v c f r) as [x1 w1]
  end.
  cbn [fst snd] in K4 |- *. destruct K1, K2, K3, K4. split; congruence.
Qed.

End DecisionFacts.

(* ------------------------------------------------------------------ *)
(** * The clock and the cooldown *)

Section ClockFacts.
Context `{FloatMath}.
Variable cfg : Config.

(** C5 (amended). A call is a deterministic function of the state, the
    two snapshots and the clock reading taken on its first line.  The clock
    enters through the trade-limit check and through the stamps written on
    a trade only: two runs from the same state with the same snapshots
    whose clock readings get the same verdict from [_check_trade_limits]
    return the same result, and their new states differ at most in
    [_entry_time] and [_last_trade_time]. *)
Theorem clock_matters_only_through_trade_limits
  (st : State) (market : MarketSnapshot) (portfolio : Portfolio)
  (now1 now2 : datetime) :
  _check_trade_limits cfg st now1 = _check_trade_limits cfg st now2 ->
  fst (generate_signal cfg st market portfolio now1)
  = fst (generate_signal cfg st market portfolio now2)
  /\ forget_times (snd (generate_signal cfg st market portfolio now1))
     = forget_times (snd (generate_signal cfg st market portfolio now2)).
Proof.
  intros Hlim.
  pose proof (generate_signal_respects_view cfg st st market portfolio
                now1 now2 eq_refl Hlim) as Hview.
  destruct (generate_signal_histories cfg st market portfolio now1)
    as [W1 P1].
  destruct (generate_signal_histories cfg st market portfolio now2)
    as [W2 P2].
  unfold generate_signal in *.
  destruct (generate_signal_traced cfg st market portfolio now1)
    as [[r1 s1] b1],
           (generate_signal_traced cfg st market portfolio now2)
    as [[r2 s2] b2].
  cbn [fst snd] in *. destruct Hview as (-> & _ & Hview).
  split; [reflexivity |].
  unfold decision_view in Hview.
  injection Hview as E1 E2 E3 E4 E5 E6 E7 E8 _.
  unfold forget_times. rewrite W1, W2, P1, P2. congruence.
Qed.

(** An executed buy stamps the clock reading and opens the position. *)
Lemma execute_decision_buy
  (st : State) (market : MarketSnapshot) (portfolio : Portfolio)
  (now : datetime) (portfolio_value conviction_score : Q)
  (final_signal why : string) (sig : Signal) :
  fst (execute_decision cfg st market portfolio now portfolio_value
                        conviction_score final_signal why) = Ok sig ->
  action sig = "buy" ->
  snd (execute_decision cfg st market portfolio now portfolio_value
                        conviction_score final_signal why)
  = enter_long st now (current_price market).
Proof.
  unfold execute_decision.
  destruct (String.eqb final_signal "buy").
  - destruct (Qleb _ 0); [intros [= <-]; discriminate |].
    destruct (div _ _); [| discriminate].
    destruct (Qleb _ 0); [intros [= <-]; discriminate |].
    reflexivity.
  - destruct (String.eqb final_signal "sell");
      [| intros [= <-]; discriminate].
    destruct (Qleb _ 0); intros [= <-]; discriminate.
Qed.

Lemma generate_signal_buy
  (st : State) (market : MarketSnapshot) (portfolio : Portfolio)
  (now : datetime) (sig : Signal) (st' : State) :
  generate_signal cfg st market portfolio now = (Ok sig, st') ->
  action sig = "buy" ->
  _last_signal st' = Some "buy" /\ _last_trade_time st' = Some now.
Proof.
  unfold generate_signal, generate_signal_traced.
  destruct (len (prices market) <? required_history cfg);
    [intros [= <- _]; discriminate |].
  destruct (_check_trade_limits cfg _ now) as [[|] lim];
    simpl negb; cbv iota; [| intros [= <- _]; discriminate].
  destruct (_check_drawdown_limits cfg _ _) as [[[|]|e] st2];
    try (intros [= <- _]; discriminate); try discriminate.
  destruct (_high_conviction_signal cfg market) as [[score cr]|];
    [| discriminate].
  destruct (Qltb (Qabs score) (conviction_threshold cfg));
    [intros [= <- _]; discriminate |].
  destruct (position_management st2 score cr) as [f0 r0].
  destruct (risk_overrides cfg st2 now (current_price market) f0 r0)
    as [[[[f1 r1] br]|e] st3]; [| discriminate].
  match goal with
  | |- context [execute_decision cfg st3 ?m ?p ?n ?v ?c ?f ?r] =>
      pose proof (execute_decision_buy st3 m p n v c f r sig) as Hbuy;
      destruct (execute_decision cfg st3 m p n v c f r) as [r4 st4]
  end.
  cbn [fst snd] in *. intros [= -> ->] Hact.
  rewrite (Hbuy eq_refl Hact). split; reflexivity.
Qed.

(** C6 (amended). After a call that executed a buy, a second call made
    before the cooldown has elapsed (with a sufficient price history,
    whatever the price) is a hold, not a duplicate buy, and leaves the
    position long.  Its reason is the one of the trade-limit check, which
    runs before position management: "Trade limit:
    min_time_between_trades_not_met:<hours>h", or "Trade limit:
    max_trades_reached" when the buy used up the last trade; it is not
    "already_in_long_position". *)
Theorem second_call_within_cooldown_is_trade_limit_hold
  (st : State) (market : MarketSnapshot) (portfolio : Portfolio)
  (now : datetime) (sig : Signal) (st' : State)
  (market' : MarketSnapshot) (portfolio' : Portfolio) (now' : datetime) :
  generate_signal cfg st market portfolio now = (Ok sig, st') ->
  action sig = "buy" ->
  Datetime.sub now' now < Datetime.hours (min_time_between_trades cfg) ->
  Z.max (Z.max (rsi_period cfg) (bb_period cfg)) (macd_slow cfg)
    <= len (prices market') ->
  _last_signal st' = Some "buy"
  /\ exists why st'',
       generate_signal cfg st' market' portfolio' now'
       = (Ok (mk_signal "hold" None why), st'')
       /\ (why = "Trade limit: max_trades_reached"
           \/ why = "Trade limit: min_time_between_trades_not_met:"
                      ++ format_fixed 1
                           (total_seconds (Datetime.sub now' now) / 3600)%Q
                      ++ "h")
       /\ why <> "already_in_long_position"
       /\ _last_signal st'' = Some "buy"
       /\ _trade_count st'' = _trade_count st'.
Proof.
  intros Hgs Hact Hsoon Hlen.
  destruct (generate_signal_buy st market portfolio now sig st' Hgs Hact)
    as [Hlong Hstamp].
  split; [exact Hlong |].
  unfold generate_signal, generate_signal_traced.
  replace (len (prices market') <? required_history cfg) with false
    by (symmetry; apply Z.ltb_ge; exact Hlen).
  match goal with
  | |- context [_check_trade_limits cfg ?s now'] =>
      set (s1 := s);
      assert (K : _last_trade_time s1 = Some now
                  /\ _last_signal s1 = Some "buy"
                  /\ _trade_count s1 = _trade_count st')
        by (subst s1; destruct (Qgtb _ _); repeat split; assumption)
  end.
  destruct K as (Kt & Kl & Kc).
  destruct (check_trade_limits_cooldown cfg s1 now now' Kt Hsoon)
    as [-> | ->]; simpl negb; cbv iota; cbn [fst];
    eexists; exists s1; (split; [reflexivity |]).
  - split; [now left |]. repeat split; [discriminate | exact Kl | exact Kc].
  - split; [now right |]. repeat split; [discriminate | exact Kl | exact Kc].
Qed.

End ClockFacts.

Lemma clock_matters_only_through_trade_limits_witness :
  _check_trade_limits eager_config bought_at_45000 seven_pm
  = _check_trade_limits eager_config bought_at_45000 eight_pm
  /\ fst (@generate_signal decimal_math eager_config bought_at_45000
            (snapshot_of falling_to_42000 seven_pm) long_portfolio seven_pm)
     = fst (@generate_signal decimal_math eager_config bought_at_45000
              (snapshot_of falling_to_42000 seven_pm) long_portfolio
              eight_pm).
Proof.
  assert (Hlim : _check_trade_limits eager_config bought_at_45000 seven_pm
                 = _check_trade_limits eager_config bought_at_45000 eight_pm)
    by reflexivity.
  split; [exact Hlim |].
  exact (proj1 (@clock_matters_only_through_trade_limits decimal_math
                  eager_config bought_at_45000
                  (snapshot_of falling_to_42000 seven_pm) long_portfolio
                  seven_pm eight_pm Hlim)).
Defined.

(** C5, as stated, fails: from the state after the buy, with the same
    market and portfolio snapshots, the clock reading alone decides between
    a hold (one hour after the buy) and a trailing-stop sell (seven hours
    after it). *)
Lemma decision_changes_with_the_clock :
  fst (@generate_signal decimal_math eager_config bought_at_45000
         (snapshot_of falling_to_42000 one_pm) long_portfolio one_pm)
  = Ok (mk_signal "hold" None
          "Trade limit: min_time_between_trades_not_met:1.0h")
  /\ (exists size,
        fst (@generate_signal decimal_math eager_config bought_at_45000
               (snapshot_of falling_to_42000 one_pm) long_portfolio seven_pm)
        = Ok (mk_signal "sell" (Some size)
                "TRAILING_STOP_TRIGGERED | high:45000.00 | current:42000.00"))
  /\ fst (@generate_signal decimal_math eager_config bought_at_45000
            (snapshot_of falling_to_42000 one_pm) long_portfolio one_pm)
     <> fst (@generate_signal decimal_math eager_config bought_at_45000
               (snapshot_of falling_to_42000 one_pm) long_portfolio seven_pm).
Proof.
  assert (E1 : fst (@generate_signal decimal_math eager_config
                      bought_at_45000 (snapshot_of falling_to_42000 one_pm)
                      long_portfolio one_pm)
               = Ok (mk_signal "hold" None
                       "Trade limit: min_time_between_trades_not_met:1.0h"))
    by (vm_compute; reflexivity).
  assert (E2 : fst (@generate_signal decimal_math eager_config
                      bought_at_45000 (snapshot_of falling_to_42000 one_pm)
                      long_portfolio seven_pm)
               = Ok (mk_signal "sell" (Some 0.04%Q)
                       "TRAILING_STOP_TRIGGERED | high:45000.00 | current:42000.00"))
    by (vm_compute; reflexivity).
  split; [exact E1 | split; [eexists; exact E2 |]].
  rewrite E1, E2. discriminate.
Qed.

Lemma second_call_within_cooldown_is_trade_limit_hold_witness :
  Datetime.sub one_pm noon
    < Datetime.hours (min_time_between_trades eager_config)
  /\ _last_signal bought_at_45000 = Some "buy"
  /\ exists why st'',
       @generate_signal decimal_math eager_config bought_at_45000
         (snapshot_of falling_to_45000 noon) flat_portfolio one_pm
       = (Ok (mk_signal "hold" None why), st'')
       /\ why <> "already_in_long_position".
Proof.
  assert (Hsoon : Datetime.sub one_pm noon
                  < Datetime.hours (min_time_between_trades eager_config))
    by reflexivity.
  split; [exact Hsoon |].
  destruct buy_at_45000 as (size & Hbuy & _).
  destruct (@second_call_within_cooldown_is_trade_limit_hold decimal_math
              eager_config init_state (snapshot_of falling_to_45000 noon)
              flat_portfolio noon _ bought_at_45000
              (snapshot_of falling_to_45000 noon) flat_portfolio one_pm
              Hbuy eq_refl Hsoon)
    as (Hlong & why & st'' & Hgs & _ & Hne & _).
  { vm_compute. discriminate. }
  split; [exact Hlong |].
  exists why, st''. split; [exact Hgs | exact Hne].
Defined.

(** C6, as stated, fails: the second call right after the buy, at the same
    price and the same clock reading, returns a hold whose reason is the
    cooldown, not "already_in_long_position". *)
Lemma immediate_second_call_reports_cooldown :
  (exists size,
      @generate_signal decimal_math eager_config init_state
        (snapshot_of falling_to_45000 noon) flat_portfolio noon
      = (Ok (mk_signal "buy" (Some size)
                       "CONVICTION:rsi_oversold:0.00|SCORE:0.400"),
         bought_at_45000))
  /\ _last_signal bought_at_45000 = Some "buy"
  /\ fst (@generate_signal decimal_math eager_config bought_at_45000
            (snapshot_of falling_to_45000 noon) flat_portfolio noon)
     = Ok (mk_signal "hold" None
             "Trade limit: min_time_between_trades_not_met:0.0h")
  /\ "Trade limit: min_time_between_trades_not_met:0.0h"
     <> "already_in_long_position".
Proof.
  split; [| split; [reflexivity | split; [| discriminate]]].
  - destruct buy_at_45000 as (size & Hbuy & _). eexists. exact Hbuy.
  - vm_compute. reflexivity.
Qed.

(* ------------------------------------------------------------------ *)
(** * Scenarios on the exit chain *)

Lemma exit_chain_only_reaches_trailing_stop_witness :
  _last_signal bought_at_45000 = Some "buy"
  /\ _entry_price bought_at_45000 = Some 45000%Q
  /\ forall r st' branch,
       @generate_signal_traced decimal_math eager_config bought_at_45000
         (snapshot_of falling_to_42000 seven_pm) long_portfolio seven_pm
       = (r, st', branch) ->
       (branch = NotEvaluated \/ exists fired, branch = TrailingIf fired)
       /\ branch <> StopLossElif /\ branch <> TakeProfitElif
       /\ branch <> TimeExitElif
       /\ forall sig,
            r = Ok sig -> action sig = "sell" ->
            String.prefix "TRAILING_STOP_TRIGGERED" (reason sig) = true
            \/ String.prefix "CONVICTION:" (reason sig) = true.
Proof.
  split; [reflexivity | split; [reflexivity |]].
  exact (proj2 (proj2 (@exit_chain_only_reaches_trailing_stop decimal_math
                         eager_config bought_at_45000 45000%Q
                         (snapshot_of falling_to_42000 seven_pm)
                         long_portfolio seven_pm eq_refl eq_refl))).
Defined.

(** The trailing stop does fire: seven hours after the buy at 45000 the
    price stands at 42000, below 95% of the trailing high. *)
Lemma trailing_stop_fires_at_42000 :
  exists st',
    @generate_signal_traced decimal_math eager_config bought_at_45000
      (snapshot_of falling_to_42000 seven_pm) long_portfolio seven_pm
    = (Ok (mk_signal "sell" (Some 0.04%Q)
             "TRAILING_STOP_TRIGGERED | high:45000.00 | current:42000.00"),
       st', TrailingIf true)
    /\ _last_signal st' = Some "sell" /\ _entry_price st' = None.
Proof.
  eexists. split; [vm_compute; reflexivity | split; reflexivity].
Qed.

(** C2 (code at the failing input).  After the buy at 45000, a call at
    46350 (+3%) produces no take-profit sell.  At 51750 (+15%, so that
    [price_change_pct >= take_profit_pct]) there is no take-profit sell
    either: the [elif] that would emit "TAKE_PROFIT_TRIGGERED" is not
    reached, because the [if] on [_trailing_high] is taken first.  With a
    history that slid down to 51750 the call is a hold with reason
    "already_in_long_position"; with one that climbed to 51750 it is a sell
    whose reason is the conviction reason. *)
Theorem no_take_profit_at_plus_fifteen_percent :
  (* +3%: no take-profit, as the claim says *)
  (exists st',
      @generate_signal_traced decimal_math eager_config bought_at_45000
        (snapshot_of falling_to_46350 seven_pm) long_portfolio seven_pm
      = (Ok (mk_signal "hold" None "already_in_long_position"), st',
         TrailingIf false))
  (* +15%: the take-profit condition holds ... *)
  /\ Qgeb ((51750 - 45000) / 45000)%Q (take_profit_pct eager_config) = true
  (* ... but the call is a hold ... *)
  /\ (exists st',
         @generate_signal_traced decimal_math eager_config bought_at_45000
           (snapshot_of falling_to_51750 seven_pm) long_portfolio seven_pm
         = (Ok (mk_signal "hold" None "already_in_long_position"), st',
            TrailingIf false)
         /\ _trailing_high st' = Some 51750%Q)
  /\ contains "TAKE_PROFIT_TRIGGERED" "already_in_long_position" = false
  (* ... or a sell for another reason *)
  /\ (exists st',
         @generate_signal_traced decimal_math eager_config bought_at_45000
           (snapshot_of rising_to_51750 seven_pm) long_portfolio seven_pm
         = (Ok (mk_signal "sell" (Some 0.04%Q)
                  "CONVICTION:rsi_overbought:100.00|SCORE:-0.400"), st',
            TrailingIf false))
  /\ contains "TAKE_PROFIT_TRIGGERED"
              "CONVICTION:rsi_overbought:100.00|SCORE:-0.400" = false.
Proof.
  split; [eexists; vm_compute; reflexivity |].
  split; [vm_compute; reflexivity |].
  split; [eexists; split; [vm_compute; reflexivity | reflexivity] |].
  split; [vm_compute; reflexivity |].
  split; [eexists; vm_compute; reflexivity |].
  vm_compute; reflexivity.
Qed.

(* ------------------------------------------------------------------ *)
(** * Persistence *)

Section IsoFacts.

Lemma append_assoc (a b c : string) : (a ++ b) ++ c = a ++ (b ++ c).
Proof. induction a as [|x a IH]; simpl; [reflexivity | now rewrite IH]. Qed.

Lemma digit_val_digit (z : Z) : digit_val (digit z) = Some (z mod 10).
Proof.
  unfold digit_val, digit.
  pose proof (Z.mod_pos_bound z 10 ltac:(lia)) as Hb.
  rewrite nat_ascii_embedding by lia.
  replace (Z.of_nat (48 + Z.to_nat (z mod 10))) with (48 + z mod 10) by lia.
  replace (48 <=? 48 + z mod 10) with true
    by (symmetry; apply Z.leb_le; lia).
  replace (48 + z mod 10 <=? 57) with true
    by (symmetry; apply Z.leb_le; lia).
  cbn [andb]. f_equal. lia.
Qed.

Lemma parse_digits_cons (n : nat) (acc : Z) (c : ascii) (rest : string) :
  parse_digits (S n) acc (String c rest)
  = match digit_val c with
    | Some v => parse_digits n (acc * 10 + v) rest
    | None => None
    end.
Proof. reflexivity. Qed.

(** Reading one more digit, seen from the right. *)
Lemma parse_digits_snoc (n : nat) (acc : Z) (s : string) :
  parse_digits (S n) acc s
  = match parse_digits n acc s with
    | Some (a, String c rest) =>
        match digit_val c with
        | Some v => Some (a * 10 + v, rest)
        | None => None
        end
    | _ => None
    end.
Proof.
  revert acc s. induction n as [|n IH]; intros acc s.
  - simpl. destruct s as [|c rest]; [reflexivity |].
    destruct (digit_val c); reflexivity.
  - destruct s as [|c rest]; [reflexivity |].
    rewrite !parse_digits_cons.
    destruct (digit_val c) as [v|]; [| reflexivity].
    apply IH.
Qed.

Lemma parse_digits_app (n : nat) (z acc : Z) (rest : string) :
  parse_digits n acc (digits n z ++ rest)
  = Some (acc * 10 ^ Z.of_nat n + z mod 10 ^ Z.of_nat n, rest).
Proof.
  revert z rest. induction n as [|n IH]; intros z rest.
  - simpl. rewrite Z.mod_1_r. do 2 f_equal. lia.
  - rewrite parse_digits_snoc.
    change (digits (S n) z) with (digits n (z / 10) ++ String (digit z) "").
    rewrite append_assoc. change (String (digit z) "" ++ rest)
      with (String (digit z) rest).
    rewrite IH, digit_val_digit. do 2 f_equal.
    rewrite Nat2Z.inj_succ, Z.pow_succ_r by lia.
    rewrite (Z.rem_mul_r z 10 (10 ^ Z.of_nat n)) by lia. lia.
Qed.

Lemma parse_field (n : nat) (z : Z) (rest : string) :
  0 <= z < 10 ^ Z.of_nat n ->
  parse_digits n 0 (digits n z ++ rest) = Some (z, rest).
Proof.
  intros Hz. rewrite parse_digits_app, Z.mod_small by exact Hz.
  reflexivity.
Qed.

Lemma substring_all (s : string) : String.substring 0 (String.length s) s = s.
Proof. induction s as [|c s IH]; simpl; [reflexivity | now rewrite IH]. Qed.

Lemma expect_char (c : ascii) (rest : string) :
  expect (String c "") (String c rest) = Some rest.
Proof.
  unfold expect. simpl. destruct (ascii_dec c c) as [_ | Hne];
    [| contradiction].
  rewrite prefix_empty, Nat.sub_0_r, substring_all. reflexivity.
Qed.

Lemma days_in_month_bound (y m : Z) : 28 <= days_in_month y m <= 31.
Proof.
  unfold days_in_month.
  destruct (m =? 2); [destruct (is_leap y); lia |].
  destruct (_ || _); lia.
Qed.

(** Parsing the exported text gives back the timestamp at seconds
    precision. *)
Lemma fromisoformat_utc_iso (d : datetime) :
  valid d -> fromisoformat (_utc_iso d) = Some (whole_second d).
Proof.
  intros (Hy & Hm & Hd & Hh & Hmi & Hs & _).
  pose proof (days_in_month_bound (year d) (month d)) as Hdim.
  unfold _utc_iso, isoformat_seconds, fromisoformat.
  rewrite parse_field by (simpl; lia). cbn [obind].
  change ("-" ++ ?s) with (String "-" s).
  rewrite expect_char. cbn [obind].
  rewrite parse_field by (simpl; lia). cbn [obind].
  change ("-" ++ ?s) with (String "-" s).
  rewrite expect_char. cbn [obind].
  rewrite parse_field by (simpl; lia). cbn [obind].
  change ("T" ++ ?s) with (String "T" s).
  rewrite expect_char. cbn [obind].
  rewrite parse_field by (simpl; lia). cbn [obind].
  change (":" ++ ?s) with (String ":" s).
  rewrite expect_char. cbn [obind].
  rewrite parse_field by (simpl; lia). cbn [obind].
  change (":" ++ ?s) with (String ":" s).
  rewrite expect_char. cbn [obind].
  rewrite parse_field by (simpl; lia). cbn [obind].
  replace (1 <=? year d) with true by (symmetry; apply Z.leb_le; lia).
  replace (1 <=? month d) with true by (symmetry; apply Z.leb_le; lia).
  replace (month d <=? 12) with true by (symmetry; apply Z.leb_le; lia).
  replace (1 <=? day d) with true by (symmetry; apply Z.leb_le; lia).
  replace (day d <=? days_in_month (year d) (month d)) with true
    by (symmetry; apply Z.leb_le; lia).
  replace (hour d <? 24) with true by (symmetry; apply Z.ltb_lt; lia).
  replace (minute d <? 60) with true by (symmetry; apply Z.ltb_lt; lia).
  replace (second d <? 60) with true by (symmetry; apply Z.ltb_lt; lia).
  reflexivity.
Qed.

Lemma restore_time_utc_iso (old t : option datetime) :
  (forall d, t = Some d -> valid d) ->
  restore_time old (option_map _utc_iso t)
  = Some match t with
         | Some d => Some (whole_second d)
         | None => old
         end.
Proof.
  intros Hvalid. destruct t as [d|]; [| reflexivity].
  pose proof (fromisoformat_utc_iso d (Hvalid d eq_refl)) as Hparse.
  unfold restore_time. cbn [option_map].
  destruct (_utc_iso d) as [|c text] eqn:E.
  - discriminate Hparse.
  - now rewrite Hparse.
Qed.

Lemma whole_second_id (d : datetime) :
  microsecond d = 0 -> whole_second d = d.
Proof. destruct d; unfold whole_second; simpl. now intros ->. Qed.


End IsoFacts.

Section RoundTrip.
Context `{FloatMath}.

(** The state of a fresh instance after [set_state (get_state st)]. *)
Lemma set_state_get_state (st : State) :
  (forall t, _entry_time st = Some t -> valid t) ->
  (forall t, _last_trade_time st = Some t -> valid t) ->
  set_state init_state (get_state st)
  = Some (mk_state (_last_signal st) (_entry_price st)
                   (option_map whole_second (_entry_time st))
                   (_trailing_high st) (_trailing_low st)
                   (_consecutive_losses st) (_peak_portfolio_value st)
                   []
                   (if 50 <? len (_win_loss_history st)
                    then slice_from (-50) (_win_loss_history st)
                    else _win_loss_history st)
                   (_trade_count st)
                   (option_map whole_second (_last_trade_time st))
                   (_recent_performance_score st)).
Proof.
  intros He Hl. unfold set_state, get_state.
  cbn [snap_entry_time snap_last_trade_time snap_last_signal
       snap_entry_price snap_trailing_high snap_trailing_low
       snap_consecutive_losses snap_peak_portfolio_value snap_trade_count
       snap_win_loss_history snap_recent_performance_score get_or
       init_state _entry_time _last_trade_time _price_history].
  rewrite (restore_time_utc_iso None (_entry_time st) He).
  rewrite (restore_time_utc_iso None (_last_trade_time st) Hl).
  destruct (_entry_time st), (_last_trade_time st); reflexivity.
Qed.


End RoundTrip.



(* ------------------------------------------------------------------ *)
(** * More on the indicators *)

Section IndicatorFacts.
Context `{FloatMath}.

Lemma square_nonneg (y : Q) : (0 <= y * y)%Q.
Proof. destruct (Qlt_le_dec y 0); nra. Qed.




Lemma inject_Z_nonzero (n : Z) : n <> 0 -> ~ (inject_Z n == 0)%Q.
Proof. intros Hn E. unfold Qeq in E. simpl in E. lia. Qed.

(** [_calculate_sma] on a window that fits. *)
Lemma sma_unfold (prices : list Q) (window : Z) :
  0 < window <= len prices ->
  _calculate_sma prices window
  = Ok (Some (sum (slice_from (- window) prices) / inject_Z window)%Q).
Proof.
  intros Hw. unfold _calculate_sma.
  replace (len prices <? window) with false
    by (symmetry; apply Z.ltb_ge; lia).
  rewrite div_ok by (apply inject_Z_nonzero; lia). reflexivity.
Qed.





(** For positive periods [_calculate_macd] returns, with or without a
    triple. *)
Lemma macd_never_raises
  (prices : list Q) (fast_period slow_period signal_period : Z) :
  0 < fast_period -> 0 < slow_period -> 0 < signal_period ->
  exists result,
    _calculate_macd prices fast_period slow_period signal_period = Ok result.
Proof.
  intros Hf Hs Hg. unfold _calculate_macd.
  destruct (Z.ltb_spec (len prices) (slow_period + signal_period))
    as [Hshort | Hlong]; [eauto |].
  destruct (ema_defined prices slow_period) as [sl Hsl]; [lia |].
  destruct (Z.ltb_spec (len prices) fast_period) as [Hfs | Hfl].
  - unfold _calculate_ema at 1.
    replace (len prices <? fast_period) with true
      by (symmetry; apply Z.ltb_lt; lia).
    cbn [bind]. rewrite Hsl. cbn [bind]. eauto.
  - destruct (ema_defined prices fast_period) as [f ->]; [lia |].
    cbn [bind]. rewrite Hsl. cbn [bind].
    destruct (ema_defined (replicate signal_period (f - sl)%Q)
                          signal_period) as [sg ->].
    { unfold replicate. rewrite len_repeat. lia. }
    cbn [bind]. eauto.
Qed.


(** The variance under the square root of the bands is not negative. *)
Lemma sum_squares_nonneg (m : Q) (l : list Q) :
  (0 <= sum (map (fun price => (price - m) * (price - m))%Q l))%Q.
Proof.
  apply sum_nonneg, Forall_map, Forall_forall.
  intros x _. apply square_nonneg.
Qed.

Lemma bollinger_unfold (prices : list Q) (period : Z) (std_dev : Q) :
  0 < period <= len prices ->
  let middle :=
    (sum (slice_from (- period) prices) / inject_Z period)%Q in
  let deviation :=
    fsqrt (sum (map (fun price => (price - middle) * (price - middle))%Q
                    (slice_from (- period) prices))
           / inject_Z period)%Q in
  _calculate_bollinger_bands prices period std_dev
  = Ok (Some (middle, middle + std_dev * deviation,
              middle - std_dev * deviation)%Q).
Proof.
  intros Hp middle deviation. unfold _calculate_bollinger_bands.
  replace (len prices <? period) with false
    by (symmetry; apply Z.ltb_ge; lia).
  rewrite sma_unfold by exact Hp. cbn [bind].
  rewrite div_ok by (apply inject_Z_nonzero; lia). cbn [bind].
  unfold math_sqrt.
  replace (Qltb _ 0) with false; [reflexivity |].
  symmetry. apply Qltb_ge. apply Qdiv_nonneg;
    [apply sum_squares_nonneg | apply inject_Z_pos; lia].
Qed.


(** Differences commute with dropping a prefix. *)
Lemma deltas_of_skipn (k : nat) (l : list Q) :
  deltas_of (skipn k l) = skipn k (deltas_of l).
Proof.
  revert l. induction k as [|k IH]; intros l; [reflexivity |].
  destruct l as [|a [|b r]]; [reflexivity | |].
  - simpl. now destruct k.
  - change (skipn (S k) (a :: b :: r)) with (skipn k (b :: r)).
    change (deltas_of (a :: b :: r))
      with ((b - a)%Q :: deltas_of (b :: r)).
    change (skipn (S k) ((b - a)%Q :: deltas_of (b :: r)))
      with (skipn k (deltas_of (b :: r))).
    apply IH.
Qed.

Lemma slice_last_idem {A} (l : list A) (w : Z) :
  0 < w <= len l ->
  slice_from (- w) (slice_from (- w) l) = slice_from (- w) l.
Proof. intros Hw. apply slice_last_of_last. lia. Qed.

Lemma recent_deltas_window (prices : list Q) (period : Z) :
  0 < period -> period + 1 <= len prices ->
  slice_from (- period) (deltas_of (slice_from (- (period + 1)) prices))
  = slice_from (- period) (deltas_of prices).
Proof.
  intros Hp Hlen. unfold slice_from at 2.
  replace (- (period + 1) <? 0) with true
    by (symmetry; apply Z.ltb_lt; lia).
  rewrite deltas_of_skipn.
  unfold slice_from.
  replace (- period <? 0) with true by (symmetry; apply Z.ltb_lt; lia).
  rewrite skipn_skipn. f_equal.
  unfold len. rewrite length_skipn.
  pose proof (len_deltas_of prices) as Hd. unfold len in *. lia.
Qed.

(** X4. The indicators read nothing but their window: SMA, Bollinger Bands
    and volatility computed on the last [window] prices alone, and RSI
    computed on the last [period + 1] prices alone, equal their values on
    the whole history. *)
Theorem indicators_read_only_their_window
  (prices : list Q) (window : Z) (std_dev : Q) :
  0 < window -> window + 1 <= len prices ->
  _calculate_sma (slice_from (- window) prices) window
  = _calculate_sma prices window
  /\ _calculate_bollinger_bands (slice_from (- window) prices) window
                                std_dev
     = _calculate_bollinger_bands prices window std_dev
  /\ _calculate_volatility (slice_from (- window) prices) window
     = _calculate_volatility prices window
  /\ _calculate_rsi (slice_from (- (window + 1)) prices) window
     = _calculate_rsi prices window.
Proof.
  intros Hw Hlen.
  assert (Hfit : 0 < window <= len prices) by lia.
  assert (Hl : len (slice_from (- window) prices) = window)
    by (apply len_slice_last, Hfit).
  assert (Hsma : _calculate_sma (slice_from (- window) prices) window
                 = _calculate_sma prices window).
  { rewrite !sma_unfold by lia. now rewrite slice_last_idem. }
  split; [exact Hsma | split; [| split]].
  - unfold _calculate_bollinger_bands. rewrite Hsma, Hl.
    replace (window <? window) with false by (symmetry; apply Z.ltb_ge; lia).
    replace (len prices <? window) with false
      by (symmetry; apply Z.ltb_ge; lia).
    now rewrite slice_last_idem.
  - unfold _calculate_volatility. rewrite Hl.
    replace (window <? window) with false by (symmetry; apply Z.ltb_ge; lia).
    replace (len prices <? window) with false
      by (symmetry; apply Z.ltb_ge; lia).
    now rewrite slice_last_idem.
  - unfold _calculate_rsi.
    rewrite (len_slice_last prices (window + 1)) by lia.
    replace (window + 1 <? window + 1) with false
      by (symmetry; apply Z.ltb_ge; lia).
    replace (len prices <? window + 1) with false
      by (symmetry; apply Z.ltb_ge; lia).
    now rewrite recent_deltas_window.
Qed.

End IndicatorFacts.

Lemma sqrt_approx_nonneg : @nonneg_sqrt decimal_math.
Proof.
  intros x _. unfold fsqrt, decimal_math, sqrt_approx.
  apply Qdiv_nonneg.
  - change 0%Q with (inject_Z 0). rewrite <- Zle_Qle. apply Z.sqrt_nonneg.
  - reflexivity.
Qed.




Lemma indicators_read_only_their_window_witness :
  0 < 14 /\ 14 + 1 <= len falling_to_45000
  /\ _calculate_rsi (slice_from (- (14 + 1)) falling_to_45000) 14
     = _calculate_rsi falling_to_45000 14.
Proof.
  assert (Hl : 14 + 1 <= len falling_to_45000) by (vm_compute; discriminate).
  split; [reflexivity | split; [exact Hl |]].
  exact (proj2 (proj2 (proj2
    (@indicators_read_only_their_window decimal_math falling_to_45000 14
       2 eq_refl Hl)))).
Defined.

(* ------------------------------------------------------------------ *)
(** * The range of the conviction score *)

Section ScoreBound.
Context `{FloatMath}.
Variable cfg : Config.

(** For a positive period [_calculate_rsi] returns, and what it returns
    lies in [0, 100]. *)
Lemma rsi_returns_in_range (prices : list Q) (period : Z) :
  0 < period ->
  _calculate_rsi prices period = Ok None
  \/ exists rsi,
       _calculate_rsi prices period = Ok (Some rsi) /\ (0 <= rsi <= 100)%Q.
Proof.
  intros Hp.
  destruct (Z.ltb_spec (len prices) (period + 1)) as [Hshort | Hlong].
  - left. unfold _calculate_rsi.
    now replace (len prices <? period + 1) with true
      by (symmetry; apply Z.ltb_lt; lia).
  - right. eexists. split; [apply rsi_unfold; assumption |].
    pose proof (average_loss_nonneg prices period Hp) as Hl.
    pose proof (average_gain_nonneg prices period Hp) as Hg.
    destruct (Qeqb _ 0) eqn:E; [destruct (Qgtb _ 0); lra |].
    apply Qeqb_neq in E.
    set (rs := (average_gain prices period / average_loss prices period)%Q).
    assert (0 <= rs)%Q by (apply Qdiv_nonneg; lra).
    assert (100 / (1 + rs) <= 100)%Q by (apply Qle_shift_div_r; lra).
    assert (0 <= 100 / (1 + rs))%Q by (apply Qdiv_nonneg; lra).
    lra.
Qed.

Lemma min_one_between (x : Q) : (0 < x)%Q -> (0 <= min 1.0 x <= 1)%Q.
Proof.
  intros Hx. unfold min. destruct (Qltb x 1.0) eqn:E.
  - apply Qltb_lt in E. lra.
  - lra.
Qed.

(** The RSI step moves the score by at most 0.4 and does not raise. *)
Lemma rsi_confirmation_bound
  (market : MarketSnapshot) (score : Q) (reasons : list string) :
  0 < rsi_period cfg ->
  exists score' reasons',
    rsi_confirmation cfg market (score, reasons) = Ok (score', reasons')
    /\ (score - 0.4 <= score' <= score + 0.4)%Q.
Proof.
  intros Hp. unfold rsi_confirmation.
  destruct (rsi_returns_in_range (prices market) (rsi_period cfg) Hp)
    as [-> | (rsi & -> & Hr)]; cbn [bind].
  { exists score, reasons. split; [reflexivity | lra]. }
  destruct (Qltb rsi (rsi_oversold cfg)) eqn:Elow.
  - apply Qltb_lt in Elow.
    rewrite div_ok by lra. cbn [bind].
    do 2 eexists. split; [reflexivity |].
    assert (0 <= (rsi_oversold cfg - rsi) / rsi_oversold cfg <= 1)%Q.
    { split; [apply Qdiv_nonneg | apply Qle_shift_div_r]; lra. }
    lra.
  - destruct (Qgtb rsi (rsi_overbought cfg)) eqn:Ehigh.
    + apply Qltb_lt in Ehigh.
      rewrite div_ok by lra. cbn [bind].
      do 2 eexists. split; [reflexivity |].
      assert (0 <= (rsi - rsi_overbought cfg) / (100 - rsi_overbought cfg)
              <= 1)%Q.
      { split; [apply Qdiv_nonneg | apply Qle_shift_div_r]; lra. }
      lra.
    + exists score, reasons. split; [reflexivity | lra].
Qed.

(** The Bollinger step moves the score by at most 0.3 and does not raise,
    for positive prices. *)
Lemma bollinger_confirmation_bound
  (market : MarketSnapshot) (score : Q) (reasons : list string) :
  0 < bb_period cfg -> (0 <= bb_std cfg)%Q -> nonneg_sqrt ->
  positive_prices market ->
  exists score' reasons',
    bollinger_confirmation cfg market (score, reasons)
    = Ok (score', reasons')
    /\ (score - 0.3 <= score' <= score + 0.3)%Q.
Proof.
  intros Hp Hk Hsqrt [Hpos Hcur]. unfold bollinger_confirmation.
  destruct (Z.ltb_spec (len (prices market)) (bb_period cfg))
    as [Hshort | Hlong].
  { unfold _calculate_bollinger_bands.
    replace (len (prices market) <? bb_period cfg) with true
      by (symmetry; apply Z.ltb_lt; lia).
    cbn [bind]. exists score, reasons. split; [reflexivity | lra]. }
  rewrite bollinger_unfold by lia. cbn [bind].
  set (window := slice_from (- bb_period cfg) (prices market)).
  set (middle := (sum window / inject_Z (bb_period cfg))%Q).
  match goal with
  | |- context [fsqrt ?v] =>
      assert (Hroot : (0 <= fsqrt v)%Q)
        by (apply Hsqrt, Qdiv_nonneg;
            [apply sum_squares_nonneg | apply inject_Z_pos; lia]);
      generalize dependent (fsqrt v)
  end.
  intros root Hroot.
  assert (Hmid : (0 < middle)%Q).
  { apply Qdiv_pos; [| apply inject_Z_pos; lia].
    apply sum_pos.
    - intros E.
      pose proof (len_slice_last (prices market) (bb_period cfg)
                    ltac:(lia)) as Hl.
      fold window in Hl. rewrite E in Hl. unfold len in Hl. simpl in Hl. lia.
    - apply slice_from_incl, Hpos. }
  assert (Hwidth : (0 <= bb_std cfg * root)%Q) by nra.
  generalize dependent (bb_std cfg * root)%Q. intros width Hwidth.
  destruct (Qltb (current_price market) (middle - width)) eqn:Elow.
  - apply Qltb_lt in Elow. rewrite div_ok by lra. cbn [bind].
    do 2 eexists. split; [reflexivity |].
    assert (0 < (middle - width - current_price market) / (middle - width)
            * 2)%Q.
    { assert (0 < (middle - width - current_price market)
                  / (middle - width))%Q by (apply Qdiv_pos; lra).
      lra. }
    pose proof (min_one_between _ H0). lra.
  - destruct (Qgtb (current_price market) (middle + width)) eqn:Ehigh.
    + apply Qltb_lt in Ehigh. rewrite div_ok by lra. cbn [bind].
      do 2 eexists. split; [reflexivity |].
      assert (0 < (current_price market - (middle + width))
                  / (middle + width) * 2)%Q.
      { assert (0 < (current_price market - (middle + width))
                    / (middle + width))%Q by (apply Qdiv_pos; lra).
        lra. }
      pose proof (min_one_between _ H0). lra.
    + exists score, reasons. split; [reflexivity | lra].
Qed.

(** The MACD step returns the tally it was given, for positive periods. *)
Lemma macd_confirmation_total (market : MarketSnapshot) (acc : tally) :
  0 < macd_fast cfg -> 0 < macd_slow cfg -> 0 < macd_signal cfg ->
  macd_confirmation cfg market acc = Ok acc.
Proof.
  intros Hf Hs Hg.
  destruct (macd_confirmation cfg market acc) as [acc'|e] eqn:E.
  - now rewrite (macd_confirmation_idle cfg market acc acc' E).
  - exfalso. unfold macd_confirmation in E. destruct acc as [sc rs].
    destruct (macd_never_raises (prices market) (macd_fast cfg)
                (macd_slow cfg) (macd_signal cfg) Hf Hs Hg) as [res Hres].
    rewrite Hres in E. cbn [bind] in E.
    destruct res as [[[m s] h]|]; [| discriminate].
    destruct (_ && _); [discriminate |].
    destruct (_ && _); discriminate.
Qed.

(** The scorer returns, with a score of magnitude at most 0.7. *)
Lemma scorer_bound (market : MarketSnapshot) :
  sane_config cfg -> nonneg_sqrt -> positive_prices market ->
  exists score why,
    _high_conviction_signal cfg market = Ok (score, why)
    /\ (- 0.7 <= score <= 0.7)%Q.
Proof.
  intros (Hr & Hb & Hk & Hf & Hs & Hg) Hsqrt Hpos.
  unfold _high_conviction_signal.
  destruct (len (prices market) <? required_history cfg).
  { do 2 eexists. split; [reflexivity | lra]. }
  destruct (rsi_confirmation_bound market 0.0%Q [] Hr)
    as (s1 & r1 & -> & B1). cbn [bind].
  destruct (bollinger_confirmation_bound market s1 r1 Hb Hk Hsqrt Hpos)
    as (s2 & r2 & -> & B2). cbn [bind].
  rewrite (macd_confirmation_total market (s2, r2) Hf Hs Hg). cbn [bind].
  do 2 eexists. split; [reflexivity | lra].
Qed.


End ScoreBound.

Lemma default_config_is_sane : sane_config default_config.
Proof. unfold sane_config. repeat split; vm_compute; congruence. Qed.





(* ------------------------------------------------------------------ *)
(** * The shape of a [generate_signal] call *)

Ltac simple_test b :=
  lazymatch b with
  | context [if _ then _ else _] => fail
  | context [div _ _] => fail
  | _ => idtac
  end.

Ltac project_state :=
  cbn [fst snd _last_signal _entry_price _entry_time _trailing_high
       _trailing_low _consecutive_losses _peak_portfolio_value
       _price_history _win_loss_history _trade_count _last_trade_time
       _recent_performance_score set_peak_portfolio_value
       set_consecutive_losses set_trailing_high set_price_history
       enter_long exit_long].

Ltac case_tests :=
  repeat (project_state;
          match goal with
          | |- context [if ?b then _ else _] => simple_test b; destruct b
          | |- context [match div ?a ?b with _ => _ end] =>
              simple_test a; simple_test b; destruct (div a b)
          end);
  project_state.

Section CallShape.
Context `{FloatMath}.
Variable cfg : Config.

Lemma same_position_refl (st : State) : same_position st st.
Proof. unfold same_position. repeat split. Qed.

Lemma same_position_trans (a b c : State) :
  same_position a b -> same_position b c -> same_position a c.
Proof.
  unfold same_position.
  intros (A1 & A2 & A3 & A4 & A5 & A6 & A7 & A8)
         (B1 & B2 & B3 & B4 & B5 & B6 & B7 & B8).
  repeat split; congruence.
Qed.

(** The drawdown gate touches the peak and the loss counter only. *)
Lemma drawdown_same_position (st : State) (portfolio_value : Q) :
  same_position st (snd (_check_drawdown_limits cfg st portfolio_value))
  /\ _trailing_high (snd (_check_drawdown_limits cfg st portfolio_value))
     = _trailing_high st.
Proof.
  unfold _check_drawdown_limits, same_position.
  case_tests; repeat split.
Qed.

(** Once the peak has been raised to the portfolio value, as
    [generate_signal] does first, the gate cannot divide by zero. *)
Lemma drawdown_no_raise (st : State) (portfolio_value : Q) :
  Qgtb portfolio_value (_peak_portfolio_value st) = false ->
  exists verdict st2,
    _check_drawdown_limits cfg st portfolio_value = (Ok verdict, st2).
Proof.
  intros Hpeak. unfold _check_drawdown_limits.
  destruct (Qeqb (_peak_portfolio_value st) 0) eqn:Hz; [eauto |].
  rewrite Hpeak. unfold div. rewrite Hz.
  case_tests; eauto.
Qed.

(** The override block touches the trailing high only. *)
Lemma risk_overrides_same_position
  (st : State) (now : datetime) (current_price : Q)
  (final_signal why : string) :
  let st3 := snd (risk_overrides cfg st now current_price
                                 final_signal why) in
  same_position st st3
  /\ _peak_portfolio_value st3 = _peak_portfolio_value st
  /\ _consecutive_losses st3 = _consecutive_losses st.
Proof.
  unfold risk_overrides.
  destruct (last_signal_is st "buy");
    [| unfold same_position; repeat split].
  destruct (_entry_price st) as [e|] eqn:He;
    [| unfold same_position; repeat split].
  destruct (div _ e); [| unfold same_position; repeat split].
  cbv zeta. set (u := update_trailing_high st current_price).
  assert (Ku : same_position st u
               /\ _peak_portfolio_value u = _peak_portfolio_value st
               /\ _consecutive_losses u = _consecutive_losses st).
  { subst u. unfold update_trailing_high, same_position.
    destruct (_trailing_high st); [destruct (Qgtb _ _) |]; repeat split. }
  destruct (_trailing_high u);
    repeat match goal with
           | |- context [if ?b then _ else _] => destruct b
           end; exact Ku.
Qed.

(** What position management hands on. *)
Lemma position_management_cases
  (st : State) (score : Q) (conviction_reason f r : string) :
  position_management st score conviction_reason = (f, r) ->
  (f = "hold"
   \/ (f = "buy" /\ last_signal_is st "buy" = false)
   \/ (f = "sell" /\ last_signal_is st "buy" = true)).
Proof.
  unfold position_management.
  destruct (Qgtb score 0); cbn [String.eqb Ascii.eqb Bool.eqb andb];
    destruct (last_signal_is st "buy"); cbn [andb negb];
    intros [= <- <-]; auto.
Qed.

(** The four ways "Execute final decision" can end. *)
Lemma execute_decision_cases
  (st : State) (market : MarketSnapshot) (portfolio : Portfolio)
  (now : datetime) (portfolio_value score : Q) (f why : string)
  (r : result Signal) (st' : State) :
  execute_decision cfg st market portfolio now portfolio_value score f why
  = (r, st') ->
  (r = Raise ZeroDivisionError /\ st' = st /\ f = "buy"
   /\ (current_price market == 0)%Q)
  \/ (exists other, r = Ok (hold other) /\ st' = st)
  \/ (f = "buy"
      /\ r = Ok (mk_signal "buy"
                   (Some (cash portfolio
                          * _calculate_optimal_position_size
                              cfg st market portfolio_value score
                          / current_price market)%Q) why)
      /\ st' = enter_long st now (current_price market)
      /\ ~ (current_price market == 0)%Q
      /\ (0 < cash portfolio
              * _calculate_optimal_position_size
                  cfg st market portfolio_value score)%Q
      /\ (0 < cash portfolio
              * _calculate_optimal_position_size
                  cfg st market portfolio_value score
              / current_price market)%Q)
  \/ (f = "sell"
      /\ r = Ok (mk_signal "sell" (Some (quantity portfolio)) why)
      /\ st' = exit_long st now
                 (contains "STOP_LOSS" why || contains "TRAILING_STOP" why)
      /\ (0 < quantity portfolio)%Q).
Proof.
  unfold execute_decision.
  destruct (String.eqb_spec f "buy") as [-> | Hnb].
  - destruct (Qleb _ 0) eqn:Hn;
      [intros [= <- <-]; right; left; eauto |].
    unfold div. destruct (Qeqb (current_price market) 0) eqn:Hz.
    + intros [= <- <-]. left. repeat split. now apply Qeqb_eq.
    + destruct (Qleb (_ / _) 0) eqn:Hs;
        [intros [= <- <-]; right; left; eauto |].
      intros [= <- <-]. right; right; left.
      repeat split.
      * now apply Qeqb_neq.
      * apply Qnot_le_lt. intros Hle. apply Qleb_le in Hle. congruence.
      * apply Qnot_le_lt. intros Hle. apply Qleb_le in Hle. congruence.
  - destruct (String.eqb_spec f "sell") as [-> | Hns].
    + destruct (Qleb _ 0) eqn:Hq;
        [intros [= <- <-]; right; left; eauto |].
      intros [= <- <-]. right; right; right. repeat split.
      apply Qnot_le_lt. intros Hle. apply Qleb_le in Hle. congruence.
    + intros [= <- <-]. right; left. eauto.
Qed.

(** Every call is quiet or reaches the execution block. *)
Lemma generate_signal_inversion
  (st : State) (market : MarketSnapshot) (portfolio : Portfolio)
  (now : datetime) (r : result Signal) (st' : State) (branch : exit_branch) :
  generate_signal_traced cfg st market portfolio now = (r, st', branch) ->
  quiet_outcome cfg st market r st' branch
  \/ executed_outcome cfg st market portfolio now r st' branch.
Proof.
  unfold generate_signal_traced. cbv zeta.
  match goal with
  | |- context [set_price_history st ?h] => set (h1 := h)
  end.
  fold (portfolio_value_of market portfolio).
  set (pv := portfolio_value_of market portfolio).
  destruct (Z.ltb_spec (len (prices market)) (required_history cfg))
    as [Hshort | Hlong].
  { intros [= <- <- <-]. left. unfold quiet_outcome.
    repeat split. left. eauto. }
  match goal with
  | |- context [_check_trade_limits cfg ?s now] => set (st1 := s)
  end.
  assert (K1 : same_position st st1 /\ _trailing_high st1 = _trailing_high st
               /\ _consecutive_losses st1 = _consecutive_losses st
               /\ _peak_portfolio_value st1
                  = (if Qgtb pv (_peak_portfolio_value st)
                     then pv else _peak_portfolio_value st)
               /\ Qgtb pv (_peak_portfolio_value st1) = false).
  { subst st1. project_state.
    destruct (Qgtb pv (_peak_portfolio_value st)) eqn:E; project_state;
      unfold same_position; repeat split; try assumption.
    apply Qltb_ge, Qle_refl. }
  destruct K1 as (P1 & T1 & C1 & Pk1 & G1).
  assert (L1 : _check_trade_limits cfg st1 now
               = _check_trade_limits cfg st now).
  { unfold _check_trade_limits.
    destruct P1 as (_ & _ & _ & _ & <- & <- & _). reflexivity. }
  rewrite L1.
  destruct (_check_trade_limits cfg st now) as [[|] lim] eqn:Hlim;
    simpl negb; cbv iota.
  2:{ intros [= <- <- <-]. left. unfold quiet_outcome.
      repeat split; try apply P1; try assumption. left. eauto. }
  destruct (drawdown_no_raise st1 pv G1) as (verdict & st2 & Hdd).
  pose proof (drawdown_same_position st1 pv) as [P2 T2].
  rewrite Hdd in *. cbn [snd] in P2, T2.
  assert (P02 : same_position st st2)
    by (eapply same_position_trans; eassumption).
  assert (T02 : _trailing_high st2 = _trailing_high st) by congruence.
  destruct verdict.
  2:{ intros [= <- <- <-]. left. unfold quiet_outcome.
      repeat split; try apply P02; try assumption. left. eauto. }
  destruct (_high_conviction_signal cfg market) as [[score cr]|e] eqn:Hsc.
  2:{ intros [= <- <- <-]. left. unfold quiet_outcome.
      repeat split; try apply P02; try assumption. right. eauto. }
  destruct (Qltb (Qabs score) (conviction_threshold cfg)) eqn:Hthr.
  { intros [= <- <- <-]. left. unfold quiet_outcome.
    repeat split; try apply P02; try assumption. left. eauto. }
  destruct (position_management st2 score cr) as [f0 r0] eqn:Hpm.
  pose proof (risk_overrides_shape cfg st2 now (current_price market) f0 r0)
    as Hro.
  destruct (risk_overrides cfg st2 now (current_price market) f0 r0)
    as [[[[f1 r1] br]|e] st3] eqn:Heq.
  2:{ intros [= <- <- <-]. left.
      destruct Hro as (-> & -> & _ & entry & He & Hz).
      unfold quiet_outcome.
      repeat split; try apply P02; try assumption. right.
      exists ZeroDivisionError. split; [reflexivity | right].
      exists entry, score, cr. repeat split; try assumption.
      destruct P02 as (_ & E & _). congruence. }
  destruct (execute_decision cfg st3 market portfolio now pv score f1 r1)
    as [r4 st4] eqn:Hex.
  intros [= <- <- <-]. right. unfold executed_outcome.
  split; [exact Hlong |]. split; [eauto |].
  exists st1, st2, score, cr, f0, r0, f1, r1, st3.
  repeat split; try apply P1; try apply P02; assumption.
Qed.

End CallShape.

(* ------------------------------------------------------------------ *)
(** * What a decision guarantees *)

Section DecisionGuarantees.
Context `{FloatMath}.
Variable cfg : Config.

Lemma traced_of_generate_signal
  (st : State) (market : MarketSnapshot) (portfolio : Portfolio)
  (now : datetime) (r : result Signal) (st' : State) :
  generate_signal cfg st market portfolio now = (r, st') ->
  exists branch,
    generate_signal_traced cfg st market portfolio now = (r, st', branch).
Proof.
  unfold generate_signal.
  destruct (generate_signal_traced cfg st market portfolio now)
    as [[r0 s0] b0]. cbn [fst]. intros [= -> ->]. eauto.
Qed.




(** X8. What a buy and a sell guarantee.  A buy is only issued when the
    position is not long and cash is positive; its size is positive and
    spends cash times a fraction that is at least 0.05 (and at most
    [max_position_pct] when that is at least 0.05); it opens the position
    at the current price.  A sell is only issued from a long position with
    a positive held quantity; it sells the whole quantity and clears the
    position.  Every decision is a buy, a sell or a hold. *)
Theorem trade_decisions_are_sound
  (st : State) (market : MarketSnapshot) (portfolio : Portfolio)
  (now : datetime) (sig : Signal) (st' : State) :
  generate_signal cfg st market portfolio now = (Ok sig, st') ->
  (action sig = "buy" ->
   _last_signal st <> Some "buy" /\ (0 < cash portfolio)%Q
   /\ (exists size_ fraction,
          size sig = Some size_ /\ (0 < size_)%Q
          /\ (size_ * current_price market == cash portfolio * fraction)%Q
          /\ (0.05 <= fraction)%Q
          /\ ((0.05 <= max_position_pct cfg)%Q ->
              (fraction <= max_position_pct cfg)%Q))
   /\ _last_signal st' = Some "buy"
   /\ _entry_price st' = Some (current_price market)
   /\ _entry_time st' = Some now
   /\ _trailing_high st' = Some (current_price market)
   /\ _trailing_low st' = Some (current_price market))
  /\ (action sig = "sell" ->
      _last_signal st = Some "buy" /\ (0 < quantity portfolio)%Q
      /\ size sig = Some (quantity portfolio)
      /\ _last_signal st' <> Some "buy"
      /\ _entry_price st' = None /\ _entry_time st' = None
      /\ _trailing_high st' = None /\ _trailing_low st' = None)
  /\ (action sig = "buy" \/ action sig = "sell" \/ action sig = "hold").
Proof.
  intros Hgs.
  destruct (traced_of_generate_signal st market portfolio now _ st' Hgs)
    as [br Htr].
  destruct (generate_signal_inversion cfg st market portfolio now _ st' br
              Htr) as [Hq | Hx].
  { destruct Hq as (_ & _ & _ & [[why [= ->]] | (e & [=] & _)]).
    cbn [action hold]. repeat split; try discriminate. auto. }
  destruct Hx as (_ & _ & s1 & s2 & sc & c & f0 & r0 & f1 & r1 & s3
                  & _ & _ & _ & _ & _ & P02 & _ & _ & _ & Hpm & Hro & Hex).
  pose proof (position_management_cases s2 sc c f0 r0 Hpm) as Hcases.
  pose proof (risk_overrides_shape cfg s2 now (current_price market) f0 r0)
    as Hshape.
  rewrite Hro in Hshape.
  assert (Hsame : _last_signal st = _last_signal s2) by apply P02.
  assert (Hf1 : (f1 = "buy" -> last_signal_is s2 "buy" = false)
                /\ (f1 = "sell" -> last_signal_is s2 "buy" = true)).
  { destruct Hshape as [(_ & -> & _ & _ & _)
                       | ((Hl & _) & _ & th & _ & Hcase)].
    - split; intros ->;
        destruct Hcases as [E | [[E K] | [E K]]];
        try discriminate E; exact K.
    - split; [| intros _; exact Hl].
      intros Ef.
      destruct Hcase as [(_ & E & _) | (_ & E & _)]; [congruence |].
      destruct Hcases as [E1 | [[E1 K] | [E1 K]]]; congruence. }
  destruct Hf1 as [Hbuy Hsell].
  destruct (execute_decision_cases cfg s3 market portfolio now _ sc f1 r1
              _ st' Hex)
    as [([=] & _) | [(o & [= ->] & _)
                    | [(Ef & [= ->] & -> & Hcp & Hnot & Hsize)
                      | (Ef & [= ->] & -> & Hq)]]];
    cbn [action size hold].
  - repeat split; try discriminate. auto.
  - split; [| split; [discriminate | auto]].
    intros _.
    set (fraction := _calculate_optimal_position_size cfg s3 market
                       (portfolio_value_of market portfolio) sc) in *.
    assert (Hfloor : (0.05 <= fraction)%Q) by apply max_lower.
    split.
    { rewrite Hsame. intros E. apply last_signal_is_buy in E.
      rewrite (Hbuy Ef) in E. discriminate. }
    split.
    { destruct (Qlt_le_dec 0 (cash portfolio)) as [Hc | Hc];
        [exact Hc | exfalso; nra]. }
    split.
    { exists (cash portfolio * fraction / current_price market)%Q, fraction.
      repeat split; try assumption.
      - field. exact Hcp.
      - intros Hcap. apply max_min_upper, Hcap. }
    repeat split.
  - split; [discriminate | split; [| auto]].
    intros _. split.
    { rewrite Hsame. apply last_signal_is_buy, Hsell, Ef. }
    repeat split; try assumption.
    cbn [exit_long _last_signal]. destruct (_ || _); discriminate.
Qed.

(** A passed trade-limit check, read backwards. *)
Lemma check_trade_limits_passed (st : State) (now : datetime) (lim : string) :
  _check_trade_limits cfg st now = (true, lim) ->
  _trade_count st < max_trades cfg
  /\ forall last,
       _last_trade_time st = Some last ->
       Datetime.hours (min_time_between_trades cfg) <= Datetime.sub now last.
Proof.
  unfold _check_trade_limits.
  destruct (Z.leb_spec (max_trades cfg) (_trade_count st));
    [discriminate |].
  destruct (_last_trade_time st) as [t|].
  - destruct (Z.ltb_spec (Datetime.sub now t)
                         (Datetime.hours (min_time_between_trades cfg)));
      [discriminate |].
    intros _. split; [assumption |]. now intros last [= <-].
  - intros _. split; [assumption | discriminate].
Qed.

(** A passed drawdown gate, read backwards. *)
Lemma drawdown_passed (st st2 : State) (portfolio_value : Q) :
  Qgtb portfolio_value (_peak_portfolio_value st) = false ->
  _check_drawdown_limits cfg st portfolio_value = (Ok true, st2) ->
  (_peak_portfolio_value st == 0)%Q
  \/ (_consecutive_losses st2 < consecutive_loss_limit cfg
      /\ ((_peak_portfolio_value st - portfolio_value)
          / _peak_portfolio_value st <= max_drawdown_pct cfg)%Q).
Proof.
  intros Hpeak. unfold _check_drawdown_limits.
  destruct (Qeqb (_peak_portfolio_value st) 0) eqn:Hz;
    [intros _; left; now apply Qeqb_eq |].
  rewrite Hpeak. unfold div. rewrite Hz.
  match goal with
  | |- context [consecutive_loss_limit cfg <=? _consecutive_losses ?s] =>
      set (s2 := s)
  end.
  destruct (Z.leb_spec (consecutive_loss_limit cfg)
                       (_consecutive_losses s2)); [discriminate |].
  destruct (Qgtb _ (max_drawdown_pct cfg)) eqn:Hd; [discriminate |].
  intros [= <-]. right. split; [assumption | now apply Qltb_ge].
Qed.

(** X9. A buy or a sell is only issued with a sufficient price history,
    below [max_trades], at least [min_time_between_trades] hours after the
    previous trade and for a conviction at or above the threshold; it
    increments [trade_count] and stamps [last_trade_time] with the clock
    reading.  A hold changes neither the position nor the trade counter,
    the trade stamp or the outcome history. *)
Theorem trades_respect_the_limits_and_holds_keep_the_position
  (st : State) (market : MarketSnapshot) (portfolio : Portfolio)
  (now : datetime) (sig : Signal) (st' : State) :
  generate_signal cfg st market portfolio now = (Ok sig, st') ->
  (action sig <> "hold" ->
   Z.max (Z.max (rsi_period cfg) (bb_period cfg)) (macd_slow cfg)
     <= len (prices market)
   /\ _trade_count st < max_trades cfg
   /\ (forall last,
          _last_trade_time st = Some last ->
          Datetime.hours (min_time_between_trades cfg)
            <= Datetime.sub now last)
   /\ (exists score why,
          _high_conviction_signal cfg market = Ok (score, why)
          /\ (conviction_threshold cfg <= Qabs score)%Q)
   /\ _trade_count st' = _trade_count st + 1
   /\ _last_trade_time st' = Some now)
  /\ (action sig = "hold" ->
      _last_signal st' = _last_signal st
      /\ _entry_price st' = _entry_price st
      /\ _entry_time st' = _entry_time st
      /\ _trade_count st' = _trade_count st
      /\ _last_trade_time st' = _last_trade_time st
      /\ _win_loss_history st' = _win_loss_history st).
Proof.
  intros Hgs.
  destruct (traced_of_generate_signal st market portfolio now _ st' Hgs)
    as [br Htr].
  destruct (generate_signal_inversion cfg st market portfolio now _ st' br
              Htr) as [Hq | Hx].
  { destruct Hq as (_ & Hsame & _ & [[why [= ->]] | (e & [=] & _)]).
    split; [intros Hne; now contradiction Hne |].
    intros _. destruct Hsame as (A & B & C & _ & D & E & F & _).
    repeat split; congruence. }
  destruct Hx as (Hlen & [lim Hlim] & s1 & s2 & sc & c & f0 & r0 & f1 & r1
                  & s3 & _ & _ & _ & _ & _ & P02 & _ & Hsc & Hthr & _ & Hro
                  & Hex).
  pose proof (risk_overrides_same_position cfg s2 now (current_price market)
                f0 r0) as [P23 _].
  rewrite Hro in P23. cbn [snd] in P23.
  pose proof (same_position_trans st s2 s3 P02 P23)
    as (A & B & C & _ & D & E & F & _).
  destruct (check_trade_limits_passed st now lim Hlim) as [Hcount Hcool].
  destruct (execute_decision_cases cfg s3 market portfolio now _ sc f1 r1
              _ st' Hex)
    as [([=] & _) | [(o & [= ->] & ->)
                    | [(_ & [= ->] & -> & _) | (_ & [= ->] & -> & _)]]];
    cbn [action hold].
  - split; [intros Hne; now contradiction Hne |].
    intros _. repeat split; congruence.
  - split; [| discriminate]. intros _.
    repeat split; try assumption.
    + exists sc, c. split; [exact Hsc | now apply Qltb_ge].
    + cbn [enter_long _trade_count]. congruence.
  - split; [| discriminate]. intros _.
    repeat split; try assumption.
    + exists sc, c. split; [exact Hsc | now apply Qltb_ge].
    + cbn [exit_long _trade_count]. congruence.
Qed.

(** X10. No buy or sell is issued while the drawdown gate is closed: with
    [peak] the larger of the stored peak and the current portfolio value,
    either [peak] is zero (the first valuation), or the drawdown
    [(peak - value) / peak] is at most [max_drawdown_pct] and the loss
    counter the call leaves behind is below [consecutive_loss_limit]. *)
Theorem trades_only_within_the_drawdown_limits
  (st : State) (market : MarketSnapshot) (portfolio : Portfolio)
  (now : datetime) (sig : Signal) (st' : State) :
  generate_signal cfg st market portfolio now = (Ok sig, st') ->
  action sig <> "hold" ->
  let value := portfolio_value_of market portfolio in
  let peak :=
    if Qgtb value (_peak_portfolio_value st)
    then value else _peak_portfolio_value st in
  (peak == 0)%Q
  \/ (((peak - value) / peak <= max_drawdown_pct cfg)%Q
      /\ _consecutive_losses st' < consecutive_loss_limit cfg).
Proof.
  intros Hgs Hne value peak.
  destruct (traced_of_generate_signal st market portfolio now _ st' Hgs)
    as [br Htr].
  destruct (generate_signal_inversion cfg st market portfolio now _ st' br
              Htr) as [Hq | Hx].
  { destruct Hq as (_ & _ & _ & [[why [= ->]] | (e & [=] & _)]).
    now contradiction Hne. }
  destruct Hx as (_ & _ & s1 & s2 & sc & c & f0 & r0 & f1 & r1 & s3
                  & _ & _ & _ & Hpk & Hdd & _ & _ & _ & _ & _ & Hro & Hex).
  fold value in Hpk, Hdd. fold peak in Hpk.
  assert (Hg : Qgtb value (_peak_portfolio_value s1) = false).
  { rewrite Hpk. subst peak.
    destruct (Qgtb value (_peak_portfolio_value st)) eqn:E;
      [apply Qltb_ge, Qle_refl | exact E]. }
  pose proof (risk_overrides_same_position cfg s2 now (current_price market)
                f0 r0) as (_ & _ & C23).
  rewrite Hro in C23. cbn [snd] in C23.
  destruct (drawdown_passed s1 s2 value Hg Hdd) as [Hz | [Hl Hd]];
    rewrite Hpk in *; [now left | right].
  split; [exact Hd |].
  destruct (execute_decision_cases cfg s3 market portfolio now _ sc f1 r1
              _ st' Hex)
    as [([=] & _) | [(o & [= ->] & ->)
                    | [(_ & _ & -> & _) | (_ & _ & -> & _)]]].
  - now contradiction Hne.
  - cbn [enter_long _consecutive_losses]. congruence.
  - cbn [exit_long _consecutive_losses]. congruence.
Qed.

(** X11. Whatever the conviction scorer returns below the threshold, the
    exit overrides do not run: the call is a hold that leaves the position
    and the trailing high untouched, also for a long position whose price
    has fallen below its trailing stop. *)
Theorem low_conviction_skips_the_exit_overrides
  (st : State) (market : MarketSnapshot) (portfolio : Portfolio)
  (now : datetime) (score : Q) (conviction_reason : string) :
  _high_conviction_signal cfg market = Ok (score, conviction_reason) ->
  (Qabs score < conviction_threshold cfg)%Q ->
  exists why st',
    generate_signal_traced cfg st market portfolio now
    = (Ok (mk_signal "hold" None why), st', NotEvaluated)
    /\ _last_signal st' = _last_signal st
    /\ _entry_price st' = _entry_price st
    /\ _trailing_high st' = _trailing_high st
    /\ _trade_count st' = _trade_count st.
Proof.
  intros Hsc Hlow. apply Qltb_lt in Hlow.
  destruct (generate_signal_traced cfg st market portfolio now)
    as [[r st'] br] eqn:Htr.
  destruct (generate_signal_inversion cfg st market portfolio now r st' br
              Htr) as [Hq | Hx].
  - destruct Hq as (-> & Hpos' & Hth & [[why ->] | (e & -> & Hcause)]).
    + exists why, st'. destruct Hpos' as (A & B & _ & _ & C & _).
      repeat split; congruence.
    + exfalso. destruct Hcause as [E | (en & s2 & c2 & _ & _ & E & Hf)];
        congruence.
  - exfalso. destruct Hx as (_ & _ & s1 & s2 & sc & c & f0 & r0 & f1 & r1
                              & s3 & _ & _ & _ & _ & _ & _ & _ & E & Hf & _).
    congruence.
Qed.

End DecisionGuarantees.

(* ------------------------------------------------------------------ *)
(** * The guarantees on the scenarios *)

Lemma falling_prices_are_positive :
  positive_prices (snapshot_of falling_to_42000 seven_pm).
Proof.
  split.
  - unfold falling_to_42000. simpl.
    repeat (constructor; [reflexivity |]). constructor.
  - reflexivity.
Qed.




Lemma trade_decisions_are_sound_witness :
  exists sig,
    @generate_signal decimal_math eager_config init_state
      (snapshot_of falling_to_45000 noon) flat_portfolio noon
    = (Ok sig, bought_at_45000)
    /\ action sig = "buy"
    /\ _last_signal init_state <> Some "buy"
    /\ (0 < cash flat_portfolio)%Q.
Proof.
  destruct buy_at_45000 as (size_ & Hbuy & _).
  eexists. split; [exact Hbuy |]. split; [reflexivity |].
  destruct (@trade_decisions_are_sound decimal_math eager_config init_state
              (snapshot_of falling_to_45000 noon) flat_portfolio noon _ _
              Hbuy) as (Hb & _ & _).
  destruct (Hb eq_refl) as (Hflat & Hcash & _).
  split; [exact Hflat | exact Hcash].
Defined.

Lemma trades_respect_the_limits_and_holds_keep_the_position_witness :
  exists sig,
    @generate_signal decimal_math eager_config init_state
      (snapshot_of falling_to_45000 noon) flat_portfolio noon
    = (Ok sig, bought_at_45000)
    /\ action sig <> "hold"
    /\ _trade_count init_state < max_trades eager_config
    /\ _trade_count bought_at_45000 = _trade_count init_state + 1.
Proof.
  destruct buy_at_45000 as (size_ & Hbuy & _).
  eexists. split; [exact Hbuy |]. split; [discriminate |].
  destruct (@trades_respect_the_limits_and_holds_keep_the_position
              decimal_math eager_config init_state
              (snapshot_of falling_to_45000 noon) flat_portfolio noon _ _
              Hbuy) as (Ht & _).
  destruct Ht as (_ & Hcount & _ & _ & Hinc & _); [discriminate |].
  split; [exact Hcount | exact Hinc].
Defined.

Lemma trades_only_within_the_drawdown_limits_witness :
  exists sig,
    @generate_signal decimal_math eager_config init_state
      (snapshot_of falling_to_45000 noon) flat_portfolio noon
    = (Ok sig, bought_at_45000)
    /\ action sig <> "hold"
    /\ let value :=
         portfolio_value_of (snapshot_of falling_to_45000 noon)
                            flat_portfolio in
       let peak :=
         if Qgtb value (_peak_portfolio_value init_state)
         then value else _peak_portfolio_value init_state in
       (peak == 0)%Q
       \/ (((peak - value) / peak <= max_drawdown_pct eager_config)%Q
           /\ _consecutive_losses bought_at_45000
              < consecutive_loss_limit eager_config).
Proof.
  destruct buy_at_45000 as (size_ & Hbuy & _).
  eexists. split; [exact Hbuy |].
  assert (Hne : action (mk_signal "buy" (Some size_)
                          "CONVICTION:rsi_oversold:0.00|SCORE:0.400")
                <> "hold") by discriminate.
  split; [exact Hne |].
  exact (@trades_only_within_the_drawdown_limits decimal_math eager_config
           init_state (snapshot_of falling_to_45000 noon) flat_portfolio
           noon _ _ Hbuy Hne).
Defined.

Lemma low_conviction_skips_the_exit_overrides_witness :
  exists score conviction_reason,
    @_high_conviction_signal decimal_math default_config
      (snapshot_of falling_to_42000 seven_pm)
    = Ok (score, conviction_reason)
    /\ (Qabs score < conviction_threshold default_config)%Q
    /\ exists why st',
         @generate_signal_traced decimal_math default_config
           bought_at_45000 (snapshot_of falling_to_42000 seven_pm)
           long_portfolio seven_pm
         = (Ok (mk_signal "hold" None why), st', NotEvaluated)
         /\ _trailing_high st' = _trailing_high bought_at_45000.
Proof.
  destruct (@scorer_bound decimal_math default_config
              (snapshot_of falling_to_42000 seven_pm)
              default_config_is_sane sqrt_approx_nonneg
              falling_prices_are_positive) as (score & cr & Hsc & Hb).
  assert (Hlow : (Qabs score < conviction_threshold default_config)%Q).
  { apply Qle_lt_trans with (y := 0.7%Q);
      [apply Qabs_Qle_condition; exact Hb | reflexivity]. }
  exists score, cr. split; [exact Hsc | split; [exact Hlow |]].
  destruct (@low_conviction_skips_the_exit_overrides decimal_math
              default_config bought_at_45000
              (snapshot_of falling_to_42000 seven_pm) long_portfolio
              seven_pm score cr Hsc Hlow)
    as (why & st' & Htr & _ & _ & Hth & _).
  exists why, st'. split; [exact Htr | exact Hth].
Defined.

(* ------------------------------------------------------------------ *)
(** * What a call does to the state *)

Section StateFacts.
Context `{FloatMath}.
Variable cfg : Config.

(** The peak and the loss counter after a call are those before it (short
    history), those after the peak update (trade limit), or those the
    drawdown gate leaves. *)
Lemma generate_signal_gate_state
  (st : State) (market : MarketSnapshot) (portfolio : Portfolio)
  (now : datetime) :
  let st' := snd (generate_signal cfg st market portfolio now) in
  let value := portfolio_value_of market portfolio in
  (len (prices market) < required_history cfg
   /\ _peak_portfolio_value st' = _peak_portfolio_value st
   /\ _consecutive_losses st' = _consecutive_losses st)
  \/ (required_history cfg <= len (prices market)
      /\ exists st1,
           same_position st st1
           /\ _consecutive_losses st1 = _consecutive_losses st
           /\ _peak_portfolio_value st1
              = (if Qgtb value (_peak_portfolio_value st)
                 then value else _peak_portfolio_value st)
           /\ ((_peak_portfolio_value st' = _peak_portfolio_value st1
                /\ _consecutive_losses st' = _consecutive_losses st1)
               \/ (_peak_portfolio_value st'
                   = _peak_portfolio_value
                       (snd (_check_drawdown_limits cfg st1 value))
                   /\ _consecutive_losses st'
                      = _consecutive_losses
                          (snd (_check_drawdown_limits cfg st1 value))))).
Proof.
  cbv zeta.
  destruct (generate_signal cfg st market portfolio now) as [r st'] eqn:Hgs.
  cbn [snd]. revert Hgs.
  unfold generate_signal, generate_signal_traced. cbv zeta.
  match goal with
  | |- context [set_price_history st ?h] => set (h1 := h)
  end.
  fold (portfolio_value_of market portfolio).
  set (pv := portfolio_value_of market portfolio).
  destruct (Z.ltb_spec (len (prices market)) (required_history cfg))
    as [Hshort | Hlong].
  { cbn [fst]. intros [= <- <-]. left. repeat split. assumption. }
  match goal with
  | |- context [_check_trade_limits cfg ?s now] => set (st1 := s)
  end.
  intros Hgs. right. split; [exact Hlong |].
  exists st1.
  assert (K1 : same_position st st1
               /\ _consecutive_losses st1 = _consecutive_losses st
               /\ _peak_portfolio_value st1
                  = (if Qgtb pv (_peak_portfolio_value st)
                     then pv else _peak_portfolio_value st)).
  { subst st1. project_state.
    destruct (Qgtb pv (_peak_portfolio_value st)) eqn:E; project_state;
      unfold same_position; repeat split. }
  destruct K1 as (P1 & C1 & Pk1).
  split; [exact P1 | split; [exact C1 | split; [exact Pk1 |]]].
  revert Hgs.
  destruct (_check_trade_limits cfg st1 now) as [[|] lim];
    simpl negb; cbv iota; cbn [fst];
    [| intros [= <- <-]; left; split; reflexivity].
  destruct (_check_drawdown_limits cfg st1 pv) as [[[|]|e] st2];
    cbn [snd fst];
    try (intros [= <- <-]; right; split; reflexivity).
  destruct (_high_conviction_signal cfg market) as [[score cr]|];
    cbn [fst]; [| intros [= <- <-]; right; split; reflexivity].
  destruct (Qltb (Qabs score) (conviction_threshold cfg));
    cbn [fst]; [intros [= <- <-]; right; split; reflexivity |].
  destruct (position_management st2 score cr) as [f0 r0].
  pose proof (risk_overrides_same_position cfg st2 now (current_price market)
                f0 r0) as (_ & Pk3 & C3).
  destruct (risk_overrides cfg st2 now (current_price market) f0 r0)
    as [[[[f1 r1] br]|e] st3]; cbn [snd fst] in *;
    [| intros [= <- <-]; right; split; assumption].
  destruct (execute_decision cfg st3 market portfolio now pv score f1 r1)
    as [r4 st4] eqn:Hex.
  cbn [fst]. intros [= <- <-]. right.
  destruct (execute_decision_cases cfg st3 market portfolio now pv score
              f1 r1 r4 st4 Hex)
    as [(_ & -> & _) | [(o & _ & ->)
                       | [(_ & _ & -> & _) | (_ & _ & -> & _)]]];
    project_state; split; assumption.
Qed.

(** What the drawdown gate does to the peak and the loss counter once
    the peak has been raised to the portfolio value. *)
Lemma drawdown_peak_and_losses (st : State) (portfolio_value : Q) :
  Qgtb portfolio_value (_peak_portfolio_value st) = false ->
  let st2 := snd (_check_drawdown_limits cfg st portfolio_value) in
  (_peak_portfolio_value st2 = _peak_portfolio_value st
   \/ ((_peak_portfolio_value st == 0)%Q
       /\ _peak_portfolio_value st2 = portfolio_value))
  /\ (_consecutive_losses st2 = _consecutive_losses st
      \/ _consecutive_losses st2 = 0
      \/ (_consecutive_losses st2 = _consecutive_losses st + 1
          /\ last_signal_is st "sell" = true
          /\ truthy_and (_entry_price st) (Qltb portfolio_value) = true)).
Proof.
  intros Hpeak. cbv zeta. unfold _check_drawdown_limits.
  destruct (Qeqb (_peak_portfolio_value st) 0) eqn:Hz.
  { cbn [snd]. project_state. split; [right | left; reflexivity].
    split; [now apply Qeqb_eq | reflexivity]. }
  rewrite Hpeak. unfold div. rewrite Hz.
  destruct (last_signal_is st "sell"
            && truthy_and (_entry_price st) (Qltb portfolio_value)) eqn:E1.
  - apply andb_true_iff in E1. destruct E1 as [E1 E2].
    case_tests; (split; [left; reflexivity |]); right; right; auto.
  - destruct (last_signal_is st "buy"
              && truthy_and (_entry_price st) (Qgtb portfolio_value));
      case_tests; (split; [left; reflexivity |]); auto.
Qed.

(** X12. After every [generate_signal] call the retained price history
    ends with the current price and holds at most 200 prices; below the
    cap the price is simply appended. *)
Theorem price_history_is_appended_and_capped
  (st : State) (market : MarketSnapshot) (portfolio : Portfolio)
  (now : datetime) :
  let st' := snd (generate_signal cfg st market portfolio now) in
  len (_price_history st') <= 200
  /\ (exists older,
         _price_history st' = (older ++ [current_price market])%list)
  /\ (len (_price_history st) < 200 ->
      _price_history st'
      = (_price_history st ++ [current_price market])%list)
  /\ (200 <= len (_price_history st) ->
      len (_price_history st') = 200).
Proof.
  cbv zeta.
  destruct (generate_signal_histories cfg st market portfolio now)
    as [_ ->].
  cbv zeta. unfold append.
  set (h := (_price_history st ++ [current_price market])%list).
  assert (Hlen : len h = len (_price_history st) + 1).
  { subst h. rewrite len_app. reflexivity. }
  destruct (Z.ltb_spec 200 (len h)) as [Hbig | Hsmall].
  - pose proof (len_slice_last h 200 ltac:(lia)) as Hs.
    cbn [Z.opp] in Hs.
    split; [lia |]. split; [| split; [lia | intros _; exact Hs]].
    unfold slice_from. cbn [Z.ltb Z.compare].
    subst h. rewrite skipn_app.
    replace (Z.to_nat _ - List.length (_price_history st))%nat with O.
    + eexists. reflexivity.
    + rewrite len_app in *. unfold len in *. cbn [List.length] in *. lia.
  - split; [lia |]. split; [eexists; reflexivity |].
    split; [reflexivity | lia].
Qed.

(** X13. For a non-negative portfolio value the stored peak never
    decreases over a [generate_signal] call, and after a call with a
    sufficient price history it is at least the current portfolio value.
    (A call with too short a history returns before the peak is
    updated.) *)
Theorem peak_portfolio_value_never_decreases
  (st : State) (market : MarketSnapshot) (portfolio : Portfolio)
  (now : datetime) :
  (0 <= portfolio_value_of market portfolio)%Q ->
  let st' := snd (generate_signal cfg st market portfolio now) in
  (_peak_portfolio_value st <= _peak_portfolio_value st')%Q
  /\ (Z.max (Z.max (rsi_period cfg) (bb_period cfg)) (macd_slow cfg)
        <= len (prices market) ->
      (portfolio_value_of market portfolio
         <= _peak_portfolio_value st')%Q)
  /\ (len (prices market)
        < Z.max (Z.max (rsi_period cfg) (bb_period cfg)) (macd_slow cfg) ->
      _peak_portfolio_value st' = _peak_portfolio_value st).
Proof.
  intros Hvalue. cbv zeta.
  pose proof (generate_signal_gate_state st market portfolio now) as Hg.
  cbv zeta in Hg. fold (required_history cfg).
  set (value := portfolio_value_of market portfolio) in *.
  destruct Hg as [(Hshort & -> & _)
                 | (Hlong & st1 & _ & _ & Hpk & Hcase)].
  { split; [apply Qle_refl | split; [lia | reflexivity]]. }
  assert (Hmax : (_peak_portfolio_value st <= _peak_portfolio_value st1)%Q
                 /\ (value <= _peak_portfolio_value st1)%Q
                 /\ Qgtb value (_peak_portfolio_value st1) = false).
  { rewrite Hpk.
    destruct (Qgtb value (_peak_portfolio_value st)) eqn:E.
    - apply Qltb_lt in E. repeat split; try lra. apply Qltb_ge, Qle_refl.
    - pose proof E as E'. apply Qltb_ge in E'.
      repeat split; try lra. exact E. }
  destruct Hmax as (M1 & M2 & M3).
  assert (Hgoal : (_peak_portfolio_value st
                     <= _peak_portfolio_value
                          (snd (generate_signal cfg st market portfolio now)))%Q
                  /\ (value
                        <= _peak_portfolio_value
                             (snd (generate_signal cfg st market portfolio now)))%Q).
  { destruct Hcase as [[-> _] | [-> _]]; [split; assumption |].
    destruct (drawdown_peak_and_losses st1 value M3) as [[-> | [Hz ->]] _];
      [split; assumption |].
    split; lra. }
  destruct Hgoal as [G1 G2].
  split; [exact G1 | split; [intros _; exact G2 | lia]].
Qed.

End StateFacts.

Lemma peak_portfolio_value_never_decreases_witness :
  (0 <= portfolio_value_of (snapshot_of falling_to_42000 seven_pm)
                           long_portfolio)%Q
  /\ (_peak_portfolio_value bought_at_45000
        <= _peak_portfolio_value
             (snd (@generate_signal decimal_math eager_config
                     bought_at_45000
                     (snapshot_of falling_to_42000 seven_pm)
                     long_portfolio seven_pm)))%Q.
Proof.
  assert (Hv : (0 <= portfolio_value_of
                       (snapshot_of falling_to_42000 seven_pm)
                       long_portfolio)%Q) by (vm_compute; discriminate).
  split; [exact Hv |].
  exact (proj1 (@peak_portfolio_value_never_decreases decimal_math
                  eager_config bought_at_45000
                  (snapshot_of falling_to_42000 seven_pm) long_portfolio
                  seven_pm Hv)).
Defined.

(* ------------------------------------------------------------------ *)
(** * Invariants of the strategy state *)

Section Invariants.
Context `{FloatMath}.
Variable cfg : Config.

Lemma position_consistent_ext (a b : State) :
  same_position a b -> _trailing_high b = _trailing_high a ->
  position_consistent a -> position_consistent b.
Proof.
  unfold position_consistent.
  intros (L & E & T & TL & _) Hth Hpc.
  rewrite <- E, <- L, <- T, <- TL, Hth. exact Hpc.
Qed.

Lemma risk_overrides_consistent
  (st : State) (now : datetime) (current_price : Q)
  (final_signal why : string) :
  position_consistent st ->
  position_consistent
    (snd (risk_overrides cfg st now current_price final_signal why)).
Proof.
  intros Hpc. unfold risk_overrides.
  destruct (last_signal_is st "buy"); [| exact Hpc].
  destruct (_entry_price st) as [e|] eqn:He; [| exact Hpc].
  destruct (div _ e); [| exact Hpc].
  cbv zeta. set (u := update_trailing_high st current_price).
  assert (Ku : position_consistent u).
  { subst u. revert Hpc. unfold position_consistent, update_trailing_high.
    rewrite He. intros (L & Z & TL & T & th & Hth & Hle). rewrite Hth.
    destruct (Qgtb current_price th) eqn:E; project_state; rewrite He.
    - apply Qltb_lt in E.
      repeat split; try assumption. exists current_price.
      split; [reflexivity | lra].
    - repeat split; try assumption. exists th. split; assumption. }
  destruct (_trailing_high u);
    repeat match goal with
           | |- context [if ?b then _ else _] => destruct b
           end; exact Ku.
Qed.

Lemma execute_decision_consistent
  (st : State) (market : MarketSnapshot) (portfolio : Portfolio)
  (now : datetime) (portfolio_value score : Q) (f why : string)
  (r : result Signal) (st' : State) :
  execute_decision cfg st market portfolio now portfolio_value score f why
  = (r, st') ->
  position_consistent st -> position_consistent st'.
Proof.
  intros Hex Hpc.
  destruct (execute_decision_cases cfg st market portfolio now
              portfolio_value score f why r st' Hex)
    as [(_ & -> & _) | [(o & _ & ->)
                       | [(_ & _ & -> & Hz & _) | (_ & _ & -> & _)]]];
    try exact Hpc.
  - unfold position_consistent. project_state.
    repeat split; try discriminate; try assumption.
    exists (current_price market). split; [reflexivity | apply Qle_refl].
  - unfold position_consistent. project_state.
    repeat split.
    destruct (contains "STOP_LOSS" why || contains "TRAILING_STOP" why);
      discriminate.
Qed.

Lemma generate_signal_consistent
  (st : State) (market : MarketSnapshot) (portfolio : Portfolio)
  (now : datetime) :
  position_consistent st ->
  position_consistent (snd (generate_signal cfg st market portfolio now)).
Proof.
  intros Hpc.
  destruct (generate_signal cfg st market portfolio now) as [r st'] eqn:Hgs.
  cbn [snd].
  destruct (traced_of_generate_signal cfg st market portfolio now r st' Hgs)
    as [branch Htr].
  destruct (generate_signal_inversion cfg st market portfolio now r st'
              branch Htr)
    as [(_ & Hsame & Hth & _)
       | (_ & _ & st1 & st2 & score & cr & f0 & r0 & f1 & r1 & st3
          & _ & _ & _ & _ & _ & S2 & T2 & _ & _ & _ & Hro & Hex)].
  - exact (position_consistent_ext st st' Hsame Hth Hpc).
  - pose proof (position_consistent_ext st st2 S2 T2 Hpc) as Hpc2.
    pose proof (risk_overrides_consistent st2 now (current_price market)
                  f0 r0 Hpc2) as Hpc3.
    rewrite Hro in Hpc3. cbn [snd] in Hpc3.
    exact (execute_decision_consistent st3 market portfolio now _ score
             f1 r1 r st' Hex Hpc3).
Qed.

Lemma on_trade_same_position_fields
  (st : State) (signal : Signal) (execution_price execution_size : Q)
  (timestamp : datetime) :
  let st' := on_trade st signal execution_price execution_size timestamp in
  _last_signal st' = _last_signal st /\ _entry_price st' = _entry_price st
  /\ _entry_time st' = _entry_time st
  /\ _trailing_high st' = _trailing_high st
  /\ _trailing_low st' = _trailing_low st
  /\ _trade_count st' = _trade_count st
  /\ _last_trade_time st' = _last_trade_time st
  /\ _price_history st' = _price_history st
  /\ _peak_portfolio_value st' = _peak_portfolio_value st.
Proof.
  cbv zeta. unfold on_trade.
  destruct (String.eqb (action signal) "buy" && Qgtb execution_size 0);
    [repeat split |].
  destruct (String.eqb (action signal) "sell" && Qgtb execution_size 0);
    [| repeat split].
  destruct (_entry_price st) as [e|] eqn:He;
    [| repeat split; assumption].
  destruct (Qeqb e 0); [repeat split; assumption |].
  project_state. repeat split.
Qed.

Lemma on_trade_consistent
  (st : State) (signal : Signal) (execution_price execution_size : Q)
  (timestamp : datetime) :
  position_consistent st ->
  position_consistent
    (on_trade st signal execution_price execution_size timestamp).
Proof.
  pose proof (on_trade_same_position_fields st signal execution_price
                execution_size timestamp) as Hf.
  cbv zeta in Hf. destruct Hf as (L & E & T & Th & TL & _).
  unfold position_consistent. rewrite L, E, T, Th, TL. exact (fun x => x).
Qed.

Lemma drawdown_losses_nonneg (st : State) (portfolio_value : Q) :
  0 <= _consecutive_losses st ->
  0 <= _consecutive_losses
         (snd (_check_drawdown_limits cfg st portfolio_value)).
Proof.
  intros Hl. unfold _check_drawdown_limits. case_tests; lia.
Qed.

Lemma capped_history_length (history : list Q) (price : Q) :
  len (let h := append history price in
       if 200 <? len h then slice_from (-200) h else h) <= 200.
Proof.
  cbv zeta.
  destruct (Z.ltb_spec 200 (len (append history price))) as [Hbig | Hsmall].
  - pose proof (len_slice_last (append history price) 200 ltac:(lia)) as Hs.
    cbn [Z.opp] in Hs. lia.
  - exact Hsmall.
Qed.

Lemma generate_signal_bookkeeping
  (st : State) (market : MarketSnapshot) (portfolio : Portfolio)
  (now : datetime) :
  bookkeeping_bounded st ->
  bookkeeping_bounded (snd (generate_signal cfg st market portfolio now)).
Proof.
  intros (Htc & Hiff & Hwl & Hscore & Hloss & Hph).
  assert (Hl' : 0 <= _consecutive_losses
                       (snd (generate_signal cfg st market portfolio now))).
  { pose proof (generate_signal_gate_state cfg st market portfolio now)
      as Hg.
    cbv zeta in Hg.
    destruct Hg as [(_ & _ & ->) | (_ & st1 & _ & C1 & _ & Hcase)];
      [exact Hloss |].
    destruct Hcase as [[_ ->] | [_ ->]]; [lia |].
    apply drawdown_losses_nonneg. lia. }
  assert (Hph' : len (_price_history
                        (snd (generate_signal cfg st market portfolio now)))
                 <= 200).
  { destruct (generate_signal_histories cfg st market portfolio now)
      as [_ ->].
    apply capped_history_length. }
  revert Hl' Hph'.
  destruct (generate_signal cfg st market portfolio now) as [r st'] eqn:Hgs.
  cbn [snd]. intros Hl' Hph'.
  destruct (traced_of_generate_signal cfg st market portfolio now r st' Hgs)
    as [branch Htr].
  assert (Hkeep : forall a b : State,
             same_position a b ->
             0 <= _trade_count a ->
             (_trade_count a = 0 <-> _last_trade_time a = None) ->
             len (_win_loss_history a) <= 100 ->
             (0.8 <= _recent_performance_score a <= 1.2)%Q ->
             0 <= _trade_count b
             /\ (_trade_count b = 0 <-> _last_trade_time b = None)
             /\ len (_win_loss_history b) <= 100
             /\ (0.8 <= _recent_performance_score b <= 1.2)%Q).
  { intros a b (_ & _ & _ & _ & Tc & Lt & Wl & Sc).
    rewrite <- Tc, <- Lt, <- Wl, <- Sc. auto. }
  unfold bookkeeping_bounded.
  destruct (generate_signal_inversion cfg st market portfolio now r st'
              branch Htr)
    as [(_ & Hsame & _)
       | (_ & _ & st1 & st2 & score & cr & f0 & r0 & f1 & r1 & st3
          & _ & _ & _ & _ & _ & S2 & _ & _ & _ & _ & Hro & Hex)].
  - destruct (Hkeep st st' Hsame Htc Hiff Hwl Hscore) as (A & B & C & D).
    repeat split; try assumption; apply B || apply D.
  - pose proof (risk_overrides_same_position cfg st2 now
                  (current_price market) f0 r0) as (S3 & _).
    rewrite Hro in S3. cbn [snd] in S3.
    pose proof (same_position_trans st st2 st3 S2 S3) as S.
    destruct (Hkeep st st3 S Htc Hiff Hwl Hscore) as (A & B & C & D).
    destruct (execute_decision_cases cfg st3 market portfolio now _ score
                f1 r1 r st' Hex)
      as [(_ & -> & _) | [(o & _ & ->)
                         | [(_ & _ & -> & _) | (_ & _ & -> & _)]]];
      revert Hl' Hph'; project_state; intros Hl' Hph';
      repeat split; try assumption; try (apply B || apply D);
      try lia; try discriminate.
Qed.

Lemma on_trade_bookkeeping
  (st : State) (signal : Signal) (execution_price execution_size : Q)
  (timestamp : datetime) :
  bookkeeping_bounded st ->
  bookkeeping_bounded
    (on_trade st signal execution_price execution_size timestamp).
Proof.
  intros (Htc & Hiff & Hwl & Hscore & Hloss & Hph).
  unfold on_trade.
  assert (Hst : bookkeeping_bounded st) by (repeat split; auto; apply Hiff || apply Hscore).
  destruct (String.eqb (action signal) "buy" && Qgtb execution_size 0);
    [exact Hst |].
  destruct (String.eqb (action signal) "sell" && Qgtb execution_size 0);
    [| exact Hst].
  destruct (_entry_price st) as [e|]; [| exact Hst].
  destruct (Qeqb e 0); [exact Hst |].
  cbv zeta. unfold bookkeeping_bounded. project_state.
  split; [exact Htc |]. split; [exact Hiff |].
  split.
  { set (h := append (_win_loss_history st) (Qgtb execution_price e)).
    assert (Hh : len h = len (_win_loss_history st) + 1).
    { subst h. unfold append. rewrite len_app. reflexivity. }
    destruct (Z.ltb_spec 100 (len h)); [| assumption].
    destruct h as [| b t]; [cbn in *; lia |].
    cbn [tl]. unfold len in *. cbn [List.length] in *. lia. }
  split.
  { destruct (Qgtb execution_price e).
    - unfold min. destruct (Qltb _ _) eqn:E.
      + apply Qltb_lt in E. lra.
      + lra.
    - unfold max, Qgtb. destruct (Qltb _ _) eqn:E.
      + apply Qltb_lt in E. lra.
      + lra. }
  split; [| exact Hph].
  destruct (Qgtb execution_price e); lia.
Qed.

(** X14. Every state reached from a fresh instance by [generate_signal]
    and [on_trade] calls, in any order and with any arguments, keeps the
    position attributes together: while an entry price is stored it is
    not zero, the last signal is "buy", the trailing low equals the entry
    price, the entry time is set and the trailing high is at least the
    entry price; while none is stored the last signal is not "buy" and
    entry time, trailing high and trailing low are all [None].  The
    counters stay within their bounds: the trade count is zero exactly
    while no trade time is stored, at most 100 outcomes and 200 prices
    are kept, and the performance score stays in [0.8, 1.2]. *)
Theorem reachable_states_are_consistent (st : State) :
  reachable cfg st ->
  position_consistent st /\ bookkeeping_bounded st.
Proof.
  induction 1 as [| st market portfolio now _ [IH1 IH2]
                  | st signal price size ts _ [IH1 IH2]].
  - split.
    + unfold position_consistent. cbn. repeat split; discriminate.
    + unfold bookkeeping_bounded. cbn. repeat split; try lia;
        try discriminate; try reflexivity.
  - split.
    + apply generate_signal_consistent, IH1.
    + apply generate_signal_bookkeeping, IH2.
  - split.
    + apply on_trade_consistent, IH1.
    + apply on_trade_bookkeeping, IH2.
Qed.

End Invariants.

(* ------------------------------------------------------------------ *)
(** * The callback for the strategy's own signals *)

Section Callback.
Context `{FloatMath}.
Variable cfg : Config.

(** The signal a call returns is a hold, a buy, or a sell that has
    already cleared the entry price. *)
Lemma generate_signal_result_cases
  (st : State) (market : MarketSnapshot) (portfolio : Portfolio)
  (now : datetime) (sig : Signal) (st' : State) :
  generate_signal cfg st market portfolio now = (Ok sig, st') ->
  action sig = "hold" \/ action sig = "buy"
  \/ (action sig = "sell" /\ _entry_price st' = None).
Proof.
  intros Hgs.
  destruct (traced_of_generate_signal cfg st market portfolio now _ st' Hgs)
    as [branch Htr].
  destruct (generate_signal_inversion cfg st market portfolio now _ st'
              branch Htr)
    as [(_ & _ & _ & [(why & [= ->]) | (e & [=] & _)])
       | (_ & _ & st1 & st2 & score & cr & f0 & r0 & f1 & r1 & st3
          & _ & _ & _ & _ & _ & _ & _ & _ & _ & _ & _ & Hex)].
  - left. reflexivity.
  - destruct (execute_decision_cases cfg st3 market portfolio now _ score
                f1 r1 _ st' Hex)
      as [([=] & _) | [(o & [= ->] & _)
                      | [(_ & [= ->] & _) | (_ & [= ->] & -> & _)]]].
    + left. reflexivity.
    + right. left. reflexivity.
    + right. right. split; reflexivity.
Qed.

Lemma on_trade_without_entry
  (st : State) (sig : Signal) (execution_price execution_size : Q)
  (timestamp : datetime) :
  action sig = "hold" \/ action sig = "buy"
  \/ (action sig = "sell" /\ _entry_price st = None) ->
  on_trade st sig execution_price execution_size timestamp = st.
Proof.
  unfold on_trade.
  intros [Ha | [Ha | [Ha He]]]; rewrite Ha;
    cbn [String.eqb Ascii.eqb Bool.eqb andb].
  - reflexivity.
  - destruct (Qgtb execution_size 0); reflexivity.
  - rewrite He. destruct (Qgtb execution_size 0); reflexivity.
Qed.

(** The outcome history and the performance score are not written by
    [generate_signal]. *)
Lemma generate_signal_keeps_outcomes
  (st : State) (market : MarketSnapshot) (portfolio : Portfolio)
  (now : datetime) :
  let st' := snd (generate_signal cfg st market portfolio now) in
  _win_loss_history st' = _win_loss_history st
  /\ _recent_performance_score st' = _recent_performance_score st.
Proof.
  cbv zeta.
  destruct (generate_signal cfg st market portfolio now) as [r st'] eqn:Hgs.
  cbn [snd].
  destruct (traced_of_generate_signal cfg st market portfolio now r st' Hgs)
    as [branch Htr].
  destruct (generate_signal_inversion cfg st market portfolio now r st'
              branch Htr)
    as [(_ & Hsame & _)
       | (_ & _ & st1 & st2 & score & cr & f0 & r0 & f1 & r1 & st3
          & _ & _ & _ & _ & _ & S2 & _ & _ & _ & _ & Hro & Hex)].
  - destruct Hsame as (_ & _ & _ & _ & _ & _ & Wl & Sc). auto.
  - pose proof (risk_overrides_same_position cfg st2 now
                  (current_price market) f0 r0) as (S3 & _).
    rewrite Hro in S3. cbn [snd] in S3.
    destruct (same_position_trans st st2 st3 S2 S3)
      as (_ & _ & _ & _ & _ & _ & Wl & Sc).
    destruct (execute_decision_cases cfg st3 market portfolio now _ score
                f1 r1 r st' Hex)
      as [(_ & -> & _) | [(o & _ & ->)
                         | [(_ & _ & -> & _) | (_ & _ & -> & _)]]];
      project_state; auto.
Qed.

(** While no losing exit is pending the drawdown gate leaves a loss
    counter of zero at zero. *)
Lemma drawdown_losses_zero (st : State) (portfolio_value : Q) :
  _entry_price st = None \/ _last_signal st = Some "buy" ->
  _consecutive_losses st = 0 ->
  _consecutive_losses (snd (_check_drawdown_limits cfg st portfolio_value))
  = 0.
Proof.
  intros Hpos Hz. unfold _check_drawdown_limits.
  destruct (Qeqb (_peak_portfolio_value st) 0); [exact Hz |].
  assert (Hno : forall s : State,
             _entry_price s = _entry_price st ->
             _last_signal s = _last_signal st ->
             last_signal_is s "sell"
             && truthy_and (_entry_price s) (Qltb portfolio_value) = false).
  { intros s -> Hl. unfold last_signal_is. rewrite Hl.
    destruct Hpos as [-> | ->].
    - apply Bool.andb_false_r.
    - reflexivity. }
  cbv zeta.
  destruct (Qgtb portfolio_value (_peak_portfolio_value st)).
  - rewrite Hno by reflexivity. case_tests; reflexivity || exact Hz.
  - rewrite Hno by reflexivity. case_tests; reflexivity || exact Hz.
Qed.

Lemma generate_signal_losses_zero
  (st : State) (market : MarketSnapshot) (portfolio : Portfolio)
  (now : datetime) :
  position_consistent st -> _consecutive_losses st = 0 ->
  _consecutive_losses (snd (generate_signal cfg st market portfolio now))
  = 0.
Proof.
  intros Hpc Hz.
  pose proof (generate_signal_gate_state cfg st market portfolio now) as Hg.
  cbv zeta in Hg.
  destruct Hg as [(_ & _ & ->) | (_ & st1 & S1 & C1 & _ & Hcase)];
    [exact Hz |].
  destruct Hcase as [[_ ->] | [_ ->]]; [congruence |].
  apply drawdown_losses_zero; [| congruence].
  destruct S1 as (L & E & _). rewrite <- L, <- E.
  unfold position_consistent in Hpc.
  destruct (_entry_price st); [right; apply Hpc | left; reflexivity].
Qed.

(** X15. The [on_trade] callback for the signal that [generate_signal]
    has just returned changes nothing, whatever execution price, size and
    timestamp it is given: a sell has cleared [_entry_price] before it
    returns, so the win/loss branch of [on_trade] is not entered. *)
Theorem callback_for_own_signal_changes_nothing
  (st : State) (market : MarketSnapshot) (portfolio : Portfolio)
  (now : datetime) (sig : Signal) (st' : State)
  (execution_price execution_size : Q) (timestamp : datetime) :
  generate_signal cfg st market portfolio now = (Ok sig, st') ->
  on_trade st' sig execution_price execution_size timestamp = st'
  /\ (action sig = "sell" -> _entry_price st' = None)
  /\ (action sig = "hold" \/ action sig = "buy" \/ action sig = "sell").
Proof.
  intros Hgs.
  pose proof (generate_signal_result_cases st market portfolio now sig st'
                Hgs) as Hcases.
  split; [apply on_trade_without_entry, Hcases |].
  destruct Hcases as [Ha | [Ha | [Ha He]]]; rewrite Ha.
  - split; [discriminate | auto].
  - split; [discriminate | auto].
  - split; [intros _; exact He | auto].
Qed.

(** X16. In a session, where [on_trade] is only called for the signal
    the preceding [generate_signal] call returned, no outcome is ever
    recorded: the win/loss history stays empty, the performance score
    stays 1.0 and the loss counter stays 0, so the consecutive-loss
    limit never blocks a trade. *)
Theorem session_never_records_an_outcome (st : State) :
  session cfg st ->
  _win_loss_history st = [] /\ _recent_performance_score st = 1.0%Q
  /\ _consecutive_losses st = 0 /\ position_consistent st.
Proof.
  induction 1 as [| st market portfolio now _ (Wl & Sc & Cl & Pc)
                  | st market portfolio now sig st' price size ts _
                      (Wl & Sc & Cl & Pc) Hgs].
  - repeat split; try discriminate.
  - destruct (generate_signal_keeps_outcomes st market portfolio now)
      as [-> ->].
    split; [exact Wl | split; [exact Sc |]].
    split; [apply generate_signal_losses_zero; assumption
           | apply generate_signal_consistent; assumption].
  - rewrite (on_trade_without_entry st' sig price size ts
               (generate_signal_result_cases st market portfolio now sig
                  st' Hgs)).
    pose proof (generate_signal_keeps_outcomes st market portfolio now)
      as Hk.
    pose proof (generate_signal_losses_zero st market portfolio now Pc Cl)
      as Hl.
    pose proof (generate_signal_consistent cfg st market portfolio now Pc)
      as Hc.
    rewrite Hgs in Hk, Hl, Hc. cbn [snd] in Hk, Hl, Hc.
    destruct Hk as [-> ->]. auto.
Qed.

End Callback.

(* ------------------------------------------------------------------ *)
(** * The invariants on the scenarios *)

Lemma sell_at_42000 :
  exists st',
    @generate_signal decimal_math eager_config bought_at_45000
      (snapshot_of falling_to_42000 seven_pm) long_portfolio seven_pm
    = (Ok (mk_signal "sell" (Some 0.04%Q)
             "TRAILING_STOP_TRIGGERED | high:45000.00 | current:42000.00"),
       st').
Proof.
  destruct trailing_stop_fires_at_42000 as (st' & Htr & _).
  exists st'. unfold generate_signal. rewrite Htr. reflexivity.
Qed.

Lemma reachable_states_are_consistent_witness :
  @reachable decimal_math eager_config
     (snd (@generate_signal decimal_math eager_config init_state
             (snapshot_of falling_to_45000 noon) flat_portfolio noon))
  /\ position_consistent
       (snd (@generate_signal decimal_math eager_config init_state
               (snapshot_of falling_to_45000 noon) flat_portfolio noon)).
Proof.
  assert (Hr : @reachable decimal_math eager_config
                 (snd (@generate_signal decimal_math eager_config init_state
                         (snapshot_of falling_to_45000 noon) flat_portfolio
                         noon))).
  { apply reach_signal, reach_init. }
  split; [exact Hr |].
  exact (proj1 (@reachable_states_are_consistent decimal_math eager_config
                  _ Hr)).
Defined.

Lemma callback_for_own_signal_changes_nothing_witness :
  exists sig st',
    @generate_signal decimal_math eager_config bought_at_45000
      (snapshot_of falling_to_42000 seven_pm) long_portfolio seven_pm
    = (Ok sig, st')
    /\ action sig = "sell"
    /\ @on_trade st' sig 42000 0.04 seven_pm = st'.
Proof.
  destruct sell_at_42000 as (st' & Hgs).
  eexists. exists st'.
  split; [exact Hgs |]. split; [reflexivity |].
  exact (proj1 (@callback_for_own_signal_changes_nothing decimal_math
                  eager_config _ _ _ _ _ st' 42000 0.04 seven_pm Hgs)).
Defined.

Lemma session_never_records_an_outcome_witness :
  @session decimal_math eager_config
     (snd (@generate_signal decimal_math eager_config init_state
             (snapshot_of falling_to_45000 noon) flat_portfolio noon))
  /\ _win_loss_history
       (snd (@generate_signal decimal_math eager_config init_state
               (snapshot_of falling_to_45000 noon) flat_portfolio noon))
     = [].
Proof.
  assert (Hs : @session decimal_math eager_config
                 (snd (@generate_signal decimal_math eager_config init_state
                         (snapshot_of falling_to_45000 noon) flat_portfolio
                         noon))).
  { apply session_signal, session_init. }
  split; [exact Hs |].
  exact (proj1 (@session_never_records_an_outcome decimal_math eager_config
                  _ Hs)).
Defined.

(* ------------------------------------------------------------------ *)
(** * Export and restore *)

Lemma restore_time_keeps (old : option datetime) (text : option string)
  (new : option datetime) :
  restore_time old text = Some new ->
  (old <> None -> new <> None) /\ (text = None -> new = old)
  /\ (text = Some "" -> new = old).
Proof.
  unfold restore_time. destruct text as [[| c t] |].
  - intros [= <-]. repeat split; auto.
  - destruct (fromisoformat (String c t)); [| discriminate].
    cbn [option_map]. intros [= <-].
    repeat split; try discriminate.
  - intros [= <-]. repeat split; auto.
Qed.

Lemma whole_second_valid (d : datetime) : valid d -> valid (whole_second d).
Proof.
  unfold valid, whole_second. cbn [year month day hour minute second
                                   microsecond]. intuition lia.
Qed.

Lemma whole_second_idem (d : datetime) :
  whole_second (whole_second d) = whole_second d.
Proof. reflexivity. Qed.

Lemma utc_iso_whole_second (d : datetime) :
  _utc_iso (whole_second d) = _utc_iso d.
Proof. reflexivity. Qed.

Lemma export_history_idem (history : list bool) :
  let kept := if 50 <? len history
              then slice_from (-50) history else history in
  (if 50 <? len kept then slice_from (-50) kept else kept) = kept.
Proof.
  cbv zeta.
  destruct (Z.ltb_spec 50 (len history)) as [Hbig | Hsmall].
  - pose proof (len_slice_last history 50 ltac:(lia)) as Hs.
    cbn [Z.opp] in Hs. rewrite Hs. reflexivity.
  - destruct (Z.ltb_spec 50 (len history)); [lia | reflexivity].
Qed.

(** X17. [set_state] can set a timestamp but never clear one: for every
    dictionary the price history is kept, a timestamp whose key is absent,
    [None] or empty keeps the old value, and the other position
    attributes are taken from the dictionary as they are.  So restoring a
    dictionary without an entry price onto an instance that holds a
    position leaves the entry time set next to an entry price of
    [None]. *)
Theorem set_state_never_clears_a_timestamp
  (st : State) (state : Snapshot) (st' : State) :
  set_state st state = Some st' ->
  _price_history st' = _price_history st
  /\ (_entry_time st <> None -> _entry_time st' <> None)
  /\ (_last_trade_time st <> None -> _last_trade_time st' <> None)
  /\ (snap_entry_time state = None -> _entry_time st' = _entry_time st)
  /\ (snap_last_trade_time state = None ->
      _last_trade_time st' = _last_trade_time st)
  /\ _entry_price st' = snap_entry_price state
  /\ _last_signal st' = snap_last_signal state
  /\ (snap_entry_price state = None -> _entry_time st <> None ->
      ~ position_consistent st').
Proof.
  unfold set_state.
  destruct (restore_time (_entry_time st) (snap_entry_time state))
    as [entry_time|] eqn:He; [| discriminate].
  destruct (restore_time (_last_trade_time st) (snap_last_trade_time state))
    as [last_trade_time|] eqn:Hl; [| discriminate].
  intros [= <-].
  destruct (restore_time_keeps _ _ _ He) as (E1 & E2 & _).
  destruct (restore_time_keeps _ _ _ Hl) as (L1 & L2 & _).
  cbn [_price_history _entry_time _last_trade_time _entry_price
       _last_signal].
  repeat split; try assumption.
  intros Hnone Hset. unfold position_consistent.
  cbn [_price_history _entry_time _last_trade_time _entry_price
       _last_signal _trailing_high _trailing_low].
  rewrite Hnone. intros (_ & Hclear & _). exact (E1 Hset Hclear).
Qed.

(** X18. Exporting is stable under a round trip: for a state whose
    timestamps are valid datetimes, restoring its export on a fresh
    instance gives a state with the same export, which a second round
    trip reproduces exactly; the restored state keeps the position
    attributes together if the exported one did. *)
Theorem export_is_stable_under_a_round_trip (st : State) :
  (forall t, _entry_time st = Some t -> valid t) ->
  (forall t, _last_trade_time st = Some t -> valid t) ->
  exists restored,
    set_state init_state (get_state st) = Some restored
    /\ get_state restored = get_state st
    /\ set_state init_state (get_state restored) = Some restored
    /\ (position_consistent st -> position_consistent restored).
Proof.
  intros He Hl. eexists. split; [apply set_state_get_state; assumption |].
  split; [| split].
  - unfold get_state.
    cbn [_last_signal _entry_price _entry_time _trailing_high _trailing_low
         _consecutive_losses _peak_portfolio_value _price_history
         _win_loss_history _trade_count _last_trade_time
         _recent_performance_score].
    rewrite (export_history_idem (_win_loss_history st)).
    destruct (_entry_time st), (_last_trade_time st); reflexivity.
  - rewrite set_state_get_state.
    + cbn [_last_signal _entry_price _entry_time _trailing_high
           _trailing_low _consecutive_losses _peak_portfolio_value
           _price_history _win_loss_history _trade_count _last_trade_time
           _recent_performance_score].
      rewrite (export_history_idem (_win_loss_history st)).
      destruct (_entry_time st), (_last_trade_time st); reflexivity.
    + cbn [_entry_time]. intros t Ht.
      destruct (_entry_time st) as [d|]; [| discriminate].
      injection Ht as <-. apply whole_second_valid, He. reflexivity.
    + cbn [_last_trade_time]. intros t Ht.
      destruct (_last_trade_time st) as [d|]; [| discriminate].
      injection Ht as <-. apply whole_second_valid, Hl. reflexivity.
  - unfold position_consistent.
    cbn [_last_signal _entry_price _entry_time _trailing_high
         _trailing_low].
    destruct (_entry_price st); destruct (_entry_time st);
      cbn [option_map]; intuition congruence.
Qed.

(** X19. For valid datetimes the text of [_utc_iso] determines the
    datetime up to its microseconds and nothing more: two datetimes have
    the same text exactly when they agree on every field down to the
    second, and reading the text back gives the datetime with its
    microseconds dropped. *)
Theorem utc_iso_keeps_exactly_the_whole_second (a b : datetime) :
  valid a -> valid b ->
  (_utc_iso a = _utc_iso b <-> whole_second a = whole_second b)
  /\ fromisoformat (_utc_iso a) = Some (whole_second a)
  /\ (microsecond a = 0 -> fromisoformat (_utc_iso a) = Some a).
Proof.
  intros Ha Hb. split; [split |].
  - intros Heq.
    pose proof (fromisoformat_utc_iso a Ha) as Pa.
    pose proof (fromisoformat_utc_iso b Hb) as Pb.
    rewrite Heq in Pa. congruence.
  - intros Heq.
    rewrite <- (utc_iso_whole_second a), <- (utc_iso_whole_second b).
    now rewrite Heq.
  - split; [exact (fromisoformat_utc_iso a Ha) |].
    intros Hz. rewrite (fromisoformat_utc_iso a Ha).
    now rewrite (whole_second_id a Hz).
Qed.

Lemma noon_is_valid : valid noon.
Proof. unfold valid. repeat split; vm_compute; congruence. Qed.

Lemma one_pm_is_valid : valid one_pm.
Proof. unfold valid. repeat split; vm_compute; congruence. Qed.

Lemma set_state_never_clears_a_timestamp_witness :
  exists st',
    set_state stale_instance empty_snapshot = Some st'
    /\ _entry_time st' = Some noon /\ _entry_price st' = None
    /\ ~ position_consistent st'.
Proof.
  assert (Hset : set_state stale_instance empty_snapshot
                 = Some (mk_state None None (Some noon) None None 0 0.0%Q
                           [45000%Q; 46000%Q] [] 0 (Some noon) 1.0%Q))
    by reflexivity.
  eexists. split; [exact Hset |].
  split; [reflexivity | split; [reflexivity |]].
  refine (proj2 (proj2 (proj2 (proj2 (proj2 (proj2 (proj2
            (set_state_never_clears_a_timestamp stale_instance
               empty_snapshot _ Hset))))))) _ _).
  - reflexivity.
  - discriminate.
Defined.

Lemma export_is_stable_under_a_round_trip_witness :
  (forall t, _entry_time bought_at_45000 = Some t -> valid t)
  /\ (forall t, _last_trade_time bought_at_45000 = Some t -> valid t)
  /\ exists restored,
       set_state init_state (get_state bought_at_45000) = Some restored
       /\ get_state restored = get_state bought_at_45000.
Proof.
  assert (He : forall t, _entry_time bought_at_45000 = Some t -> valid t).
  { intros t [= <-]. exact noon_is_valid. }
  assert (Hl : forall t, _last_trade_time bought_at_45000 = Some t ->
                         valid t).
  { intros t [= <-]. exact noon_is_valid. }
  split; [exact He | split; [exact Hl |]].
  destruct (export_is_stable_under_a_round_trip bought_at_45000 He Hl)
    as (restored & Hset & Hexp & _).
  exists restored. split; [exact Hset | exact Hexp].
Defined.

Lemma utc_iso_keeps_exactly_the_whole_second_witness :
  valid noon /\ valid one_pm
  /\ fromisoformat (_utc_iso noon) = Some (whole_second noon).
Proof.
  split; [exact noon_is_valid | split; [exact one_pm_is_valid |]].
  exact (proj1 (proj2 (utc_iso_keeps_exactly_the_whole_second noon one_pm
                         noon_is_valid one_pm_is_valid))).
Defined.

(* ------------------------------------------------------------------ *)
(** * The size of an executed buy *)

Section Sizing.
Context `{FloatMath}.
Variable cfg : Config.



End Sizing.



(* ------------------------------------------------------------------ *)
(** * Flag parsing *)

Lemma is_space_lower_char (c : ascii) :
  is_space (lower_char c) = is_space c.
Proof.
  destruct c as [[|] [|] [|] [|] [|] [|] [|] [|]]; reflexivity.
Qed.

Lemma lower_char_idem (c : ascii) :
  lower_char (lower_char c) = lower_char c.
Proof.
  destruct c as [[|] [|] [|] [|] [|] [|] [|] [|]]; reflexivity.
Qed.

Lemma str_lower_idem (s : string) : str_lower (str_lower s) = str_lower s.
Proof.
  induction s as [| c s IH]; [reflexivity |].
  cbn [str_lower]. now rewrite lower_char_idem, IH.
Qed.

Lemma str_lower_empty (s : string) :
  String.eqb (str_lower s) "" = String.eqb s "".
Proof. destruct s; reflexivity. Qed.

Lemma str_lstrip_lower (s : string) :
  str_lstrip (str_lower s) = str_lower (str_lstrip s).
Proof.
  induction s as [| c s IH]; [reflexivity |].
  cbn [str_lower str_lstrip]. rewrite is_space_lower_char.
  destruct (is_space c); [exact IH | reflexivity].
Qed.

Lemma str_rstrip_lower (s : string) :
  str_rstrip (str_lower s) = str_lower (str_rstrip s).
Proof.
  induction s as [| c s IH]; [reflexivity |].
  cbn [str_lower str_rstrip]. cbv zeta.
  rewrite IH, str_lower_empty, is_space_lower_char.
  destruct (String.eqb (str_rstrip s) "" && is_space c); reflexivity.
Qed.

Lemma str_strip_lower (s : string) :
  str_strip (str_lower s) = str_lower (str_strip s).
Proof.
  unfold str_strip. now rewrite str_lstrip_lower, str_rstrip_lower.
Qed.

Lemma str_lstrip_blank (s : string) :
  all_space s = true -> str_lstrip s = "".
Proof.
  induction s as [| c s IH]; [reflexivity |].
  cbn [all_space str_lstrip]. intros Hs.
  apply andb_true_iff in Hs. destruct Hs as [-> Hs]. exact (IH Hs).
Qed.

Lemma str_rstrip_blank (s : string) :
  all_space s = true -> str_rstrip s = "".
Proof.
  induction s as [| c s IH]; [reflexivity |].
  cbn [all_space str_rstrip]. intros Hs.
  apply andb_true_iff in Hs. destruct Hs as [-> Hs].
  rewrite (IH Hs). reflexivity.
Qed.

Lemma str_lstrip_padded (pad s : string) :
  all_space pad = true -> str_lstrip (pad ++ s) = str_lstrip s.
Proof.
  induction pad as [| c pad IH]; [reflexivity |].
  cbn [all_space]. intros Hs.
  apply andb_true_iff in Hs. destruct Hs as [Hc Hs].
  cbn [String.append str_lstrip]. rewrite Hc. exact (IH Hs).
Qed.

Lemma str_rstrip_padded (s pad : string) :
  all_space pad = true -> str_rstrip (s ++ pad) = str_rstrip s.
Proof.
  intros Hs. induction s as [| c s IH].
  - exact (str_rstrip_blank pad Hs).
  - cbn [String.append str_rstrip]. now rewrite IH.
Qed.

Lemma str_strip_padded_right (s pad : string) :
  all_space pad = true ->
  str_rstrip (str_lstrip (s ++ pad)) = str_rstrip (str_lstrip s).
Proof.
  intros Hs. induction s as [| c s IH].
  - cbn [String.append str_lstrip]. now rewrite (str_lstrip_blank pad Hs).
  - cbn [String.append str_lstrip]. destruct (is_space c); [exact IH |].
    exact (str_rstrip_padded (String c s) pad Hs).
Qed.

Lemma str_strip_padded (left s right : string) :
  all_space left = true -> all_space right = true ->
  str_strip (left ++ s ++ right) = str_strip s.
Proof.
  intros Hl Hr. unfold str_strip.
  rewrite (str_lstrip_padded left (s ++ right) Hl).
  exact (str_strip_padded_right s right Hr).
Qed.

(** X21. [_as_bool] reads a text up to case and surrounding whitespace:
    padding an ASCII text with whitespace on either side, or lowering its
    letters, does not change the flag.  The default is used for [None]
    only: a blank text is false whatever the default. *)
Theorem as_bool_ignores_case_and_padding
  (left text right : string) (default : bool) :
  ascii_text text -> all_space left = true -> all_space right = true ->
  _as_bool (PyStr (left ++ text ++ right)) default
  = _as_bool (PyStr text) default
  /\ _as_bool (PyStr (str_lower text)) default
     = _as_bool (PyStr text) default
  /\ _as_bool (PyStr (left ++ right)) default = false
  /\ _as_bool (PyStr text) (negb default) = _as_bool (PyStr text) default
  /\ _as_bool PyNone default = default.
Proof.
  intros _ Hl Hr. unfold _as_bool. cbv zeta.
  split; [now rewrite (str_strip_padded left text right Hl Hr) |].
  split; [now rewrite str_strip_lower, str_lower_idem |].
  split; [| split; reflexivity].
  replace (left ++ right) with (left ++ "" ++ right) by reflexivity.
  rewrite (str_strip_padded left "" right Hl Hr). reflexivity.
Qed.

Lemma as_bool_ignores_case_and_padding_witness :
  ascii_text "Yes" /\ all_space "  " = true /\ all_space " " = true
  /\ _as_bool (PyStr ("  " ++ "Yes" ++ " ")) false = true.
Proof.
  assert (Ha : ascii_text "Yes").
  { unfold ascii_text. simpl. repeat constructor. }
  split; [exact Ha |]. split; [reflexivity |]. split; [reflexivity |].
  rewrite (proj1 (as_bool_ignores_case_and_padding "  " "Yes" " " false
                    Ha eq_refl eq_refl)).
  reflexivity.
Defined.

(* ------------------------------------------------------------------ *)
(** * Volatility *)

Section VolatilityFacts.
Context `{FloatMath}.

Lemma len_returns_of (window_prices : list Q) :
  len (returns_of window_prices) <= Z.max 0 (len window_prices - 1).
Proof.
  induction window_prices as [| a l IH]; [cbn; lia |].
  destruct l as [| b t]; [cbn; lia |].
  change (returns_of (a :: b :: t))
    with (if Qgtb a 0
          then ((b - a) / a)%Q :: returns_of (b :: t)
          else returns_of (b :: t)).
  assert (Hl : len (a :: b :: t) = len (b :: t) + 1)
    by (unfold len; cbn [List.length]; lia).
  assert (Hp : 1 <= len (b :: t)) by (unfold len; cbn [List.length]; lia).
  destruct (Qgtb a 0).
  - assert (Hc : forall x r, len (x :: r : list Q) = len r + 1)
      by (intros; unfold len; cbn [List.length]; lia).
    rewrite Hc. lia.
  - lia.
Qed.

Lemma pstdev_nonneg (data : list Q) :
  nonneg_sqrt -> (0 <= pstdev data)%Q.
Proof.
  intros Hsqrt. unfold pstdev. cbv zeta. apply Hsqrt.
  pose proof (sum_squares_nonneg (sum data / inject_Z (len data)) data)
    as Hs.
  pose proof (len_nonneg data) as Hn.
  destruct (Z.eq_dec (len data) 0) as [-> | Hnz].
  - unfold Qdiv. change (/ inject_Z 0)%Q with 0%Q. lra.
  - apply Qdiv_nonneg; [exact Hs |].
    change 0%Q with (inject_Z 0). rewrite <- Zlt_Qlt. lia.
Qed.

(** X22. [_calculate_volatility] is [None] exactly below [window]
    prices; otherwise it is a number that is not negative (for a square
    root that is not negative).  A window of one or two prices yields at
    most one return and so the value 0. *)
Theorem volatility_is_defined_and_not_negative
  (prices : list Q) (window : Z) :
  nonneg_sqrt ->
  (len prices < window -> _calculate_volatility prices window = None)
  /\ (window <= len prices ->
      exists volatility,
        _calculate_volatility prices window = Some volatility
        /\ (0 <= volatility)%Q)
  /\ (window <= len prices -> 1 <= window <= 2 ->
      _calculate_volatility prices window = Some 0%Q).
Proof.
  intros Hsqrt. unfold _calculate_volatility. cbv zeta.
  split; [| split].
  - intros Hshort.
    destruct (Z.ltb_spec (len prices) window); [reflexivity | lia].
  - intros Hlong.
    destruct (Z.ltb_spec (len prices) window); [lia |].
    destruct (len (returns_of _) <? 2).
    + exists 0%Q. split; [reflexivity | lra].
    + eexists. split; [reflexivity | apply pstdev_nonneg, Hsqrt].
  - intros Hlong Hw.
    destruct (Z.ltb_spec (len prices) window); [lia |].
    pose proof (len_returns_of (slice_from (- window) prices)) as Hr.
    rewrite (len_slice_last prices window) in Hr by lia.
    destruct (Z.ltb_spec (len (returns_of (slice_from (- window) prices)))
                         2); [reflexivity | lia].
Qed.

End VolatilityFacts.

Lemma volatility_is_defined_and_not_negative_witness :
  @nonneg_sqrt decimal_math
  /\ exists volatility,
       @_calculate_volatility decimal_math falling_to_45000 20
       = Some volatility
       /\ (0 <= volatility)%Q.
Proof.
  split; [exact sqrt_approx_nonneg |].
  apply (@volatility_is_defined_and_not_negative decimal_math
           falling_to_45000 20 sqrt_approx_nonneg).
  vm_compute. discriminate.
Defined.
